(** * R CLI: agent orchestration, retry layer and two skills, embedded in Rocq

    The development follows the Python sources:
    - [r_cli/core/agent.py]        ([Agent], [Skill])
    - [r_cli/skills/social_skill.py] (the response queue of [SocialMediaSkill])
    - [r_cli/skills/hublab_skill.py] ([_match_score], [hublab_search])
    - [tests/test_core.py]         (the behaviour expected of [with_retry],
                                    [LLMClient] and [TokenTracker])

    Python objects are modelled with explicit state passing.  A call that may
    raise returns an [outcome]; a method that mutates [self] and may raise is
    a function [S -> outcome A * S], so the state reached when an exception
    escapes is still visible.  Definitions come first, the theorems follow. *)

From Stdlib Require Import List String Ascii ZArith QArith Lia Bool.
From Stdlib Require Import DecimalString DecimalNat Sorted Permutation.
Import ListNotations.
Close Scope Q_scope.

Set Implicit Arguments.
Set Warnings "-register-all".  (* json is nested through list and prod *)

(* ====================================================================== *)
(** * Part I.  Definitions                                                 *)
(* ====================================================================== *)

(** ** Python-level primitives shared by all the modules *)
Module Py.

Local Open Scope string_scope.

(** The exception classes that occur in the modelled code; [MarkupError]
    is the one of [rich], a subclass of [Exception].  The last two derive
    from [BaseException] only: [except Exception] lets them through. *)
Inductive exn : Type :=
| ImportError (msg : string)
| TypeError (msg : string)
| OSError (msg : string)
| ValueError (msg : string)
| AttributeError (msg : string)
| MarkupError (msg : string)
| KeyError (key : string)
| APIConnectionError (msg : string)
| APITimeoutError (msg : string)
| RateLimitError (msg : string)
| AuthenticationError (msg : string)
| ValidationError (msg : string)
| LLMConnectionError (backend endpoint : string)
| KeyboardInterrupt
| SystemExit.

(** [isinstance(e, Exception)] *)
Definition is_Exception (e : exn) : bool :=
  match e with
  | KeyboardInterrupt | SystemExit => false
  | _ => true
  end.

(** [str(e)], the text an f-string shows for [{e}] *)
Definition exn_str (e : exn) : string :=
  match e with
  | ImportError m | TypeError m | OSError m | ValueError m
  | AttributeError m | MarkupError m | APIConnectionError m
  | APITimeoutError m | RateLimitError m | AuthenticationError m
  | ValidationError m => m
  | KeyError k => "'" ++ k ++ "'"
  | LLMConnectionError b u => b ++ " @ " ++ u
  | KeyboardInterrupt | SystemExit => ""
  end.

(** Result of a call: a value, or an exception on its way up. *)
Inductive outcome (A : Type) : Type :=
| Return (a : A)
| Raise (e : exn).
Arguments Return {A} a.
Arguments Raise {A} e.

(** A method of an object with state [S]: it may mutate the state and then
    either return or raise. *)
Definition M (S A : Type) : Type := S -> outcome A * S.

Definition ret {S A} (a : A) : M S A := fun s => (Return a, s).
Definition raise {S A} (e : exn) : M S A := fun s => (Raise e, s).
Definition bind {S A B} (m : M S A) (k : A -> M S B) : M S B :=
  fun s => match m s with
           | (Return a, s') => k a s'
           | (Raise e, s') => (Raise e, s')
           end.
Definition get {S} : M S S := fun s => (Return s, s).
Definition modify {S} (f : S -> S) : M S unit := fun s => (Return tt, f s).
Definition lift {S A} (o : outcome A) : M S A := fun s => (o, s).

(** [try: body  except ...: handler e]; the handler decides what it catches
    and re-raises the rest. *)
Definition try_except {S A} (body : M S A) (handler : exn -> M S A) : M S A :=
  fun s => match body s with
           | (Return a, s') => (Return a, s')
           | (Raise e, s') => handler e s'
           end.

(** [for x in xs: body x] *)
Fixpoint for_each {S X} (xs : list X) (body : X -> M S unit) : M S unit :=
  match xs with
  | [] => ret tt
  | x :: rest => bind (body x) (fun _ => for_each rest body)
  end.

Declare Scope py_scope.
Delimit Scope py_scope with py.
Notation "x <- c ;; k" := (bind c (fun x => k))
  (at level 61, c at next level, right associativity) : py_scope.
Notation "c ;;; k" := (bind c (fun _ => k))
  (at level 61, right associativity) : py_scope.

(** *** Strings *)

Definition nl : string := String (ascii_of_nat 10) EmptyString.

Definition lower_ascii (c : ascii) : ascii :=
  let n := nat_of_ascii c in
  if andb (Nat.leb 65 n) (Nat.leb n 90) then ascii_of_nat (n + 32) else c.

(** [s.lower()] on ASCII text *)
Fixpoint lower (s : string) : string :=
  match s with
  | EmptyString => EmptyString
  | String c r => String (lower_ascii c) (lower r)
  end.

(** [needle in hay] for strings *)
Definition str_in (needle hay : string) : bool :=
  match index 0 needle hay with Some _ => true | None => false end.

(** [s.startswith(p)] *)
Definition startswith (s p : string) : bool := prefix p s.

(** [x in xs] for a list of strings *)
Definition list_in (x : string) (xs : list string) : bool :=
  existsb (String.eqb x) xs.

(** [s[:n]] for [n >= 0] *)
Definition str_take (n : nat) (s : string) : string := substring 0 n s.

(** [str(n)] for integers *)
Definition str_of_nat (n : nat) : string :=
  NilZero.string_of_uint (Nat.to_uint n).
Definition str_of_Z (z : Z) : string :=
  NilZero.string_of_int (Z.to_int z).

(** Truthiness of a string: [if s:] *)
Definition truthy_str (s : string) : bool :=
  match s with EmptyString => false | _ => true end.

(** [s.replace(old, new)] for a non-empty [old]; [skip] counts the
    characters of a match that are still to be dropped.  For an empty [old]
    Python inserts [new] around every character. *)
Fixpoint replace_from (skip : nat) (old new s : string) : string :=
  match s with
  | EmptyString => EmptyString
  | String c r =>
      match skip with
      | S k => replace_from k old new r
      | O => if prefix old s
             then new ++ replace_from (String.length old - 1) old new r
             else String c (replace_from 0 old new r)
      end
  end.

Fixpoint intersperse_str (new s : string) : string :=
  match s with
  | EmptyString => new
  | String c r => new ++ String c (intersperse_str new r)
  end.

Definition replace (old new s : string) : string :=
  match old with
  | EmptyString => intersperse_str new s
  | _ => replace_from 0 old new s
  end.

(** [xs[:n]] for any integer [n]: a negative bound counts from the end. *)
Definition slice_to {A} (n : Z) (xs : list A) : list A :=
  if (0 <=? n)%Z then firstn (Z.to_nat n) xs
  else firstn (List.length xs - Z.to_nat (- n)) xs.

(** *** Dictionaries

    A Python [dict] keeps its keys in insertion order and [list(d.keys())]
    exposes that order, so a dictionary is an association list without
    duplicate keys: assigning to a present key replaces the value in place,
    assigning to a new key appends. *)
Definition dict (V : Type) : Type := list (string * V).

Fixpoint dict_get {V} (k : string) (d : dict V) : option V :=
  match d with
  | [] => None
  | (k', v) :: r => if String.eqb k k' then Some v else dict_get k r
  end.

Definition dict_contains {V} (k : string) (d : dict V) : bool :=
  match dict_get k d with Some _ => true | None => false end.

Fixpoint dict_set {V} (k : string) (v : V) (d : dict V) : dict V :=
  match d with
  | [] => [(k, v)]
  | (k', v') :: r =>
      if String.eqb k k' then (k, v) :: r else (k', v') :: dict_set k v r
  end.

Definition dict_keys {V} (d : dict V) : list string := map fst d.

(** *** JSON-shaped values: what [json.load] yields and [json.dumps] takes.
    Numbers are integers; floats do not occur in the modelled paths. *)
Inductive json : Type :=
| JNull
| JBool (b : bool)
| JInt (z : Z)
| JStr (s : string)
| JList (l : list json)
| JDict (d : list (string * json)).

(** [d.get(k)] on a dict value: [None] when the key is absent *)
Definition jget (k : string) (d : dict json) : json :=
  match dict_get k d with Some v => v | None => JNull end.

(** Truthiness of a value: [if v:] *)
Definition truthy (v : json) : bool :=
  match v with
  | JNull => false
  | JBool b => b
  | JInt z => negb (z =? 0)%Z
  | JStr s => truthy_str s
  | JList l => match l with [] => false | _ => true end
  | JDict d => match d with [] => false | _ => true end
  end.

(** [repr(v)] and [str(v)]; quotes inside strings are not escaped. *)
Fixpoint py_repr (v : json) : string :=
  match v with
  | JNull => "None"
  | JBool true => "True"
  | JBool false => "False"
  | JInt z => str_of_Z z
  | JStr s => "'" ++ s ++ "'"
  | JList l =>
      "[" ++ (fix items (l : list json) : string :=
                match l with
                | [] => ""
                | [x] => py_repr x
                | x :: r => py_repr x ++ ", " ++ items r
                end) l ++ "]"
  | JDict d =>
      "{" ++ (fix items (d : list (string * json)) : string :=
                match d with
                | [] => ""
                | [(k, x)] => "'" ++ k ++ "': " ++ py_repr x
                | (k, x) :: r =>
                    "'" ++ k ++ "': " ++ py_repr x ++ ", " ++ items r
                end) d ++ "}"
  end.

Definition py_str (v : json) : string :=
  match v with JStr s => s | _ => py_repr v end.

Definition jopt (o : option string) : json :=
  match o with Some s => JStr s | None => JNull end.

(** [type(v).__name__] *)
Definition type_name (v : json) : string :=
  match v with
  | JNull => "NoneType"
  | JBool _ => "bool"
  | JInt _ => "int"
  | JStr _ => "str"
  | JList _ => "list"
  | JDict _ => "dict"
  end.

(** The receiver of a call [v.get(...)]: a dict has the method; on any
    other value the lookup of the attribute raises. *)
Definition dict_of (v : json) : outcome (dict json) :=
  match v with
  | JDict d => Return d
  | _ => Raise (AttributeError ("'" ++ type_name v
                                ++ "' object has no attribute 'get'"))
  end.

End Py.

(** ** [r_cli/core/logging.py]: the token usage tracker *)
Module Logging.

Local Open Scope Z_scope.

(** Modelled from the spec: the class [TokenTracker] of [r_cli/core/logging.py]
    is absent from the sources at hand; the spec describes it as cumulative
    counters (prompt tokens, completion tokens, total tokens, request count)
    with [record], [reset] and a [summary] snapshot, and [tests/test_core.py]
    fixes the attribute names and the arithmetic. *)
Record TokenTracker : Type := mkTokenTracker {
  total_prompt_tokens : Z;
  total_completion_tokens : Z;
  total_tokens : Z;
  total_requests : Z
}.

(** [TokenTracker()] *)
Definition new_tracker : TokenTracker := mkTokenTracker 0 0 0 0.

(** [tracker.record(prompt_tokens, completion_tokens)] *)
Definition record (prompt_tokens completion_tokens : Z) (t : TokenTracker)
  : TokenTracker :=
  mkTokenTracker
    (total_prompt_tokens t + prompt_tokens)
    (total_completion_tokens t + completion_tokens)
    (total_tokens t + (prompt_tokens + completion_tokens))
    (total_requests t + 1).

(** [tracker.reset()] *)
Definition reset (t : TokenTracker) : TokenTracker := new_tracker.

(** [tracker.summary()] *)
Definition summary (t : TokenTracker) : Py.dict Z :=
  [("total_requests"%string, total_requests t);
   ("total_prompt_tokens"%string, total_prompt_tokens t);
   ("total_completion_tokens"%string, total_completion_tokens t);
   ("total_tokens"%string, total_tokens t)].

(** A run of [record] calls, in order. *)
Definition record_all (rs : list (Z * Z)) (t : TokenTracker) : TokenTracker :=
  fold_left (fun acc pc => record (fst pc) (snd pc) acc) rs t.

End Logging.

(** ** [r_cli/core/llm.py]: messages, tools and the conversation history *)
Module LLM.

Import Py.
Local Open Scope string_scope.

(** Modelled from the spec: [ToolCall], [Tool], [Message] and the history
    operations of [LLMClient] live in [r_cli/core/llm.py], which is absent
    from the sources at hand.  The records follow the data model of the spec
    and the constructor calls in [tests/test_core.py]. *)
Record ToolCall : Type := mkToolCall {
  tc_id : string;
  tc_name : string;
  tc_arguments : dict json
}.

Definition Kwargs : Type := dict json.

Record Tool : Type := mkTool {
  tool_name : string;
  tool_description : string;
  tool_parameters : json;
  handler : Kwargs -> outcome string
}.

(** [tool.to_dict()]: the shape handed to a tool-calling backend *)
Definition tool_to_dict (t : Tool) : json :=
  JDict [("type", JStr "function");
         ("function", JDict [("name", JStr (tool_name t));
                             ("description", JStr (tool_description t));
                             ("parameters", tool_parameters t)])].

Record Message : Type := mkMessage {
  role : string;
  content : option string;
  tool_calls : list ToolCall;
  tool_call_id : option string;
  msg_name : option string
}.

Definition text_message (r c : string) : Message :=
  mkMessage r (Some c) [] None None.

Record LLMClient : Type := mkLLMClient {
  messages : list Message;
  token_tracker : Logging.TokenTracker
}.

(** [LLMClient(config)]: an empty history *)
Definition new_client : LLMClient := mkLLMClient [] Logging.new_tracker.

Definition is_system (m : Message) : bool := String.eqb (role m) "system".

(** Whether the history starts with a system message. *)
Definition has_system_prompt (c : LLMClient) : bool :=
  match messages c with
  | m :: _ => is_system m
  | [] => false
  end.

(** Modelled from the spec: [set_system_prompt(text)] replaces or inserts the
    leading system message. *)
Definition set_system_prompt (text : string) (c : LLMClient) : LLMClient :=
  let m := text_message "system" text in
  match messages c with
  | m0 :: rest =>
      if is_system m0 then mkLLMClient (m :: rest) (token_tracker c)
      else mkLLMClient (m :: m0 :: rest) (token_tracker c)
  | [] => mkLLMClient [m] (token_tracker c)
  end.

(** Modelled from the spec: [add_message(role, content)] appends to the
    history. *)
Definition add_message (r c : string) (cl : LLMClient) : LLMClient :=
  mkLLMClient (messages cl ++ [text_message r c]) (token_tracker cl).

(** Modelled from the spec: [clear_history()] drops all messages except the
    leading system message. *)
Definition clear_history (c : LLMClient) : LLMClient :=
  match messages c with
  | m :: _ =>
      if is_system m then mkLLMClient [m] (token_tracker c)
      else mkLLMClient [] (token_tracker c)
  | [] => mkLLMClient [] (token_tracker c)
  end.

(** A run of [add_message] calls, in order. *)
Definition add_messages (ms : list (string * string)) (c : LLMClient)
  : LLMClient :=
  fold_left (fun acc rc => add_message (fst rc) (snd rc) acc) ms c.

End LLM.

(** ** [r_cli/core/llm.py]: the retry wrapper *)
Module Retry.

Import Py.

(** Modelled from the spec: the error classifier used by [with_retry];
    connection failures, timeouts and rate limiting are retriable, anything
    else (malformed input, authentication, ...) is fatal. *)
Definition is_retriable (e : exn) : bool :=
  match e with
  | APIConnectionError _ | APITimeoutError _ | RateLimitError _
  | LLMConnectionError _ _ => true
  | _ => false
  end.

Record RetryConfig : Type := mkRetryConfig {
  max_retries : nat;
  initial_delay : Q;
  max_delay : option Q;
  backend : string;
  endpoint : string
}.

(** Modelled from the spec: the delay slept before retry number [attempt + 1],
    [initial_delay * 2^attempt], optionally capped. *)
Definition backoff (cfg : RetryConfig) (attempt : nat) : Q :=
  let d := (initial_delay cfg * inject_Z (2 ^ Z.of_nat attempt))%Q in
  match max_delay cfg with
  | Some cap => if Qle_bool d cap then d else cap
  | None => d
  end.

(** What one wrapped call did: its outcome, the state the operation left
    behind, how many times the operation was invoked and the delays slept. *)
Record Run (S A : Type) : Type := mkRun {
  result : outcome A;
  final_state : S;
  invocations : nat;
  sleeps : list Q
}.

Section WithRetry.

Variables S A : Type.
Variable cfg : RetryConfig.

(** A zero-argument operation with side effects on a state [S]. *)
Variable operation : M S A.

(** The retry loop, with [retries_left] further attempts allowed after the
    one being made; [n] and [zs] accumulate the invocation count and the
    delays. *)
Fixpoint attempt_loop (retries_left attempt : nat) (s : S) (n : nat)
  (zs : list Q) : Run S A :=
  match operation s with
  | (Return v, s') => mkRun (Return v) s' (n + 1) zs
  | (Raise e, s') =>
      if is_retriable e then
        match retries_left with
        | O => mkRun (Raise (LLMConnectionError (backend cfg) (endpoint cfg)))
                     s' (n + 1) zs
        | Datatypes.S k =>
            attempt_loop k (attempt + 1) s' (n + 1)
                         (zs ++ [backoff cfg attempt])
        end
      else mkRun (Raise e) s' (n + 1) zs
  end.

(** Modelled from the spec: [with_retry(max_retries, initial_delay, ...)]
    applied to [operation]: retriable failures trigger up to [max_retries]
    additional attempts with exponential backoff, fatal failures propagate at
    once, and after the last allowed attempt the retriable failure is wrapped
    into a connection error carrying backend and endpoint. *)
Definition with_retry (s : S) : Run S A :=
  attempt_loop (max_retries cfg) 0 s 0 [].

(** The operation, started in [s], fails [n] times with a retriable error and
    then returns [v], leaving the state [s']. *)
Inductive fails_then_succeeds : nat -> S -> A -> S -> Prop :=
| fts_success s v s' :
    operation s = (Return v, s') ->
    fails_then_succeeds 0 s v s'
| fts_failure n s e s1 v s' :
    operation s = (Raise e, s1) ->
    is_retriable e = true ->
    fails_then_succeeds n s1 v s' ->
    fails_then_succeeds (Datatypes.S n) s v s'.

End WithRetry.

(** The flaky function of the tests: a call counter as state; the call raises
    a connection error while fewer than [k] calls were made before it. *)
Definition flaky (k : nat) (v : string) : M nat string :=
  fun count =>
    if Nat.ltb count k
    then (Raise (APIConnectionError "connection error"), count + 1)
    else (Return v, count + 1).

(** A function that always raises [ValueError]. *)
Definition value_error_func : M nat string :=
  fun count => (Raise (ValueError "Not retriable"), count + 1).

End Retry.

(** ** [r_cli/core/agent.py]: the agent and its skill registry *)
Module AgentCore.

Import Py LLM.
Local Open Scope string_scope.
Local Open Scope py_scope.

(** [class Skill]: the attributes and methods the agent uses.  A concrete
    skill overrides [get_tools] and [execute]; [execute] may raise. *)
Record Skill : Type := mkSkill {
  name : string;
  description : string;
  get_tools : list Tool;
  execute : Kwargs -> outcome string
}.

(** The defaults of the base class. *)
Definition base_skill : Skill :=
  mkSkill "base_skill" "Base skill" [] (fun _ => Return "Not implemented").

(** What the agent reads from [r_cli/core/config.py]: the per-skill
    enable/disable flags, [config.skills.is_skill_enabled]. *)
Record Config : Type := mkConfig {
  is_skill_enabled : string -> bool
}.

(** A skill class: [skill_class.__name__], the class attributes [name] and
    [description] that its instances inherit, and [__init__], which may raise
    and otherwise binds the methods of the instance. *)
Record SkillClass : Type := mkSkillClass {
  class_name : string;
  cls_name : string;
  cls_description : string;
  init : Config -> outcome (list Tool * (Kwargs -> outcome string))
}.

(** [skill_class(self.config)] *)
Definition construct (skill_class : SkillClass) (cfg : Config)
  : outcome Skill :=
  match init skill_class cfg with
  | Return (ts, exec) =>
      Return (mkSkill (cls_name skill_class) (cls_description skill_class)
                      ts exec)
  | Raise e => Raise e
  end.

(** The errors the spec names for a skill that cannot be set up: a missing
    dependency, a configuration error, an I/O error. *)
Definition is_load_failure (e : exn) : bool :=
  match e with
  | ImportError _ | TypeError _ | OSError _ => true
  | _ => false
  end.

(** Modelled from the spec: the short-term buffer of [r_cli/core/memory.py],
    which is absent from the sources at hand: an ordered sequence of entries
    (type tag, text, timestamp); [add_short_term] appends a timestamped entry
    and [save_session] writes the buffer to durable storage. *)
Record MemoryEntry : Type := mkEntry {
  entry_content : string;
  entry_type : string;
  entry_timestamp : string
}.

Record Memory : Type := mkMemory {
  short_term : list MemoryEntry;
  session_file : option (list MemoryEntry);
  clock : nat
}.

(** The collaborators whose code is not part of the agent: the wall clock,
    the relevance strategy of the memory and the two chat entry points of the
    LLM client, which touch only the client's own state and may raise. *)
Class Env : Type := mkEnv {
  now : nat -> string;
  get_relevant_context : list MemoryEntry -> string -> string;
  chat : string -> M LLMClient Message;
  chat_with_tools : string -> list Tool -> M LLMClient string
}.

(** The calls the agent makes on its collaborators, recorded in order, the
    way a mock records them. *)
Inductive event : Type :=
| EvAddShortTerm (e : MemoryEntry)
| EvGetContext (seen : list MemoryEntry) (query : string)
| EvChat (input : string)
| EvChatWithTools (input : string) (tool_names : list string)
| EvSaveSession (saved : list MemoryEntry).

Record Agent : Type := mkAgent {
  config : Config;
  llm : LLMClient;
  memory : Memory;
  skills : dict Skill;
  tools : list Tool;
  is_running : bool;
  console : list string;
  trace : list event
}.

Definition set_llm (l : LLMClient) (a : Agent) : Agent :=
  mkAgent (config a) l (memory a) (skills a) (tools a) (is_running a)
          (console a) (trace a).
Definition set_memory (m : Memory) (a : Agent) : Agent :=
  mkAgent (config a) (llm a) m (skills a) (tools a) (is_running a)
          (console a) (trace a).
Definition set_skills (d : dict Skill) (a : Agent) : Agent :=
  mkAgent (config a) (llm a) (memory a) d (tools a) (is_running a)
          (console a) (trace a).
Definition set_tools (ts : list Tool) (a : Agent) : Agent :=
  mkAgent (config a) (llm a) (memory a) (skills a) ts (is_running a)
          (console a) (trace a).
Definition log_event (e : event) (a : Agent) : Agent :=
  mkAgent (config a) (llm a) (memory a) (skills a) (tools a) (is_running a)
          (console a) (trace a ++ [e]).

(** The console of [rich], whose code is not part of the agent.
    [console.print] parses the markup of the text it is given before it
    prints anything, and raises a [MarkupError] when the text has a closing
    tag that matches no open tag: [markup_error text] is the message of that
    error, [None] when the text renders. *)
Class Console : Type := mkConsole {
  markup_error : string -> option string
}.

(** [console.print(text)] *)
Definition console_print {rich : Console} (text : string) : M Agent unit :=
  fun a =>
    match markup_error text with
    | Some msg => (Raise (MarkupError msg), a)
    | None =>
        (Return tt,
         mkAgent (config a) (llm a) (memory a) (skills a) (tools a)
                 (is_running a) (console a ++ [text]) (trace a))
    end.

(** The state in which [__init__] leaves the registry: no skill, no tool. *)
Definition new_agent (cfg : Config) (client : LLMClient) : Agent :=
  mkAgent cfg client (mkMemory [] None 0) [] [] false [] [].

Section Methods.

Context {env : Env} {rich : Console}.

(** [self.memory.add_short_term(text, entry_type=...)] *)
Definition add_short_term (text entry_type : string) : M Agent unit :=
  modify (fun a =>
    let m := memory a in
    let e := mkEntry text entry_type (now (clock m)) in
    log_event (EvAddShortTerm e)
      (set_memory (mkMemory (short_term m ++ [e]) (session_file m)
                            (clock m + 1)) a)).

(** [self.memory.get_relevant_context(query)] *)
Definition relevant_context (query : string) : M Agent string :=
  fun a =>
    let buffer := short_term (memory a) in
    (Return (get_relevant_context buffer query),
     log_event (EvGetContext buffer query) a).

(** [self.memory.save_session()] *)
Definition save_session : M Agent unit :=
  modify (fun a =>
    let m := memory a in
    log_event (EvSaveSession (short_term m))
      (set_memory (mkMemory (short_term m) (Some (short_term m)) (clock m)) a)).

(** [self.llm.chat(input)] *)
Definition llm_chat (input : string) : M Agent Message :=
  fun a =>
    let (r, l') := chat input (llm a) in
    (r, set_llm l' (log_event (EvChat input) a)).

(** [self.llm.chat_with_tools(input, tools)] *)
Definition llm_chat_with_tools (input : string) (ts : list Tool)
  : M Agent string :=
  fun a =>
    let (r, l') := chat_with_tools input ts (llm a) in
    (r, set_llm l' (log_event (EvChatWithTools input (map tool_name ts)) a)).

(** [Agent.register_skill] *)
Definition register_skill (skill : Skill) : M Agent unit :=
  modify (fun a => set_skills (dict_set (name skill) skill (skills a)) a) ;;;
  for_each (get_tools skill)
    (fun tool => modify (fun a => set_tools (tools a ++ [tool]) a)) ;;;
  console_print ("[dim]Skill registered: " ++ name skill ++ "[/dim]").

(** The [except] clauses of [load_skills], tried in order; what is not an
    [Exception] is not caught. *)
Definition load_error_handler (skill_class : SkillClass) (e : exn)
  : M Agent unit :=
  match e with
  | ImportError _ =>
      console_print ("[yellow]Missing dependency for "
                     ++ class_name skill_class ++ ": " ++ exn_str e
                     ++ "[/yellow]")
  | TypeError _ =>
      console_print ("[yellow]Configuration error in "
                     ++ class_name skill_class ++ ": " ++ exn_str e
                     ++ "[/yellow]")
  | OSError _ =>
      console_print ("[yellow]File/IO error in "
                     ++ class_name skill_class ++ ": " ++ exn_str e
                     ++ "[/yellow]")
  | _ =>
      if is_Exception e
      then console_print ("[yellow]Unexpected error loading "
                          ++ class_name skill_class ++ ": " ++ exn_str e
                          ++ "[/yellow]")
      else raise e
  end.

(** The body of the loop of [load_skills] for one class. *)
Definition load_skill (skill_class : SkillClass) : M Agent unit :=
  try_except
    (a <- get ;;
     skill <- lift (construct skill_class (config a)) ;;
     if negb (is_skill_enabled (config a) (name skill))
     then console_print ("[dim]Skill disabled in config: " ++ name skill
                         ++ "[/dim]")
     else register_skill skill)
    (load_error_handler skill_class).

(** [Agent.load_skills]; [all_skills] is the list [get_all_skills()]
    returns. *)
Definition load_skills (all_skills : list SkillClass) : M Agent unit :=
  for_each all_skills load_skill.

(** The prompt sent to the model: the input, followed by the context block
    when there is one. *)
Definition augment (user_input context : string) : string :=
  if truthy_str context
  then user_input ++ nl ++ nl ++ "[Available context]" ++ nl ++ context
  else user_input.

(** [response_msg.content or ""] *)
Definition content_or_empty (m : Message) : string :=
  match content m with Some s => s | None => "" end.

(** [Agent.run] *)
Definition run (user_input : string) (show_thinking : bool) : M Agent string :=
  add_short_term user_input "user_input" ;;;
  context <- relevant_context user_input ;;
  let augmented_input := augment user_input context in
  a <- get ;;
  response <- match tools a with
              | _ :: _ => llm_chat_with_tools augmented_input (tools a)
              | [] => response_msg <- llm_chat augmented_input ;;
                      ret (content_or_empty response_msg)
              end ;;
  add_short_term response "agent_response" ;;;
  save_session ;;;
  ret response.

(** [Agent.run_skill_directly] *)
Definition run_skill_directly (skill_name : string) (kwargs : Kwargs)
  : M Agent string :=
  a <- get ;;
  if negb (dict_contains skill_name (skills a))
  then ret ("Skill not found: " ++ skill_name)
  else match dict_get skill_name (skills a) with
       | Some skill => lift (execute skill kwargs)
       | None => raise (KeyError skill_name)
       end.

(** [Agent.get_available_skills] *)
Definition get_available_skills (a : Agent) : list string :=
  dict_keys (skills a).

End Methods.

(** Vocabulary for the statements about [run], for an agent [a] about to
    process [input]: the entry made of the input, the buffer with that entry
    added, the prompt built from it, the call on the LLM client, and the
    entry made of a response. *)
Section RunVocabulary.

Context {env : Env}.

Definition user_entry (a : Agent) (input : string) : MemoryEntry :=
  mkEntry input "user_input" (now (clock (memory a))).

Definition buffer_with_input (a : Agent) (input : string)
  : list MemoryEntry :=
  (short_term (memory a) ++ [user_entry a input])%list.

Definition prompt_of (a : Agent) (input : string) : string :=
  augment input (get_relevant_context (buffer_with_input a input) input).

Definition llm_event (a : Agent) (input : string) : event :=
  match tools a with
  | [] => EvChat (prompt_of a input)
  | ts => EvChatWithTools (prompt_of a input) (map tool_name ts)
  end.

Definition response_entry (a : Agent) (response : string) : MemoryEntry :=
  mkEntry response "agent_response" (now (clock (memory a) + 1)).

End RunVocabulary.

(** The events of a run that are calls on the LLM client. *)
Definition is_llm_call (e : event) : bool :=
  match e with
  | EvChat _ | EvChatWithTools _ _ => true
  | _ => false
  end.

(** The buffers the context fetches of a trace were given. *)
Fixpoint context_views (tr : list event) : list (list MemoryEntry) :=
  match tr with
  | [] => []
  | EvGetContext seen _ :: r => seen :: context_views r
  | _ :: r => context_views r
  end.

End AgentCore.

(** ** [r_cli/skills/social_skill.py]: the response queue *)
Module Social.

Import Py.
Local Open Scope string_scope.
Local Open Scope py_scope.

Definition of_bytes (l : list nat) : string :=
  string_of_list_ascii (map ascii_of_nat l).

(** The icons of the messages, byte for byte as the source file has them. *)
Definition ICON_OK : string := of_bytes [195; 162; 197; 147; 226; 128; 166].
Definition ICON_PENDING : string := of_bytes [195; 162; 194; 179].
Definition ICON_EMPTY : string :=
  of_bytes [195; 176; 197; 184; 226; 128; 156; 194; 173].
Definition ICON_QUEUE : string :=
  of_bytes [195; 176; 197; 184; 226; 128; 156; 226; 128; 185].
Definition ICON_ERROR : string := of_bytes [195; 162; 197; 146].

Record Platform : Type := mkPlatform {
  plat_name : string;
  api_base : string;
  env_vars : list string
}.

Definition PLATFORMS : dict Platform :=
  [("twitter", mkPlatform "Twitter/X" "https://api.twitter.com/2"
      ["TWITTER_BEARER_TOKEN"; "TWITTER_API_KEY"; "TWITTER_API_SECRET"]);
   ("instagram", mkPlatform "Instagram" "https://graph.instagram.com"
      ["INSTAGRAM_ACCESS_TOKEN"; "INSTAGRAM_BUSINESS_ID"]);
   ("facebook", mkPlatform "Facebook" "https://graph.facebook.com/v18.0"
      ["FACEBOOK_ACCESS_TOKEN"; "FACEBOOK_PAGE_ID"]);
   ("linkedin", mkPlatform "LinkedIn" "https://api.linkedin.com/v2"
      ["LINKEDIN_ACCESS_TOKEN"]);
   ("discord", mkPlatform "Discord" "https://discord.com/api/v10"
      ["DISCORD_BOT_TOKEN"]);
   ("telegram", mkPlatform "Telegram" "https://api.telegram.org"
      ["TELEGRAM_BOT_TOKEN"])].

(** One entry of [_response_queue]: a dict with these seven keys, whose
    ["status"] is assigned in place by [queue_send]. *)
Record QueueItem : Type := mkQueueItem {
  id : string;
  platform : string;
  message_id : string;
  response : string;
  priority : string;
  status : string;
  created_at : string
}.

Definition set_status (st : string) (i : QueueItem) : QueueItem :=
  mkQueueItem (id i) (platform i) (message_id i) (response i) (priority i)
              st (created_at i).

Definition is_pending (i : QueueItem) : bool := String.eqb (status i) "pending".

Record HttpRequest : Type := mkHttpRequest {
  req_method : string;
  req_url : string;
  req_headers : dict string;
  req_json : option json
}.

(** A response of [httpx]: [response.json()] may raise; when it returns, the
    value is whatever JSON the body holds, an object or not. *)
Record HttpResponse : Type := mkHttpResponse {
  status_code : Z;
  text : string;
  resp_json : string + json
}.

(** What one request of [_make_request] comes to: an error dict when the
    request fails, when the status is 400 or more, or when the body cannot
    be decoded; else the decoded body as it is. *)
Definition request_result (sent : string + HttpResponse) : json :=
  match sent with
  | inl msg => JDict [("error", JStr msg)]
  | inr resp =>
      if (400 <=? status_code resp)%Z
      then JDict [("error",
                   JStr ("API error: " ++ str_of_Z (status_code resp)));
                  ("detail", JStr (text resp))]
      else match resp_json resp with
           | inl msg => JDict [("error", JStr msg)]
           | inr body => body
           end
  end.

(** The surroundings of the skill: environment variables, whether [httpx] can
    be imported, the network (a request either raises an [Exception], given
    by its [str], or yields a response) and the wall clock. *)
Class Env (World : Type) : Type := mkEnv {
  environ : string -> option string;
  httpx_installed : bool;
  httpx_send : HttpRequest -> World -> (string + HttpResponse) * World;
  datetime_now_isoformat : World -> string * World
}.

Section Skill.

Context {World : Type} {env : Env World}.

Record SocialMediaSkill : Type := mkSocialMediaSkill {
  _messages_cache : list json;
  _response_queue : list QueueItem;
  world : World
}.

(** [SocialMediaSkill(config)] *)
Definition new_skill (w : World) : SocialMediaSkill :=
  mkSocialMediaSkill [] [] w.

Definition set_queue (q : list QueueItem) (s : SocialMediaSkill)
  : SocialMediaSkill :=
  mkSocialMediaSkill (_messages_cache s) q (world s).

(** A call that only touches the outside world. *)
Definition in_world {A} (m : M World A) : M SocialMediaSkill A :=
  fun s => let (r, w) := m (world s) in
           (r, mkSocialMediaSkill (_messages_cache s) (_response_queue s) w).

(** [import httpx] *)
Definition import_httpx {S} : M S unit :=
  if httpx_installed then ret tt
  else raise (ImportError "No module named 'httpx'").

(** A network call through [httpx]; what it raises is an [Exception]. *)
Definition http (req : HttpRequest) : M World HttpResponse :=
  fun w => match httpx_send req w with
           | (inl msg, w') => (Raise (OSError msg), w')
           | (inr resp, w') => (Return resp, w')
           end.

(** [SocialMediaSkill._get_credentials] *)
Definition _get_credentials (platform : string) : dict string :=
  match dict_get platform PLATFORMS with
  | None => []
  | Some p =>
      fold_left
        (fun creds env_var =>
           match environ env_var with
           | Some value =>
               if truthy_str value
               then dict_set (replace (platform ++ "_") "" (lower env_var))
                             value creds
               else creds
           | None => creds
           end)
        (env_vars p) []
  end.

(** [SocialMediaSkill._is_connected] *)
Definition _is_connected (platform : string) : bool :=
  Nat.ltb 0 (List.length (_get_credentials platform)).

(** [SocialMediaSkill._get_auth_headers] *)
Definition _get_auth_headers (platform : string) (creds : dict string)
  : dict string :=
  let headers := [("Content-Type", "application/json")] in
  let bearer key prefix :=
    match dict_get key creds with
    | Some tok => dict_set "Authorization" (prefix ++ tok) headers
    | None => headers
    end in
  if String.eqb platform "twitter" then bearer "bearer_token" "Bearer "
  else if String.eqb platform "discord" then bearer "bot_token" "Bot "
  else if String.eqb platform "telegram" then headers
  else if orb (String.eqb platform "instagram") (String.eqb platform "facebook")
       then headers
  else if String.eqb platform "linkedin" then bearer "access_token" "Bearer "
  else headers.

(** The handlers of [_make_request]: [except ImportError], then
    [except Exception]. *)
Definition request_error_handler (e : exn) : M World json :=
  match e with
  | ImportError _ =>
      ret (JDict [("error",
                   JStr "httpx not installed. Run: pip install httpx")])
  | _ => if is_Exception e then ret (JDict [("error", JStr (exn_str e))])
         else raise e
  end.

(** [SocialMediaSkill._make_request]; it is declared to return a dict, and
    returns [response.json()] as it comes. *)
Definition _make_request (platform endpoint method : string)
  (data : option json) : M World json :=
  try_except
    (import_httpx ;;;
     let creds := _get_credentials platform in
     match creds with
     | [] => ret (JDict [("error",
                          JStr ("Platform " ++ platform ++ " not connected"))])
     | _ :: _ =>
         match dict_get platform PLATFORMS with
         | None => raise (KeyError platform)
         | Some p =>
             let headers := _get_auth_headers platform creds in
             let url := api_base p ++ endpoint in
             let send req :=
               resp <- http req ;;
               if (400 <=? status_code resp)%Z
               then ret (JDict
                           [("error",
                             JStr ("API error: "
                                   ++ str_of_Z (status_code resp)));
                            ("detail", JStr (text resp))])
               else match resp_json resp with
                    | inl msg => raise (ValueError msg)
                    | inr body => ret body
                    end in
             if String.eqb method "GET"
             then send (mkHttpRequest "GET" url headers None)
             else if String.eqb method "POST"
             then send (mkHttpRequest "POST" url headers data)
             else ret (JDict [("error",
                               JStr ("Unsupported method: " ++ method))])
         end
     end)
    request_error_handler.

(** The Telegram branch of [_send_reply] once a bot token is known; the
    calls [response.get] are inside the [try]. *)
Definition telegram_send_message (bot_token chat_id text : string)
  : M World json :=
  import_httpx ;;;
  try_except
    (resp <- http (mkHttpRequest "POST"
                     ("https://api.telegram.org/bot" ++ bot_token
                      ++ "/sendMessage")
                     []
                     (Some (JDict [("chat_id", JStr chat_id);
                                   ("text", JStr text)]))) ;;
     match resp_json resp with
     | inl msg => raise (ValueError msg)
     | inr body =>
         response <- lift (dict_of body) ;;
         if truthy (jget "ok" response)
         then ret (JDict [("success", JBool true)])
         else ret (JDict [("error", jget "description" response)])
     end)
    (fun e => if is_Exception e then ret (JDict [("error", JStr (exn_str e))])
              else raise e).

(** [SocialMediaSkill._send_reply] *)
Definition _send_reply (platform message_id text : string)
  : M World json :=
  let unsupported : M World json :=
    ret (JDict [("error", JStr "Platform not supported for replies")]) in
  if String.eqb platform "twitter" then
    _make_request platform "/tweets" "POST"
      (Some (JDict [("text", JStr text);
                    ("reply", JDict [("in_reply_to_tweet_id",
                                      JStr message_id)])]))
  else if String.eqb platform "telegram" then
    match dict_get "bot_token" (_get_credentials platform) with
    | Some bot_token => telegram_send_message bot_token message_id text
    | None => unsupported
    end
  else unsupported.

(** [datetime.now().isoformat()] *)
Definition now_isoformat : M SocialMediaSkill string :=
  in_world (fun w => let (t, w') := datetime_now_isoformat w in (Return t, w')).

(** [SocialMediaSkill.queue_add]; [priority] defaults to ["normal"]. *)
Definition queue_add (platform message_id response priority : string)
  : M SocialMediaSkill string :=
  s <- get ;;
  let qid := "q_" ++ str_of_nat (List.length (_response_queue s) + 1) in
  now <- now_isoformat ;;
  let queue_item :=
    mkQueueItem qid platform message_id response priority "pending" now in
  modify (fun s => set_queue (_response_queue s ++ [queue_item])%list s) ;;;
  ret (ICON_OK ++ " Added to queue: " ++ id queue_item ++ nl
       ++ "Priority: " ++ priority ++ nl
       ++ "Response: " ++ str_take 50 response ++ "...").

(** The lines [queue_list] prints for one item. *)
Definition item_lines (item : QueueItem) : list string :=
  let status_icon := if is_pending item then ICON_PENDING else ICON_OK in
  let shown_platform :=
    match dict_get (platform item) PLATFORMS with
    | Some p => plat_name p
    | None => platform item
    end in
  [status_icon ++ " [" ++ id item ++ "] " ++ shown_platform;
   "   To: " ++ message_id item;
   "   Response: " ++ str_take 60 (response item) ++ "...";
   "   Priority: " ++ priority item;
   ""].

(** [SocialMediaSkill.queue_list] *)
Definition queue_list : M SocialMediaSkill string :=
  s <- get ;;
  match _response_queue s with
  | [] => ret (ICON_EMPTY ++ " Response queue is empty")
  | q =>
      ret (String.concat nl
             (fold_left (fun result item => (result ++ item_lines item)%list) q
                        [ICON_QUEUE ++ " Response Queue" ++ nl]))
  end.

(** Membership of an item in [items_to_send]: the whole queue when
    [queue_id in (None, "all")], else the items with that id. *)
Definition selected (queue_id : option string) (item : QueueItem) : bool :=
  match queue_id with
  | None => true
  | Some q => if String.eqb q "all" then true else String.eqb (id item) q
  end.

(** What the loop of [queue_send] may do to an item: nothing, or, if the
    item is selected, set its status to ["sent"]. *)
Definition marked (queue_id : option string) (i i' : QueueItem) : Prop :=
  i' = i \/ (selected queue_id i = true /\ i' = set_status "sent" i).

(** The loop of [queue_send].  [items_to_send] holds the very dicts of the
    queue, each exactly once, so the assignment [item["status"] = "sent"] is
    an update of the queue at the position of that item: the queue is
    [done ++ item :: rest] while [item] is visited, and it is written back as
    soon as the status changes, so that an exception leaving the loop finds
    the queue as Python has it.  The call [result.get] is outside any
    [try]: it raises when the reply is not a dict. *)
Fixpoint send_loop (queue_id : option string) (done todo : list QueueItem)
  (sent : nat) (errors : list string)
  : M SocialMediaSkill (nat * list string) :=
  match todo with
  | [] => ret (sent, errors)
  | item :: rest =>
      if andb (selected queue_id item) (is_pending item) then
        reply <- in_world (_send_reply (platform item) (message_id item)
                                       (response item)) ;;
        result <- lift (dict_of reply) ;;
        if truthy (jget "success" result) then
          let item' := set_status "sent" item in
          modify (set_queue (done ++ item' :: rest)%list) ;;;
          send_loop queue_id (done ++ [item'])%list rest (sent + 1) errors
        else
          send_loop queue_id (done ++ [item])%list rest sent
            (errors
             ++ [(id item ++ ": " ++ py_str (jget "error" result))%string])%list
      else send_loop queue_id (done ++ [item])%list rest sent errors
  end.

(** [SocialMediaSkill.queue_send] *)
Definition queue_send (queue_id : option string) : M SocialMediaSkill string :=
  s <- get ;;
  match _response_queue s with
  | [] => ret "Queue is empty"
  | q =>
      r <- send_loop queue_id [] q 0 [] ;;
      modify (fun s => set_queue (filter is_pending (_response_queue s)) s) ;;;
      let result_text :=
        ICON_OK ++ " Sent: " ++ str_of_nat (fst r) ++ " responses" in
      ret (match snd r with
           | [] => result_text
           | errors => result_text ++ nl ++ ICON_ERROR ++ " Errors:" ++ nl
                       ++ String.concat nl errors
           end)
  end.

(** The public queue operations, as calls. *)
Inductive queue_op : Type :=
| OpAdd (platform message_id response priority : string)
| OpList
| OpSend (queue_id : option string).

Definition step (op : queue_op) : M SocialMediaSkill string :=
  match op with
  | OpAdd p m r prio => queue_add p m r prio
  | OpList => queue_list
  | OpSend q => queue_send q
  end.

(** The skill after a series of calls; a call that raises leaves the skill
    in the state it had reached, and the next call starts from there. *)
Fixpoint exec (ops : list queue_op) (s : SocialMediaSkill)
  : SocialMediaSkill :=
  match ops with
  | [] => s
  | op :: rest => exec rest (snd (step op s))
  end.

Definition all_pending (q : list QueueItem) : Prop :=
  Forall (fun i => status i = "pending") q.

End Skill.

Arguments SocialMediaSkill World : clear implicits.

(** A scripted world for examples: the replies of the network, consumed one
    per request, and a tick counter for the clock. *)
Record Script : Type := mkScript {
  replies : list (string + HttpResponse);
  ticks : nat
}.

Definition script_env (vars : dict string) (installed : bool) : Env Script :=
  mkEnv (fun v => dict_get v vars) installed
        (fun _ w => match replies w with
                    | r :: rest => (r, mkScript rest (ticks w))
                    | [] => (inl "connection refused", w)
                    end)
        (fun w => ("t" ++ str_of_nat (ticks w),
                   mkScript (replies w) (ticks w + 1))).

End Social.

(** ** [r_cli/skills/hublab_skill.py]: scoring and search of the catalog *)
Module HubLab.

Import Py.
Local Open Scope string_scope.
Local Open Scope py_scope.

(** A capsule of the catalog: a dict whose keys may be absent ([None] here);
    a present key holds a string, ["tags"] a list of strings. *)
Record Capsule : Type := mkCapsule {
  cap_id : option string;
  cap_name : option string;
  cap_category : option string;
  cap_description : option string;
  cap_tags : option (list string)
}.

(** [capsule.get(key, "")] and [capsule.get("tags", [])] *)
Definition get_str (field : option string) : string :=
  match field with Some s => s | None => "" end.
Definition get_tags (c : Capsule) : list string :=
  match cap_tags c with Some ts => ts | None => [] end.

(** The surroundings of the skill: the [HUBLAB_PATH] setting; the answer of
    [metadata_path.exists()], which re-raises the [OSError]s that do not
    mean "not there" (a directory on the path that may not be searched),
    given by their [str]; what [open] and [json.load] give when the file is
    read (an [Exception], by its [str], or the catalog); and the HTTP API
    (an [Exception], or the decoded object with its optional ["capsules"]
    key). *)
Class Env : Type := mkEnv {
  HUBLAB_PATH : string;
  metadata_exists : string + bool;
  read_metadata : string + list Capsule;
  fetch_api : string + option (list Capsule)
}.

Record HubLabSkill : Type := mkHubLabSkill {
  _capsules_cache : option (list Capsule);
  _categories_cache : option (dict nat)
}.

(** [HubLabSkill()] *)
Definition new_skill : HubLabSkill := mkHubLabSkill None None.

Definition set_capsules_cache (cs : list Capsule) : M HubLabSkill unit :=
  modify (fun s => mkHubLabSkill (Some cs) (_categories_cache s)).

(** A failing I/O call raises an [Exception]. *)
Definition io {S A} (r : string + A) : M S A :=
  match r with
  | inl msg => raise (OSError msg)
  | inr a => ret a
  end.

(** [except Exception: ...] with the value the handler leaves *)
Definition except_Exception {S A} (fallback : A) (e : exn) : M S A :=
  if is_Exception e then ret fallback else raise e.

Section Skill.

Context {env : Env}.

(** [HubLabSkill._load_capsules]; the test [metadata_path.exists()] is
    outside the [try]. *)
Definition _load_capsules : M HubLabSkill (list Capsule) :=
  s <- get ;;
  match _capsules_cache s with
  | Some cached => ret cached
  | None =>
      found <- io metadata_exists ;;
      from_file <-
        (if found : bool
         then try_except
                (cs <- io read_metadata ;;
                 set_capsules_cache cs ;;; ret (Some cs))
                (except_Exception None)
         else ret None) ;;
      match from_file with
      | Some cs => ret cs
      | None =>
          try_except
            (data <- io fetch_api ;;
             let cs := match data with Some cs => cs | None => [] end in
             set_capsules_cache cs ;;; ret cs)
            (except_Exception [])
      end
  end.

Local Open Scope Z_scope.

(** [HubLabSkill._match_score] *)
Definition _match_score (capsule : Capsule) (query : string) : Z :=
  let query := lower query in
  let score := 0 in
  let score :=
    if String.eqb (lower (get_str (cap_id capsule))) query
    then score + 100 else score in
  let name := lower (get_str (cap_name capsule)) in
  let score := if str_in query name then score + 50 else score in
  let score := if startswith name query then score + 30 else score in
  let tags := map lower (get_tags capsule) in
  let score := if list_in query tags then score + 40 else score in
  let score :=
    fold_left (fun score tag => if str_in query tag then score + 10 else score)
              tags score in
  let desc := lower (get_str (cap_description capsule)) in
  let score := if str_in query desc then score + 20 else score in
  let score :=
    if str_in query (lower (get_str (cap_category capsule)))
    then score + 15 else score in
  score.

(** [scored.sort(key=lambda x: x[0], reverse=True)]: a stable sort by
    decreasing score; entries of equal score keep their order. *)
Fixpoint insert_by_score (x : Z * Capsule) (l : list (Z * Capsule))
  : list (Z * Capsule) :=
  match l with
  | [] => [x]
  | y :: r => if fst x <? fst y then y :: insert_by_score x r else x :: l
  end.

Definition sort_by_score (l : list (Z * Capsule)) : list (Z * Capsule) :=
  fold_right insert_by_score [] l.

(** The order the sort establishes: [a] may stand before [b] when its score
    is not smaller. *)
Definition before (a b : Z * Capsule) : Prop := fst b <= fst a.

(** The loop that scores the capsules and keeps the positive ones. *)
Definition score_all (capsules : list Capsule) (query : string)
  : list (Z * Capsule) :=
  fold_left
    (fun scored cap =>
       let score := _match_score cap query in
       if 0 <? score then (scored ++ [(score, cap)])%list else scored)
    capsules [].

(** One entry of ["results"]. *)
Definition result_entry (sc : Z * Capsule) : json :=
  let (score, cap) := sc in
  JDict [("id", jopt (cap_id cap));
         ("name", jopt (cap_name cap));
         ("category", jopt (cap_category cap));
         ("description", JStr (str_take 150 (get_str (cap_description cap))));
         ("tags", JList (map JStr (firstn 5 (get_tags cap))));
         ("score", JInt score)]%string.

(** The object returned when no capsule could be loaded. *)
Definition load_error : json :=
  JDict [("error", JStr "Could not load capsules. Check HUBLAB_PATH or API.");
         ("hint", JStr ("Set HUBLAB_PATH env var (current: " ++ HUBLAB_PATH
                        ++ ")"))]%string.

(** The category filter: applied when [category] is a non-empty string. *)
Definition filter_category (category : option string)
  (capsules : list Capsule) : list Capsule :=
  match category with
  | Some cat =>
      if truthy_str cat
      then filter (fun c => String.eqb (lower (get_str (cap_category c)))
                                       (lower cat)) capsules
      else capsules
  | None => capsules
  end.

(** [HubLabSkill.hublab_search]; the value is the object handed to
    [json.dumps].  [limit] defaults to [20]. *)
Definition hublab_search (query : string) (category : option string)
  (limit : Z) : M HubLabSkill json :=
  (capsules <- _load_capsules ;;
   match capsules with
   | [] => ret load_error
   | _ :: _ =>
       let capsules := filter_category category capsules in
       let scored := sort_by_score (score_all capsules query) in
       let results := map result_entry (slice_to limit scored) in
       ret (JDict [("query", JStr query);
                   ("category_filter", jopt category);
                   ("count", JInt (Z.of_nat (List.length results)));
                   ("total_searched", JInt (Z.of_nat (List.length capsules)));
                   ("results", JList results)]%string)
   end)%py.

End Skill.

(** Reading the returned object back. *)
Definition results_of (j : json) : option (list json) :=
  match j with
  | JDict d => match dict_get "results" d with
               | Some (JList l) => Some l
               | _ => None
               end
  | _ => None
  end.

Definition score_of (j : json) : option Z :=
  match j with
  | JDict d => match dict_get "score" d with
               | Some (JInt z) => Some z
               | _ => None
               end
  | _ => None
  end.

(** The catalog can be had neither from the cache, nor from the file, which
    is not there or cannot be read, nor from the API. *)
Definition cannot_load {env : Env} (s : HubLabSkill) : Prop :=
  _capsules_cache s = None /\
  (metadata_exists = inr false \/
   (metadata_exists = inr true /\ exists msg, read_metadata = inl msg)) /\
  (exists msg, fetch_api = inl msg).

(** The error [_load_capsules] raises, if any: that of the test
    [metadata_path.exists()], which is made when nothing is cached. *)
Definition path_error {env : Env} (s : HubLabSkill) : option exn :=
  match _capsules_cache s, metadata_exists with
  | None, inl msg => Some (OSError msg)
  | _, _ => None
  end.

End HubLab.

(** ** Concrete values used by the examples further down *)
Module Examples.

Import Py LLM.
Local Open Scope string_scope.

(** A model that answers every prompt with the prompt itself and ignores
    the tools; the relevance strategy returns the text of the last entry but
    one, if any. *)
Definition echo_env : AgentCore.Env :=
  AgentCore.mkEnv
    (fun n => "t" ++ str_of_nat n)
    (fun buffer _ =>
       match rev buffer with
       | _ :: e :: _ => AgentCore.entry_content e
       | _ => ""
       end)
    (fun input c =>
       (Return (text_message "assistant" input),
        add_message "assistant" input (add_message "user" input c)))
    (fun input _ c =>
       (Return input,
        add_message "assistant" input (add_message "user" input c))).

Definition all_enabled : AgentCore.Config := AgentCore.mkConfig (fun _ => true).

Definition agent0 : AgentCore.Agent :=
  AgentCore.new_agent all_enabled new_client.

Definition echo_tool (descr : string) : Tool :=
  mkTool "echo" descr (JDict [("type", JStr "object")])
         (fun kwargs => Return (py_str (jget "text" kwargs))).

Definition first_skill : AgentCore.Skill :=
  AgentCore.mkSkill "first" "First skill" [echo_tool "first echo"]
                    (fun _ => Return "first result").

Definition second_skill : AgentCore.Skill :=
  AgentCore.mkSkill "second" "Second skill" [echo_tool "second echo"]
                    (fun _ => Return "second result").

(** A class whose constructor lacks a dependency, and a valid one. *)
Definition BrokenSkill : AgentCore.SkillClass :=
  AgentCore.mkSkillClass "BrokenSkill" "broken" "Needs torch"
    (fun _ => Raise (ImportError "No module named 'torch'")).

Definition ValidSkill : AgentCore.SkillClass :=
  AgentCore.mkSkillClass "ValidSkill" "valid" "Works"
    (fun _ => Return ([echo_tool "valid echo"],
                      fun _ => Return "valid result")).

(** A class whose constructor raises an [ImportError] the text of which
    holds [[/x]]. *)
Definition FussySkill : AgentCore.SkillClass :=
  AgentCore.mkSkillClass "FussySkill" "fussy" "Needs x"
    (fun _ => Raise (ImportError "no [/x] here")).

(** The console as far as the examples go: like [rich], it refuses a text
    that holds the closing tag [[/x]] while no tag [x] is open, with the
    message of [rich], which gives the position of the tag; the other lines
    of the examples render. *)
Definition rich_console : AgentCore.Console :=
  AgentCore.mkConsole
    (fun text =>
       match index 0 "[/x]" text with
       | Some position =>
           Some ("closing tag '[/x]' at position " ++ str_of_nat position
                 ++ " doesn't match any open tag")
       | None => None
       end).

(** A small catalog, read from the metadata file; the API is down. *)
Definition catalog : list HubLab.Capsule :=
  [HubLab.mkCapsule (Some "card") (Some "Card with button") (Some "UI")
                    (Some "A card") (Some ["ui"]);
   HubLab.mkCapsule (Some "button") (Some "Button") (Some "UI")
                    (Some "A button") (Some ["ui"; "button"]);
   HubLab.mkCapsule (Some "form") (Some "Form") (Some "Form") None None;
   HubLab.mkCapsule (Some "btn2") (Some "Button two") (Some "UI") (Some "")
                    (Some [])].

Definition hublab_env : HubLab.Env :=
  HubLab.mkEnv "/Users/c/hublab" (inr true) (inr catalog)
               (inl "network down").

End Examples.

(** ** [r_cli/core/agent.py]: the streaming turn and the loading of classes *)
Module AgentStream.

Import Py LLM AgentCore.
Local Open Scope string_scope.

(** [self.llm.chat_stream_sync(input)]: the chunks the stream yields and the
    way it ends once they are consumed, by returning (with the state of the
    client then) or by raising.  The bookkeeping of the client while the
    stream is open is its own business and is not tracked. *)
Class StreamEnv : Type := mkStreamEnv {
  chat_stream_sync : string -> LLMClient -> list string * outcome LLMClient
}.

(** The generator object [run_stream] returns: not started, suspended at a
    [yield] (with the text gathered so far, the chunks still to come and the
    way the stream will end), or finished. *)
Inductive generator : Type :=
| Created (user_input : string)
| Suspended (full_response : string) (pending : list string)
            (ending : outcome LLMClient)
| Finished.

(** What [next(gen)] gives. *)
Inductive next_result : Type :=
| Yielded (chunk : string)
| StopIteration
| Raised (e : exn).

(** [Agent.run_stream]: calling it runs nothing of the body. *)
Definition run_stream (user_input : string) : generator := Created user_input.

Section Generator.

Context {env : Env} {stream : StreamEnv}.

(** The [for chunk in ...] loop from the point where it asks the stream for
    its next chunk, and the lines after the loop. *)
Definition resume (full_response : string) (pending : list string)
  (ending : outcome LLMClient) (a : Agent)
  : next_result * generator * Agent :=
  match pending with
  | chunk :: rest =>
      (Yielded chunk, Suspended (full_response ++ chunk) rest ending, a)
  | [] =>
      match ending with
      | Return l' =>
          let a1 := snd (add_short_term full_response "agent_response"
                                        (set_llm l' a)) in
          (StopIteration, Finished, snd (save_session a1))
      | Raise e => (Raised e, Finished, a)
      end
  end.

(** [next(gen)] *)
Definition next (g : generator) (a : Agent)
  : next_result * generator * Agent :=
  match g with
  | Created user_input =>
      let a1 := snd (add_short_term user_input "user_input" a) in
      match relevant_context user_input a1 with
      | (Return context, a2) =>
          let augmented_input := augment user_input context in
          let (chunks, ending) := chat_stream_sync augmented_input (llm a2) in
          resume "" chunks ending a2
      | (Raise e, a2) => (Raised e, Finished, a2)
      end
  | Suspended full_response pending ending =>
      resume full_response pending ending a
  | Finished => (StopIteration, Finished, a)
  end.

(** A consumer that asks for at most [k] chunks: the chunks it got, and the
    generator and the agent as it leaves them. *)
Fixpoint take_chunks (k : nat) (g : generator) (a : Agent)
  : list string * generator * Agent :=
  match k with
  | O => ([], g, a)
  | S k' =>
      match next g a with
      | (Yielded chunk, g', a') =>
          let '(chunks, g'', a'') := take_chunks k' g' a' in
          (chunk :: chunks, g'', a'')
      | (_, g', a') => ([], g', a')
      end
  end.

End Generator.

(** [full_response] once the chunks [cs] have been added to it: their
    concatenation, [""].join(cs). *)
Definition join_chunks (cs : list string) : string :=
  fold_right String.append "" cs.

(** The tools a list of classes brings to the flat list: those of the
    classes whose constructor returns and that the configuration enables, in
    the order of the list. *)
Definition loaded_tools (cfg : Config) (classes : list SkillClass)
  : list Tool :=
  flat_map (fun c => match init c cfg with
                     | Return (ts, _) =>
                         if is_skill_enabled cfg (cls_name c) then ts else []
                     | Raise _ => []
                     end) classes.

(** The registry once one round of the loop has gone through a class: a
    class that is built and enabled takes its name in it. *)
Definition loaded_skills (cfg : Config) (c : SkillClass) (d : dict Skill)
  : dict Skill :=
  match init c cfg with
  | Return (ts, exec) =>
      if is_skill_enabled cfg (cls_name c)
      then dict_set (cls_name c)
                    (mkSkill (cls_name c) (cls_description c) ts exec) d
      else d
  | Raise _ => d
  end.

(** The names a list of classes brings to the registry, in the order of the
    list. *)
Definition loaded_names (cfg : Config) (classes : list SkillClass)
  : list string :=
  flat_map (fun c => match init c cfg with
                     | Return _ =>
                         if is_skill_enabled cfg (cls_name c)
                         then [cls_name c] else []
                     | Raise _ => []
                     end) classes.

(** Two agents that differ at most in what was printed. *)
Definition same_but_console (a b : Agent) : Prop :=
  config a = config b /\ llm a = llm b /\ memory a = memory b /\
  skills a = skills b /\ tools a = tools b /\
  is_running a = is_running b /\ trace a = trace b.

(** The line the [except] clauses of [load_skills] print for an
    [Exception] raised while a class is loaded. *)
Definition diagnostic (c : SkillClass) (e : exn) : string :=
  "[yellow]"
  ++ match e with
     | ImportError _ => "Missing dependency for "
     | TypeError _ => "Configuration error in "
     | OSError _ => "File/IO error in "
     | _ => "Unexpected error loading "
     end
  ++ class_name c ++ ": " ++ exn_str e ++ "[/yellow]".

(** The line one round of [load_skills] prints first: the registration or
    the "disabled" notice of a class that is built, the diagnostic of one
    whose constructor raises an [Exception]; none when the constructor
    raises something else. *)
Definition load_line (cfg : Config) (c : SkillClass) : option string :=
  match init c cfg with
  | Return _ =>
      Some (if is_skill_enabled cfg (cls_name c)
            then "[dim]Skill registered: " ++ cls_name c ++ "[/dim]"
            else "[dim]Skill disabled in config: " ++ cls_name c ++ "[/dim]")
  | Raise e => if is_Exception e then Some (diagnostic c e) else None
  end.

(** The lines [load_skills] prints on a list of classes it gets past. *)
Definition load_lines (cfg : Config) (classes : list SkillClass)
  : list string :=
  flat_map (fun c => match load_line cfg c with
                     | Some line => [line]
                     | None => []
                     end) classes.

Section Loading.

Context {rich : Console}.

(** Whether the console renders a text. *)
Definition renders (text : string) : bool :=
  match markup_error text with None => true | Some _ => false end.

(** A class [load_skills] gets past in one print: its constructor returns or
    raises an [Exception], and the line then printed renders. *)
Definition passes (cfg : Config) (c : SkillClass) : bool :=
  match load_line cfg c with
  | Some line => renders line
  | None => false
  end.

(** A run of registrations, in order; a registration whose print raises has
    stored the skill and its tools all the same. *)
Definition register_all (skills : list Skill) (a : Agent) : Agent :=
  fold_left (fun acc skill => snd (register_skill skill acc)) skills a.

End Loading.

End AgentStream.

(** ** [r_cli/skills/social_skill.py]: replying, posting, comments *)
Module SocialTools.

Import Py Social.
Local Open Scope string_scope.
Local Open Scope py_scope.

Definition ICON_COMMENTS : string :=
  of_bytes [195; 176; 197; 184; 226; 128; 153; 194; 172].

(** [f"{d.get(key, default)}"] *)
Definition get_str_or (key default : string) (d : dict json) : string :=
  match dict_get key d with
  | Some v => py_str v
  | None => default
  end.

(** [self.PLATFORMS[platform]['name']] *)
Definition platform_name {S} (platform : string) : M S string :=
  match dict_get platform PLATFORMS with
  | Some p => ret (plat_name p)
  | None => raise (KeyError platform)
  end.

Section Tools.

Context {World : Type} {env : Env World}.

(** [SocialMediaSkill.reply_message] *)
Definition reply_message (platform message_id text : string)
  : M World string :=
  if negb (_is_connected platform)
  then ret ("Error: " ++ platform ++ " not connected")
  else
    reply <- _send_reply platform message_id text ;;
    result <- lift (dict_of reply) ;;
    if truthy (jget "success" result)
    then name <- platform_name platform ;;
         ret (ICON_OK ++ " Reply sent on " ++ name)
    else ret (ICON_ERROR ++ " Error: "
              ++ get_str_or "error" "Unknown error" result).

(** [SocialMediaSkill._create_post]; [media] is not used. *)
Definition _create_post (platform text : string) (media : option string)
  : M World json :=
  let unsupported : M World json :=
    ret (JDict [("error", JStr "Platform not supported for posting")]) in
  if String.eqb platform "twitter" then
    _make_request platform "/tweets" "POST"
                  (Some (JDict [("text", JStr text)]))
  else if String.eqb platform "telegram" then
    match dict_get "bot_token" (_get_credentials platform) with
    | Some _ =>
        ret (JDict [("error", JStr "Use social_dm for Telegram messages")])
    | None => unsupported
    end
  else unsupported.

(** [SocialMediaSkill.post_content] *)
Definition post_content (platform text : string) (media : option string)
  : M World string :=
  if negb (_is_connected platform)
  then ret ("Error: " ++ platform ++ " not connected")
  else
    post <- _create_post platform text media ;;
    result <- lift (dict_of post) ;;
    if truthy (jget "success" result)
    then name <- platform_name platform ;;
         ret (ICON_OK ++ " Posted to " ++ name ++ nl
              ++ "Post ID: " ++ get_str_or "id" "N/A" result)
    else ret (ICON_ERROR ++ " Error: "
              ++ get_str_or "error" "Unknown error" result).

(** [if "access_token" in creds and post_id:] *)
Definition can_fetch_comments (platform : string) (post_id : option string)
  : bool :=
  andb (dict_contains "access_token" (_get_credentials platform))
       (match post_id with Some p => truthy_str p | None => false end).

(** [SocialMediaSkill._fetch_comments]: both branches end in [pass]. *)
Definition _fetch_comments (platform : string) (post_id : option string)
  : list (dict json) :=
  let comments := [] in
  if String.eqb platform "instagram" then
    if can_fetch_comments platform post_id then comments else comments
  else if String.eqb platform "facebook" then
    if can_fetch_comments platform post_id then comments else comments
  else comments.

(** The lines [get_comments] prints for the [i]-th comment. *)
Definition comment_lines (i : nat) (comment : dict json) : list string :=
  [str_of_nat i ++ ". @" ++ get_str_or "from" "unknown" comment;
   "   " ++ get_str_or "text" "" comment;
   "   ID: " ++ get_str_or "id" "" comment;
   ""].

(** [for i, comment in enumerate(comments, 1): ...] *)
Fixpoint comments_lines (i : nat) (comments : list (dict json))
  : list string :=
  match comments with
  | [] => []
  | c :: rest => (comment_lines i c ++ comments_lines (S i) rest)%list
  end.

(** [SocialMediaSkill.get_comments] *)
Definition get_comments (platform : string) (post_id : option string)
  : outcome string :=
  if negb (_is_connected platform)
  then Return ("Error: " ++ platform ++ " not connected")
  else
    match dict_get platform PLATFORMS with
    | None => Raise (KeyError platform)
    | Some p =>
        let result := [ICON_COMMENTS ++ " Comments on " ++ plat_name p ++ nl] in
        match _fetch_comments platform post_id with
        | [] => Return (String.concat nl
                          (result ++ ["No comments found."])%list)
        | comments =>
            Return (String.concat nl
                      (result ++ comments_lines 1 comments)%list)
        end
    end.

End Tools.

(** The queue a run of [queue_add] calls builds. *)
Definition adds (items : list (string * string * string * string))
  : list queue_op :=
  map (fun i => match i with
                | (p, m, r, prio) => OpAdd p m r prio
                end) items.

End SocialTools.

(** ** [r_cli/skills/hublab_skill.py]: categories and browsing *)
Module Catalog.

Import Py HubLab.
Local Open Scope string_scope.
Local Open Scope py_scope.

(** [cap.get("category", "Other")] *)
Definition category_of (cap : Capsule) : string :=
  match cap_category cap with Some c => c | None => "Other" end.

(** [categories.get(cat, 0)] *)
Definition count_of (cat : string) (categories : dict nat) : nat :=
  match dict_get cat categories with Some n => n | None => 0 end.

(** The body of the loop of [_get_categories]:
    [categories[cat] = categories.get(cat, 0) + 1]. *)
Definition count_capsule (categories : dict nat) (cap : Capsule) : dict nat :=
  let cat := category_of cap in
  dict_set cat (count_of cat categories + 1) categories.

Definition count_categories (capsules : list Capsule) : dict nat :=
  fold_left count_capsule capsules [].

Definition set_categories_cache (categories : dict nat)
  : M HubLabSkill unit :=
  modify (fun s => mkHubLabSkill (_capsules_cache s) (Some categories)).

(** [sorted(xs, key=key, reverse=True)]: a stable sort by decreasing key. *)
Fixpoint insert_desc {A} (key : A -> Z) (x : A) (l : list A) : list A :=
  match l with
  | [] => [x]
  | y :: r => if (key x <? key y)%Z then y :: insert_desc key x r else x :: l
  end.

Definition sorted_desc {A} (key : A -> Z) (l : list A) : list A :=
  fold_right (insert_desc key) [] l.

Definition count_key (entry : string * nat) : Z := Z.of_nat (snd entry).

(** [sum(categories.values())] *)
Definition sum_counts (categories : dict nat) : nat :=
  list_sum (map snd categories).

(** One entry of ["categories"] in the answer of [hublab_categories]. *)
Definition category_entry (entry : string * nat) : json :=
  JDict [("name", JStr (fst entry)); ("count", JInt (Z.of_nat (snd entry)))].

(** Whether a capsule is of the category asked for, case apart. *)
Definition in_category (category : string) (cap : Capsule) : bool :=
  String.eqb (lower (get_str (cap_category cap))) (lower category).

(** One entry of ["capsules"] in the answer of [hublab_browse]. *)
Definition browse_entry (cap : Capsule) : json :=
  JDict [("id", jopt (cap_id cap));
         ("name", jopt (cap_name cap));
         ("description", JStr (str_take 100 (get_str (cap_description cap))));
         ("tags", JList (map JStr (firstn 3 (get_tags cap))))].

(** The loop of [hublab_browse], with its [break] once
    [len(results) >= limit]. *)
Fixpoint browse_loop (category : string) (limit : Z)
  (capsules : list Capsule) (results : list json) : list json :=
  match capsules with
  | [] => results
  | cap :: rest =>
      if in_category category cap then
        let results := (results ++ [browse_entry cap])%list in
        if (limit <=? Z.of_nat (List.length results))%Z then results
        else browse_loop category limit rest results
      else browse_loop category limit rest results
  end.

Section Tools.

Context {env : Env}.

(** [HubLabSkill._get_categories] *)
Definition _get_categories : M HubLabSkill (dict nat) :=
  s <- get ;;
  match _categories_cache s with
  | Some cached => ret cached
  | None =>
      capsules <- _load_capsules ;;
      let categories := count_categories capsules in
      set_categories_cache categories ;;;
      ret categories
  end.

(** [HubLabSkill.hublab_categories] *)
Definition hublab_categories : M HubLabSkill json :=
  categories <- _get_categories ;;
  let sorted_cats := sorted_desc count_key categories in
  ret (JDict [("total_categories",
               JInt (Z.of_nat (List.length categories)));
              ("total_capsules", JInt (Z.of_nat (sum_counts categories)));
              ("categories", JList (map category_entry sorted_cats))]).

(** [HubLabSkill.hublab_browse]; [limit] defaults to [30]. *)
Definition hublab_browse (category : string) (limit : Z)
  : M HubLabSkill json :=
  capsules <- _load_capsules ;;
  match browse_loop category limit capsules [] with
  | [] =>
      categories <- _get_categories ;;
      let matches := filter (fun c => str_in (lower category) (lower c))
                            (dict_keys categories) in
      ret (JDict [("category", JStr category);
                  ("count", JInt 0);
                  ("hint", JStr ("Category not found. Similar: "
                                 ++ py_repr (JList (map JStr
                                                        (firstn 5 matches)))));
                  ("all_categories_url",
                   JStr "Use hublab_categories to see all")])
  | results =>
      ret (JDict [("category", JStr category);
                  ("count", JInt (Z.of_nat (List.length results)));
                  ("capsules", JList results)])
  end.

End Tools.

(** The catalog of the API, if the file gives none. *)
Definition api_catalog {env : Env} : list Capsule :=
  match fetch_api with
  | inr (Some cs) => cs
  | _ => []
  end.

(** The catalog [_load_capsules] serves in a given state: the cached one,
    else the one of the file, else the one of the API, else none; none
    either when the test for the file raises. *)
Definition served_catalog {env : Env} (s : HubLabSkill) : list Capsule :=
  match _capsules_cache s with
  | Some cached => cached
  | None =>
      match metadata_exists with
      | inl _ => []
      | inr true => match read_metadata with
                    | inr cs => cs
                    | inl _ => api_catalog
                    end
      | inr false => api_catalog
      end
  end.

(** Whether that catalog comes from the cache, the file or the API, and so
    is in the cache afterwards. *)
Definition catalog_found {env : Env} (s : HubLabSkill) : bool :=
  match _capsules_cache s with
  | Some _ => true
  | None =>
      match metadata_exists with
      | inl _ => false
      | inr found =>
          match found, read_metadata with
          | true, inr _ => true
          | _, _ => match fetch_api with inr _ => true | inl _ => false end
          end
      end
  end.

(** The error [_get_categories] raises, if any: that of the load it makes
    when no table is cached. *)
Definition categories_error {env : Env} (s : HubLabSkill) : option exn :=
  match _categories_cache s with
  | Some _ => None
  | None => path_error s
  end.

(** The number of capsules of a category in a catalog. *)
Definition capsules_of (cat : string) (capsules : list Capsule) : nat :=
  List.length (filter (fun cap => String.eqb (category_of cap) cat) capsules).

(** Where a query matches a capsule: it is the id, or it occurs in the name,
    in a tag, in the description or in the category; case is ignored. *)
Definition matches_capsule (query : string) (cap : Capsule) : bool :=
  let q := lower query in
  String.eqb (lower (get_str (cap_id cap))) q
  || str_in q (lower (get_str (cap_name cap)))
  || existsb (fun tag => str_in q (lower tag)) (get_tags cap)
  || str_in q (lower (get_str (cap_description cap)))
  || str_in q (lower (get_str (cap_category cap))).

End Catalog.

(** ** More concrete values for the examples *)
Module MoreExamples.

Import Py LLM.
Local Open Scope string_scope.

(** A class whose constructor is interrupted from the keyboard. *)
Definition InterruptedSkill : AgentCore.SkillClass :=
  AgentCore.mkSkillClass "InterruptedSkill" "interrupted" "Never built"
    (fun _ => Raise KeyboardInterrupt).

(** A stream of three chunks that ends well. *)
Definition three_chunks : AgentStream.StreamEnv :=
  AgentStream.mkStreamEnv
    (fun input c => (["Hel"; "lo "; "you"],
                     Return (add_message "assistant" "Hello you"
                               (add_message "user" input c)))).

(** A world for the social media skill: tokens for Telegram, Twitter and
    Discord, [httpx] installed, scripted answers of the network. *)
Definition social_env : Social.Env Social.Script :=
  Social.script_env
    [("TELEGRAM_BOT_TOKEN", "tok"); ("TWITTER_BEARER_TOKEN", "b");
     ("DISCORD_BOT_TOKEN", "d")]
    true.

Definition telegram_ok : string + Social.HttpResponse :=
  inr (Social.mkHttpResponse 200 "" (inr (JDict [("ok", JBool true)]))).

Definition tweet_created : Social.HttpResponse :=
  Social.mkHttpResponse 201 ""
    (inr (JDict [("data", JDict [("id", JStr "1"); ("text", JStr "yo")])])).

(** An answer [200] whose body is a JSON array. *)
Definition array_body : Social.HttpResponse :=
  Social.mkHttpResponse 200 "[]" (inr (JList [])).

(** A queue with a Telegram reply and a Twitter reply. *)
Definition two_replies : Social.SocialMediaSkill Social.Script :=
  @Social.exec _ social_env
    [Social.OpAdd "telegram" "42" "hi" "normal";
     Social.OpAdd "twitter" "43" "yo" "high"]
    (Social.new_skill (Social.mkScript [telegram_ok; inr tweet_created] 0)).

(** The same queue in a world where Telegram accepts the first reply and
    Twitter answers the second with an array. *)
Definition two_replies_array : Social.SocialMediaSkill Social.Script :=
  @Social.exec _ social_env
    [Social.OpAdd "telegram" "42" "hi" "normal";
     Social.OpAdd "twitter" "43" "yo" "high"]
    (Social.new_skill (Social.mkScript [telegram_ok; inr array_body] 0)).

(** No metadata file and the API out of reach. *)
Definition offline_env : HubLab.Env :=
  HubLab.mkEnv "/Users/c/hublab" (inr false)
               (inl "[Errno 2] No such file or directory")
               (inl "network down").

(** A [HUBLAB_PATH] that may not be searched: the test for the metadata
    file raises. *)
Definition permission_denied : string :=
  "[Errno 13] Permission denied: "
  ++ "'/Users/c/hublab/lib/capsules-metadata.json'".

Definition locked_env : HubLab.Env :=
  HubLab.mkEnv "/Users/c/hublab" (inl permission_denied)
               (inl permission_denied) (inl "network down").

End MoreExamples.

(* ====================================================================== *)
(** * Part II.  Theorems                                                   *)
(* ====================================================================== *)

(** ** The token tracker *)
Section TokenTrackerFacts.

Import Logging.
Local Open Scope Z_scope.

Lemma record_commutes p1 c1 p2 c2 t :
  record p1 c1 (record p2 c2 t) = record p2 c2 (record p1 c1 t).
Proof.
  unfold record; cbn [total_prompt_tokens total_completion_tokens
                      total_tokens total_requests].
  f_equal; lia.
Qed.

(** C8.  Two records [(p1, c1)] and [(p2, c2)] on a new tracker add up to
    [p1 + p2] prompt tokens, [c1 + c2] completion tokens,
    [p1 + c1 + p2 + c2] tokens in total and a request count of 2, and the
    tracker reached is the same whichever record is made first. *)
Theorem record_two_is_cumulative (p1 c1 p2 c2 : Z) :
  total_prompt_tokens (record p2 c2 (record p1 c1 new_tracker)) = p1 + p2 /\
  total_completion_tokens (record p2 c2 (record p1 c1 new_tracker)) = c1 + c2 /\
  total_tokens (record p2 c2 (record p1 c1 new_tracker)) = p1 + c1 + p2 + c2 /\
  total_requests (record p2 c2 (record p1 c1 new_tracker)) = 2 /\
  record p1 c1 (record p2 c2 new_tracker)
  = record p2 c2 (record p1 c1 new_tracker).
Proof.
  repeat split; try (cbn; lia).
  apply record_commutes.
Qed.

(** The same from any tracker and for any number of records: the totals grow
    by the sums. *)
Lemma record_all_totals rs : forall t,
  total_prompt_tokens (record_all rs t)
  = total_prompt_tokens t + fold_right Z.add 0 (map fst rs) /\
  total_completion_tokens (record_all rs t)
  = total_completion_tokens t + fold_right Z.add 0 (map snd rs) /\
  total_tokens (record_all rs t)
  = total_tokens t + fold_right Z.add 0 (map fst rs)
    + fold_right Z.add 0 (map snd rs) /\
  total_requests (record_all rs t)
  = total_requests t + Z.of_nat (List.length rs).
Proof.
  induction rs as [|[p c] rs IH]; intro t.
  - cbn. repeat split; lia.
  - change (record_all ((p, c) :: rs) t) with (record_all rs (record p c t)).
    destruct (IH (record p c t)) as (H1 & H2 & H3 & H4).
    rewrite H1, H2, H3, H4.
    cbn [map fold_right fst snd List.length record total_prompt_tokens
         total_completion_tokens total_tokens total_requests].
    repeat split; lia.
Qed.

End TokenTrackerFacts.

(** ** The conversation history *)
Section HistoryFacts.

Import Py LLM.
Local Open Scope string_scope.
Local Open Scope list_scope.

Lemma add_message_length r t c :
  List.length (messages (add_message r t c)) = S (List.length (messages c)).
Proof.
  unfold add_message; cbn [messages].
  rewrite List.length_app; cbn; lia.
Qed.

Lemma add_messages_length ms : forall c,
  List.length (messages (add_messages ms c))
  = List.length (messages c) + List.length ms.
Proof.
  induction ms as [|[r t] ms IH]; intro c.
  - cbn; lia.
  - change (add_messages ((r, t) :: ms) c)
      with (add_messages ms (add_message r t c)).
    rewrite IH, add_message_length; cbn; lia.
Qed.

(** Appending never touches the first message of a non-empty history. *)
Lemma add_messages_head ms : forall c m rest,
  messages c = m :: rest ->
  exists rest', messages (add_messages ms c) = m :: rest'.
Proof.
  induction ms as [|[r t] ms IH]; intros c m rest Hc.
  - exists rest; exact Hc.
  - change (add_messages ((r, t) :: ms) c)
      with (add_messages ms (add_message r t c)).
    apply IH with (rest := rest ++ [text_message r t]).
    unfold add_message; cbn [messages]; rewrite Hc; reflexivity.
Qed.

Lemma set_system_prompt_head text c :
  exists rest, messages (set_system_prompt text c)
               = text_message "system" text :: rest.
Proof.
  unfold set_system_prompt.
  destruct (messages c) as [|m0 rest]; [eexists; reflexivity|].
  destruct (is_system m0); eexists; reflexivity.
Qed.

Lemma clear_history_length c :
  List.length (messages (clear_history c))
  = if has_system_prompt c then 1 else 0.
Proof.
  unfold clear_history, has_system_prompt.
  destruct (messages c) as [|m rest]; [reflexivity|].
  destruct (is_system m); reflexivity.
Qed.

(** C7.  Each [add_message] makes the history one message longer, so a run
    of calls makes it longer by the number of calls; [clear_history] leaves
    one message when the history starts with a system message and none
    otherwise; once a system prompt has been set, whatever was added after
    it, what is left is exactly that system message; and on a client where
    none was set nothing is left, unless the first message added had the
    role ["system"] itself. *)
Theorem history_length_laws :
  (forall r t c,
      List.length (messages (add_message r t c))
      = S (List.length (messages c))) /\
  (forall ms c,
      List.length (messages (add_messages ms c))
      = List.length (messages c) + List.length ms) /\
  (forall c,
      List.length (messages (clear_history c))
      = if has_system_prompt c then 1 else 0) /\
  (forall text ms c,
      messages (clear_history (add_messages ms (set_system_prompt text c)))
      = [text_message "system" text]) /\
  (forall ms,
      messages (clear_history (add_messages ms new_client))
      = match ms with
        | (r, t) :: _ =>
            if String.eqb r "system" then [text_message r t] else []
        | [] => []
        end).
Proof.
  split; [exact add_message_length|].
  split; [exact add_messages_length|].
  split; [exact clear_history_length|].
  split.
  - intros text ms c.
    destruct (set_system_prompt_head text c) as [rest Hset].
    destruct (add_messages_head ms _ Hset) as [rest' Hadd].
    unfold clear_history; rewrite Hadd; reflexivity.
  - intros ms.
    destruct ms as [|[r t] ms]; [reflexivity|].
    change (add_messages ((r, t) :: ms) new_client)
      with (add_messages ms (add_message r t new_client)).
    destruct (add_messages_head ms (add_message r t new_client)
                (m := text_message r t) (rest := [])) as [rest' Hadd];
      [reflexivity|].
    unfold clear_history; rewrite Hadd.
    unfold is_system; cbn [role text_message].
    destruct (String.eqb r "system"); reflexivity.
Qed.

End HistoryFacts.

(** ** The retry wrapper *)
Section RetryFacts.

Import Py Retry.
Local Open Scope list_scope.

Variables S A : Type.
Variable cfg : RetryConfig.

(** The loop on an operation that fails [n] times and then succeeds, with at
    least [n] retries left: [n + 1] invocations and [n] sleeps are added. *)
Lemma attempt_loop_recovers (op : M S A) n s v s' :
  fails_then_succeeds op n s v s' ->
  forall left_ attempt count zs,
    n <= left_ ->
    result (attempt_loop cfg op left_ attempt s count zs) = Return v /\
    invocations (attempt_loop cfg op left_ attempt s count zs)
    = count + n + 1 /\
    final_state (attempt_loop cfg op left_ attempt s count zs) = s' /\
    List.length (sleeps (attempt_loop cfg op left_ attempt s count zs))
    = List.length zs + n.
Proof.
  induction 1 as [s v s' Hop | n s e s1 v s' Hop He Hrest IH];
    intros left_ attempt count zs Hle.
  - destruct left_; cbn [attempt_loop]; rewrite Hop; cbn; repeat split; lia.
  - destruct left_ as [|k]; [lia|].
    cbn [attempt_loop]; rewrite Hop, He.
    destruct (IH k (attempt + 1) (count + 1) (zs ++ [backoff cfg attempt]))
      as (H1 & H2 & H3 & H4); [lia|].
    rewrite H1, H2, H3, H4, List.length_app; cbn [List.length].
    repeat split; lia.
Qed.

Lemma attempt_loop_fatal (op : M S A) s e s' left_ attempt count zs :
  op s = (Raise e, s') ->
  is_retriable e = false ->
  attempt_loop cfg op left_ attempt s count zs
  = mkRun (Raise e) s' (count + 1) zs.
Proof.
  intros Hop He; destruct left_; cbn [attempt_loop]; rewrite Hop, He;
    reflexivity.
Qed.

(** C6.  An operation that fails [n] times with a retriable error and then
    succeeds is, with [max_retries >= n], invoked exactly [n + 1] times (so
    retried exactly [n] times, after [n] sleeps) and the wrapped call returns
    the success value; an operation whose first failure is not retriable is
    invoked exactly once and that very error propagates, with no sleep. *)
Theorem with_retry_attempts
  (flaky_op fatal_op : M S A) (n : nat) (s s' : S) (v : A)
  (t t' : S) (e : exn) :
  fails_then_succeeds flaky_op n s v s' ->
  n <= max_retries cfg ->
  fatal_op t = (Raise e, t') ->
  is_retriable e = false ->
  (result (with_retry cfg flaky_op s) = Return v /\
   invocations (with_retry cfg flaky_op s) = n + 1 /\
   List.length (sleeps (with_retry cfg flaky_op s)) = n /\
   final_state (with_retry cfg flaky_op s) = s') /\
  (result (with_retry cfg fatal_op t) = Raise e /\
   invocations (with_retry cfg fatal_op t) = 1 /\
   sleeps (with_retry cfg fatal_op t) = [] /\
   final_state (with_retry cfg fatal_op t) = t').
Proof.
  intros Hflaky Hle Hfatal He; split.
  - destruct (attempt_loop_recovers Hflaky 0 0 [] Hle) as (H1 & H2 & H3 & H4).
    unfold with_retry; rewrite H1, H2, H3, H4; cbn; repeat split; lia.
  - unfold with_retry.
    rewrite (@attempt_loop_fatal fatal_op t e t' _ _ _ _ Hfatal He).
    cbn; repeat split.
Qed.

(** When the retries run out the last failure leaves as a connection error
    naming backend and endpoint: an operation that keeps failing is invoked
    [max_retries + 1] times. *)
Lemma attempt_loop_exhausted (op : M S A) :
  (forall s, exists e s', op s = (Raise e, s') /\ is_retriable e = true) ->
  forall left_ attempt s count zs,
    result (attempt_loop cfg op left_ attempt s count zs)
    = Raise (LLMConnectionError (backend cfg) (endpoint cfg)) /\
    invocations (attempt_loop cfg op left_ attempt s count zs)
    = count + left_ + 1.
Proof.
  intros Hfail left_; induction left_ as [|k IH]; intros attempt s count zs;
    destruct (Hfail s) as (e & s' & Hop & He); cbn [attempt_loop];
    rewrite Hop, He.
  - cbn; split; [reflexivity|lia].
  - destruct (IH (attempt + 1) s' (count + 1) (zs ++ [backoff cfg attempt]))
      as [H1 H2].
    rewrite H1, H2; split; [reflexivity|lia].
Qed.

End RetryFacts.

(** Scenario 3 of the spec and the non-retriable test, as an instance of the
    theorem: two connection errors, then ["ok"], under [max_retries = 2]. *)
Lemma with_retry_attempts_witness :
  let cfg := Retry.mkRetryConfig 2 (1 # 100) None "ollama"
                                 "http://localhost:11434" in
  Retry.fails_then_succeeds (Retry.flaky 2 "ok") 2 0 "ok"%string 3 /\
  2 <= Retry.max_retries cfg /\
  (Retry.result (Retry.with_retry cfg (Retry.flaky 2 "ok") 0)
   = Py.Return "ok"%string /\
   Retry.invocations (Retry.with_retry cfg (Retry.flaky 2 "ok") 0) = 3) /\
  (Retry.result (Retry.with_retry cfg Retry.value_error_func 0)
   = Py.Raise (Py.ValueError "Not retriable") /\
   Retry.invocations (Retry.with_retry cfg Retry.value_error_func 0) = 1).
Proof.
  intro cfg.
  assert (Hflaky : Retry.fails_then_succeeds (Retry.flaky 2 "ok") 2 0
                     "ok"%string 3).
  { eapply Retry.fts_failure; [reflexivity|reflexivity|].
    eapply Retry.fts_failure; [reflexivity|reflexivity|].
    apply Retry.fts_success; reflexivity. }
  assert (Hle : 2 <= Retry.max_retries cfg) by (cbn; lia).
  destruct (@with_retry_attempts nat string cfg (Retry.flaky 2 "ok")
              Retry.value_error_func 2 0 3 "ok"%string 0 1
              (Py.ValueError "Not retriable") Hflaky Hle eq_refl eq_refl)
    as [(H1 & H2 & _) (H3 & H4 & _)].
  repeat split; assumption.
Defined.

(** ** The agent: one conversation turn *)
Section RunFacts.

Import Py LLM AgentCore.
Local Open Scope string_scope.
Local Open Scope list_scope.

Context {env : Env}.

(** [run] step by step: the input is stored, the context is fetched from the
    buffer that already holds it, the LLM client is called, and only when
    that call returns are the response stored and the session saved. *)
Lemma run_unfold input show ag :
  run input show ag
  = let a1 := log_event (EvGetContext (buffer_with_input ag input) input)
                (log_event (EvAddShortTerm (user_entry ag input))
                   (set_memory (mkMemory (buffer_with_input ag input)
                                         (session_file (memory ag))
                                         (clock (memory ag) + 1)) ag)) in
    let finish (response : string) (a2 : Agent) :=
      let buffer := short_term (memory a2) ++ [response_entry ag response] in
      (Return response,
       log_event (EvSaveSession buffer)
         (set_memory (mkMemory buffer (Some buffer) (clock (memory a2) + 1))
            (log_event (EvAddShortTerm (response_entry ag response)) a2))) in
    match tools ag with
    | [] =>
        match chat (prompt_of ag input) (llm ag) with
        | (Return msg, l') =>
            finish (content_or_empty msg)
                   (set_llm l' (log_event (EvChat (prompt_of ag input)) a1))
        | (Raise e, l') =>
            (Raise e, set_llm l' (log_event (EvChat (prompt_of ag input)) a1))
        end
    | ts =>
        match chat_with_tools (prompt_of ag input) ts (llm ag) with
        | (Return response, l') =>
            finish response (set_llm l' (log_event (llm_event ag input) a1))
        | (Raise e, l') =>
            (Raise e, set_llm l' (log_event (llm_event ag input) a1))
        end
    end.
Proof.
  unfold run, bind, add_short_term, relevant_context, save_session, get,
    modify, ret, llm_event, prompt_of, buffer_with_input, user_entry,
    response_entry.
  cbn.
  destruct (tools ag) as [|t ts] eqn:Ht.
  - unfold llm_chat, bind; cbn.
    destruct (chat _ (llm ag)) as [[msg|e] l']; reflexivity.
  - unfold llm_chat_with_tools; cbn.
    destruct (chat_with_tools _ (t :: ts) (llm ag)) as [[r|e] l']; reflexivity.
Qed.

(** C1, as the code has it.  [run] stores the user input first: the events
    of a call start with the append of the input entry, then the context
    fetch, which is given the buffer with that entry already in it, then the
    call on the LLM client.  The response is appended, and the session saved,
    only after that call has returned; when it raises, nothing follows and
    the buffer has gained the input entry alone. *)
Theorem run_stores_input_then_fetches_context
  (input : string) (show_thinking : bool) (ag : Agent) :
  exists after_llm,
    trace (snd (run input show_thinking ag))
    = trace ag
      ++ [EvAddShortTerm (user_entry ag input);
          EvGetContext (short_term (memory ag) ++ [user_entry ag input]) input;
          llm_event ag input]
      ++ after_llm /\
    match fst (run input show_thinking ag) with
    | Return response =>
        after_llm
        = [EvAddShortTerm (response_entry ag response);
           EvSaveSession (short_term (memory ag)
                          ++ [user_entry ag input;
                              response_entry ag response])] /\
        short_term (memory (snd (run input show_thinking ag)))
        = short_term (memory ag)
          ++ [user_entry ag input; response_entry ag response]
    | Raise _ =>
        after_llm = [] /\
        short_term (memory (snd (run input show_thinking ag)))
        = short_term (memory ag) ++ [user_entry ag input]
    end.
Proof.
  rewrite run_unfold; unfold llm_event, buffer_with_input; cbv zeta.
  destruct (tools ag) as [|t ts].
  - destruct (chat _ (llm ag)) as [[msg|e] l']; cbn;
      eexists; (split; [repeat rewrite <- app_assoc; cbn; reflexivity|]);
      repeat rewrite <- app_assoc; cbn; split; reflexivity.
  - destruct (chat_with_tools _ (t :: ts) (llm ag)) as [[r|e] l']; cbn;
      eexists; (split; [repeat rewrite <- app_assoc; cbn; reflexivity|]);
      repeat rewrite <- app_assoc; cbn; split; reflexivity.
Qed.

(** C2.  With no tool registered, [run] calls [chat] exactly once, with the
    prompt built from the input, and never [chat_with_tools]; when that call
    returns a message, [run] returns its text and the buffer has gained
    exactly two entries, the [user_input] entry and then the
    [agent_response] entry; when that call raises, so does [run]. *)
Theorem run_without_tools
  (input : string) (show_thinking : bool) (ag : Agent) :
  tools ag = [] ->
  (exists new_events,
      trace (snd (run input show_thinking ag)) = trace ag ++ new_events /\
      filter is_llm_call new_events = [EvChat (prompt_of ag input)]) /\
  match fst (chat (prompt_of ag input) (llm ag)) with
  | Return msg =>
      fst (run input show_thinking ag) = Return (content_or_empty msg) /\
      short_term (memory (snd (run input show_thinking ag)))
      = short_term (memory ag)
        ++ [mkEntry input "user_input" (now (clock (memory ag)));
            mkEntry (content_or_empty msg) "agent_response"
                    (now (clock (memory ag) + 1))]
  | Raise e => fst (run input show_thinking ag) = Raise e
  end.
Proof.
  intro Ht; rewrite run_unfold, Ht; unfold buffer_with_input; cbv zeta.
  destruct (chat _ (llm ag)) as [[msg|e] l']; cbn [fst snd]; split.
  - cbn; eexists; split; [repeat rewrite <- app_assoc; cbn; reflexivity|].
    reflexivity.
  - split; [reflexivity|].
    cbn; rewrite <- app_assoc; reflexivity.
  - cbn; eexists; split; [repeat rewrite <- app_assoc; cbn; reflexivity|].
    reflexivity.
  - reflexivity.
Qed.

End RunFacts.

(** C1 fails as stated: on a new agent, whose buffer is empty, the context
    fetch of [run "hello"] is handed a buffer that holds the entry of
    ["hello"] itself. *)
Lemma run_context_fetch_sees_input :
  AgentCore.short_term (AgentCore.memory Examples.agent0) = [] /\
  exists seen,
    In seen (AgentCore.context_views
               (AgentCore.trace
                  (snd (@AgentCore.run Examples.echo_env "hello" true
                                       Examples.agent0)))) /\
    In (AgentCore.mkEntry "hello" "user_input" "t0") seen.
Proof.
  split; [reflexivity|].
  exists [AgentCore.mkEntry "hello" "user_input" "t0"].
  split; [left; reflexivity|left; reflexivity].
Qed.

(** Scenario 1 of the spec: a new agent, no tools, [run "hello"]. *)
Lemma run_without_tools_witness :
  AgentCore.tools Examples.agent0 = [] /\
  (exists new_events,
      AgentCore.trace (snd (@AgentCore.run Examples.echo_env "hello" true
                                           Examples.agent0))
      = AgentCore.trace Examples.agent0 ++ new_events /\
      filter AgentCore.is_llm_call new_events = [AgentCore.EvChat "hello"]) /\
  fst (@AgentCore.run Examples.echo_env "hello" true Examples.agent0)
  = Py.Return "hello"%string /\
  AgentCore.short_term
    (AgentCore.memory
       (snd (@AgentCore.run Examples.echo_env "hello" true Examples.agent0)))
  = [AgentCore.mkEntry "hello" "user_input" "t0";
     AgentCore.mkEntry "hello" "agent_response" "t1"].
Proof.
  split; [reflexivity|].
  exact (@run_without_tools Examples.echo_env "hello" true Examples.agent0
           eq_refl).
Defined.

(** ** The agent: the skill registry *)
Section DictFacts.

Import Py.
Local Open Scope list_scope.

Variable V : Type.

Lemma dict_get_set_same (k : string) (v : V) (d : dict V) :
  dict_get k (dict_set k v d) = Some v.
Proof.
  induction d as [|[k' v'] d IH]; cbn.
  - rewrite String.eqb_refl; reflexivity.
  - destruct (String.eqb k k') eqn:E; cbn; rewrite ?String.eqb_refl, ?E;
      [reflexivity|exact IH].
Qed.

Lemma dict_keys_set (k : string) (v : V) (d : dict V) (n : string) :
  In n (dict_keys (dict_set k v d)) <-> n = k \/ In n (dict_keys d).
Proof.
  unfold dict_keys; induction d as [|[k' v'] d IH]; cbn.
  - intuition congruence.
  - destruct (String.eqb k k') eqn:E; cbn.
    + apply String.eqb_eq in E; subst k'; intuition congruence.
    + rewrite IH; intuition congruence.
Qed.

Lemma dict_contains_keys (k : string) (d : dict V) :
  dict_contains k d = true <-> In k (dict_keys d).
Proof.
  unfold dict_contains, dict_keys; induction d as [|[k' v'] d IH]; cbn.
  - intuition discriminate.
  - destruct (String.eqb k k') eqn:E.
    + apply String.eqb_eq in E; subst k'; intuition.
    + apply String.eqb_neq in E; rewrite IH; intuition congruence.
Qed.

End DictFacts.

Section RegistryFacts.

Import Py LLM AgentCore.
Local Open Scope string_scope.
Local Open Scope list_scope.

Context {rich : Console}.

Lemma set_tools_same a : set_tools (tools a) a = a.
Proof. destruct a; reflexivity. Qed.

Lemma append_tools ts : forall a,
  for_each ts (fun tool => modify (fun a => set_tools (tools a ++ [tool]) a)) a
  = (Return tt, set_tools (tools a ++ ts) a).
Proof.
  induction ts as [|t ts IH]; intro a; cbn [for_each].
  - unfold ret; rewrite app_nil_r, set_tools_same; reflexivity.
  - unfold bind, modify at 1; rewrite IH; cbn.
    rewrite <- app_assoc; reflexivity.
Qed.

(** [register_skill] in one step: the skill takes its name in the registry,
    its tools go to the end of the flat list, and then one line is
    printed. *)
Lemma register_skill_unfold (skill : Skill) (a : Agent) :
  register_skill skill a
  = console_print ("[dim]Skill registered: " ++ name skill ++ "[/dim]")
      (mkAgent (config a) (llm a) (memory a)
               (dict_set (name skill) skill (skills a))
               (tools a ++ get_tools skill) (is_running a) (console a)
               (trace a)).
Proof.
  unfold register_skill, bind, modify at 1; rewrite append_tools.
  reflexivity.
Qed.

(** Printing touches the console alone, whether it returns or raises. *)
Lemma console_print_state (text : string) (a : Agent) :
  AgentStream.same_but_console (snd (console_print text a)) a.
Proof.
  unfold console_print; destruct (markup_error text); repeat split.
Qed.

(** What a registration stores, whatever becomes of its print. *)
Lemma register_skill_state (skill : Skill) (a : Agent) :
  skills (snd (register_skill skill a))
  = dict_set (name skill) skill (skills a) /\
  tools (snd (register_skill skill a)) = tools a ++ get_tools skill.
Proof.
  rewrite register_skill_unfold.
  destruct (console_print_state
              ("[dim]Skill registered: " ++ name skill ++ "[/dim]")
              (mkAgent (config a) (llm a) (memory a)
                       (dict_set (name skill) skill (skills a))
                       (tools a ++ get_tools skill) (is_running a)
                       (console a) (trace a)))
    as (_ & _ & _ & Hs & Ht & _).
  split; assumption.
Qed.

(** C3.  For a name that is not in the registry, whatever the registry holds
    and also when it is empty, [run_skill_directly] returns for every
    keyword arguments the same string ["Skill not found: <name>"], raises
    nothing and leaves the agent as it was; for a registered name it gives
    what the [execute] of the skill registered under that name gives on the
    arguments. *)
Theorem run_skill_directly_result (ag : Agent) (skill_name : string) :
  match dict_get skill_name (skills ag) with
  | None =>
      ~ In skill_name (get_available_skills ag) /\
      forall kwargs : Kwargs,
        run_skill_directly skill_name kwargs ag
        = (Return ("Skill not found: " ++ skill_name)%string, ag)
  | Some skill =>
      In skill_name (get_available_skills ag) /\
      forall kwargs : Kwargs,
        run_skill_directly skill_name kwargs ag = (execute skill kwargs, ag)
  end.
Proof.
  pose proof (dict_contains_keys skill_name (skills ag)) as Hkeys.
  unfold run_skill_directly, bind, get, get_available_skills.
  unfold dict_contains in *.
  destruct (dict_get skill_name (skills ag)) as [skill|]; cbn.
  - split; [apply Hkeys; reflexivity|reflexivity].
  - split; [|reflexivity].
    intro Hin; apply Hkeys in Hin; discriminate Hin.
Qed.

(** C5, as the code has it.  After two registrations the flat tool list is
    the old list followed by the tools of the first skill and then those of
    the second: nothing is removed or replaced, so two tools of one name are
    both in it, in registration order.  In the registry the second skill is
    what its name gives, also when the first had the same name. *)
Theorem register_skill_twice (first second : Skill) (ag : Agent) :
  tools (snd (register_skill second (snd (register_skill first ag))))
  = tools ag ++ get_tools first ++ get_tools second /\
  dict_get (name second)
    (skills (snd (register_skill second (snd (register_skill first ag)))))
  = Some second /\
  (forall n,
      In n (get_available_skills
              (snd (register_skill second (snd (register_skill first ag)))))
      <-> n = name second \/ n = name first
          \/ In n (get_available_skills ag)).
Proof.
  destruct (register_skill_state first ag) as [Hs1 Ht1].
  destruct (register_skill_state second (snd (register_skill first ag)))
    as [Hs2 Ht2].
  unfold get_available_skills; rewrite Hs2, Ht2, Hs1, Ht1.
  split; [rewrite app_assoc; reflexivity|].
  split; [apply dict_get_set_same|].
  intro n; rewrite !dict_keys_set; reflexivity.
Qed.

End RegistryFacts.

(** C5 fails as stated: two skills that each bring a tool named ["echo"];
    after both registrations the flat list holds the two tools, the first
    one still there and ahead of the second. *)
Lemma register_skill_keeps_shadowed_tool :
  let ag := snd (@AgentCore.register_skill Examples.rich_console
                   Examples.second_skill
                   (snd (@AgentCore.register_skill Examples.rich_console
                           Examples.first_skill Examples.agent0))) in
  map LLM.tool_name (AgentCore.tools ag) = ["echo"; "echo"]%string /\
  map LLM.tool_description (AgentCore.tools ag)
  = ["first echo"; "second echo"]%string /\
  ~ (forall t, In t (AgentCore.tools ag) ->
               LLM.tool_name t = "echo"%string ->
               In t (AgentCore.get_tools Examples.second_skill)).
Proof.
  cbv zeta; split; [reflexivity|]; split; [reflexivity|].
  intro H.
  specialize (H (Examples.echo_tool "first echo") (or_introl eq_refl) eq_refl).
  destruct H as [H|[]].
  apply (f_equal LLM.tool_description) in H; discriminate H.
Qed.

(** An unknown name on the agent as [__init__] leaves it, with no skill
    registered, and a known one once a skill is registered. *)
Lemma run_skill_directly_result_witness :
  (~ In "pdf"%string (AgentCore.get_available_skills Examples.agent0) /\
   forall kwargs : LLM.Kwargs,
     AgentCore.run_skill_directly "pdf" kwargs Examples.agent0
     = (Py.Return "Skill not found: pdf"%string, Examples.agent0)) /\
  let ag := snd (@AgentCore.register_skill Examples.rich_console
                   Examples.first_skill Examples.agent0) in
  In "first"%string (AgentCore.get_available_skills ag) /\
  forall kwargs : LLM.Kwargs,
    AgentCore.run_skill_directly "first" kwargs ag
    = (Py.Return "first result"%string, ag).
Proof.
  split.
  - exact (run_skill_directly_result Examples.agent0 "pdf").
  - exact (run_skill_directly_result
             (snd (@AgentCore.register_skill Examples.rich_console
                     Examples.first_skill Examples.agent0))
             "first").
Defined.

(** ** The agent: loading the skills *)
Section LoadFacts.

Import Py LLM AgentCore AgentStream.
Local Open Scope string_scope.
Local Open Scope list_scope.

Context {rich : Console}.

(** The [except] clauses print the diagnostic of an [Exception] and let
    anything else through. *)
Lemma load_error_handler_unfold (c : SkillClass) (e : exn) (a : Agent) :
  load_error_handler c e a
  = if is_Exception e then console_print (diagnostic c e) a
    else (Raise e, a).
Proof. destruct e; reflexivity. Qed.

(** One round of the loop: the [try] block, and the [except] clauses for
    what it raises, be it the constructor or a print of the block itself. *)
Lemma load_skill_unfold (c : SkillClass) (a : Agent) :
  load_skill c a
  = match init c (config a) with
    | Return (ts, exec) =>
        match
          (if is_skill_enabled (config a) (cls_name c)
           then register_skill
                  (mkSkill (cls_name c) (cls_description c) ts exec) a
           else console_print ("[dim]Skill disabled in config: "
                               ++ cls_name c ++ "[/dim]") a)
        with
        | (Return _, a') => (Return tt, a')
        | (Raise e, a') => load_error_handler c e a'
        end
    | Raise e => load_error_handler c e a
    end.
Proof.
  unfold load_skill, try_except, bind, get, lift, construct.
  destruct (init c (config a)) as [[ts exec]|e]; [|reflexivity].
  cbn [name].
  destruct (is_skill_enabled (config a) (cls_name c)); cbn [negb].
  - destruct (register_skill _ a) as [[[]|e] a']; reflexivity.
  - destruct (console_print _ a) as [[[]|e] a']; reflexivity.
Qed.

Lemma console_print_renders (text : string) (a : Agent) :
  renders text = true ->
  console_print text a
  = (Return tt,
     mkAgent (config a) (llm a) (memory a) (skills a) (tools a)
             (is_running a) (console a ++ [text]) (trace a)).
Proof.
  unfold renders, console_print.
  destruct (markup_error text); [discriminate|reflexivity].
Qed.

(** One round of the loop on a class that passes: the line is printed, and
    the class, if it was built and is enabled, is in the registry with its
    tools at the end of the flat list. *)
Lemma load_skill_passes (c : SkillClass) (a : Agent) :
  passes (config a) c = true ->
  exists line,
    load_line (config a) c = Some line /\
    load_skill c a
    = (Return tt,
       mkAgent (config a) (llm a) (memory a)
               (loaded_skills (config a) c (skills a))
               (tools a ++ loaded_tools (config a) [c]) (is_running a)
               (console a ++ [line]) (trace a)).
Proof.
  unfold passes, load_line, loaded_skills, loaded_tools; cbn [flat_map].
  rewrite load_skill_unfold, app_nil_r.
  destruct (init c (config a)) as [[ts exec]|e].
  - destruct (is_skill_enabled (config a) (cls_name c)); intro Hline;
      eexists; (split; [reflexivity|]).
    + rewrite register_skill_unfold; cbn [name get_tools].
      rewrite (console_print_renders _ _ Hline); reflexivity.
    + rewrite (console_print_renders _ _ Hline), app_nil_r.
      destruct a; reflexivity.
  - rewrite load_error_handler_unfold.
    destruct (is_Exception e); [|discriminate].
    intro Hline; eexists; split; [reflexivity|].
    rewrite (console_print_renders _ _ Hline), app_nil_r; reflexivity.
Qed.

(** A class whose constructor raises an [Exception], and whose diagnostic
    renders, contributes that line and nothing else. *)
Lemma load_skill_failure_is_skipped (c : SkillClass) (a : Agent) (e : exn) :
  init c (config a) = Raise e ->
  is_Exception e = true ->
  renders (diagnostic c e) = true ->
  load_skill c a
  = (Return tt,
     mkAgent (config a) (llm a) (memory a) (skills a) (tools a)
             (is_running a) (console a ++ [diagnostic c e]) (trace a)).
Proof.
  intros Hinit He Hline.
  rewrite load_skill_unfold, Hinit, load_error_handler_unfold, He.
  apply console_print_renders, Hline.
Qed.

(** A class whose constructor raises an [Exception], and whose diagnostic
    does not render: the [MarkupError] of the print leaves the [except]
    clause, and the loop with it. *)
Lemma load_skill_diagnostic_raises (c : SkillClass) (a : Agent) (e : exn)
  (msg : string) :
  init c (config a) = Raise e ->
  is_Exception e = true ->
  markup_error (diagnostic c e) = Some msg ->
  load_skill c a = (Raise (MarkupError msg), a).
Proof.
  intros Hinit He Hline.
  rewrite load_skill_unfold, Hinit, load_error_handler_unfold, He.
  unfold console_print; rewrite Hline; reflexivity.
Qed.

End LoadFacts.

(** C4 fails on the code.  The diagnostic of the [except] clauses goes
    through the markup parser of the console with the text of the exception
    in it.  When the constructor of a class raises a missing-dependency
    error whose text holds [[/x]], the print of the diagnostic raises a
    [MarkupError] inside the [except] clause: [load_skills] raises it, and
    the valid class that follows is never tried, so no name is available
    afterwards. *)
Theorem load_skills_diagnostic_escapes :
  AgentCore.init Examples.FussySkill (AgentCore.config Examples.agent0)
  = Py.Raise (Py.ImportError "no [/x] here") /\
  AgentCore.is_load_failure (Py.ImportError "no [/x] here") = true /\
  AgentStream.diagnostic Examples.FussySkill (Py.ImportError "no [/x] here")
  = "[yellow]Missing dependency for FussySkill: no [/x] here[/yellow]"%string
  /\
  @AgentCore.load_skills Examples.rich_console
    [Examples.FussySkill; Examples.ValidSkill] Examples.agent0
  = (Py.Raise (Py.MarkupError
       "closing tag '[/x]' at position 46 doesn't match any open tag"),
     Examples.agent0) /\
  AgentCore.get_available_skills
    (snd (@AgentCore.load_skills Examples.rich_console
            [Examples.FussySkill; Examples.ValidSkill] Examples.agent0))
  = [].
Proof.
  split; [reflexivity|]; split; [reflexivity|]; split; [reflexivity|].
  assert (Hrun :
    @AgentCore.load_skills Examples.rich_console
      [Examples.FussySkill; Examples.ValidSkill] Examples.agent0
    = (Py.Raise (Py.MarkupError
         "closing tag '[/x]' at position 46 doesn't match any open tag"),
       Examples.agent0)).
  { unfold AgentCore.load_skills; cbn [Py.for_each]; unfold Py.bind.
    rewrite (@load_skill_diagnostic_raises Examples.rich_console
               Examples.FussySkill Examples.agent0
               (Py.ImportError "no [/x] here")
               "closing tag '[/x]' at position 46 doesn't match any open tag"
               eq_refl eq_refl eq_refl).
    reflexivity. }
  split; [exact Hrun|rewrite Hrun; reflexivity].
Qed.

(** ** The response queue of the social media skill *)
Section QueueFacts.

Import Py Social.
Local Open Scope string_scope.
Local Open Scope list_scope.

Context {World : Type} {env : Env World}.

Lemma filter_pending (q : list QueueItem) : all_pending (filter is_pending q).
Proof.
  apply Forall_forall; intros i Hi.
  apply filter_In in Hi; destruct Hi as [_ Hi].
  apply String.eqb_eq; exact Hi.
Qed.

(** [queue_add] returns, and the queue it leaves is the old one followed by
    one item, whose status is ["pending"]. *)
Lemma queue_add_appends platform message_id response priority
  (s : SocialMediaSkill World) :
  exists text item,
    fst (queue_add platform message_id response priority s) = Return text /\
    _response_queue (snd (queue_add platform message_id response priority s))
    = _response_queue s ++ [item] /\
    status item = "pending" /\
    Social.platform item = platform /\ Social.message_id item = message_id /\
    Social.response item = response /\ Social.priority item = priority.
Proof.
  unfold queue_add, bind, get, now_isoformat, in_world, modify, ret.
  destruct (datetime_now_isoformat (world s)) as [t w'].
  cbn; eexists; eexists; repeat split.
Qed.

(** [queue_list] returns and changes nothing. *)
Lemma queue_list_reads (s : SocialMediaSkill World) :
  exists text, queue_list s = (Return text, s).
Proof.
  unfold queue_list, bind, get, ret.
  destruct (_response_queue s); eexists; reflexivity.
Qed.

(** When [queue_send] returns, every item left is pending, whatever the
    queue held before. *)
Lemma queue_send_leaves_pending queue_id (s : SocialMediaSkill World) text s' :
  queue_send queue_id s = (Return text, s') ->
  all_pending (_response_queue s').
Proof.
  unfold queue_send, bind at 1, get.
  destruct (_response_queue s) as [|i q] eqn:Hq.
  - intro H; inversion H; subst s'; rewrite Hq; constructor.
  - unfold bind, modify, ret.
    destruct (send_loop queue_id [] (i :: q) 0 [] s) as [[r|e] s1];
      intro H; inversion H; subst; cbn.
    apply filter_pending.
Qed.

End QueueFacts.

(** C9 fails on the code.  Two replies are queued, one for Telegram and one
    for Twitter; [queue_send] sends the first, which Telegram accepts, and
    marks it ["sent"]; Twitter answers the second with a body that is a JSON
    array, which [_make_request] hands back as it is, and [result.get]
    raises an [AttributeError] out of [queue_send] before the sent items are
    removed.  The [queue_list] that follows completes, and the queue it
    leaves holds an item whose status is ["sent"]. *)
Theorem response_queue_keeps_sent_item :
  Social.all_pending (Social._response_queue MoreExamples.two_replies_array)
  /\
  fst (@Social.queue_send _ MoreExamples.social_env None
         MoreExamples.two_replies_array)
  = Py.Raise (Py.AttributeError "'list' object has no attribute 'get'") /\
  (exists text,
     fst (@Social.queue_list _
            (snd (@Social.queue_send _ MoreExamples.social_env None
                    MoreExamples.two_replies_array)))
     = Py.Return text) /\
  map (fun i => (Social.id i, Social.status i))
      (Social._response_queue
         (@Social.exec _ MoreExamples.social_env
            [Social.OpSend None; Social.OpList]
            MoreExamples.two_replies_array))
  = [("q_1", "sent"); ("q_2", "pending")]%string /\
  ~ Social.all_pending
      (Social._response_queue
         (@Social.exec _ MoreExamples.social_env
            [Social.OpSend None; Social.OpList]
            MoreExamples.two_replies_array)).
Proof.
  split; [repeat constructor|].
  split; [vm_compute; reflexivity|].
  split; [eexists; vm_compute; reflexivity|].
  assert (Hq : map (fun i => (Social.id i, Social.status i))
                 (Social._response_queue
                    (@Social.exec _ MoreExamples.social_env
                       [Social.OpSend None; Social.OpList]
                       MoreExamples.two_replies_array))
               = [("q_1", "sent"); ("q_2", "pending")]%string)
    by (vm_compute; reflexivity).
  split; [exact Hq|].
  intro Hall.
  destruct (Social._response_queue
              (@Social.exec _ MoreExamples.social_env
                 [Social.OpSend None; Social.OpList]
                 MoreExamples.two_replies_array)) as [|i q];
    [discriminate Hq|].
  inversion Hall as [|? ? Hi _]; subst.
  cbn [map] in Hq; inversion Hq as [[Hid Hst Hrest]].
  rewrite Hi in Hst; discriminate Hst.
Qed.

(** A run on the scripted world: with a Telegram token, a Twitter token and
    [httpx] installed, the Telegram reply is accepted and leaves the queue;
    the Twitter answer carries no ["success"] key, so that item stays,
    pending. *)
Example queue_send_example :
  let env := Social.script_env
               [("TELEGRAM_BOT_TOKEN", "tok");
                ("TWITTER_BEARER_TOKEN", "b")]%string
               true in
  let ok := inr (Social.mkHttpResponse 200 ""
                   (inr (Py.JDict [("ok"%string, Py.JBool true)]))) in
  let s := @Social.exec _ env
             [Social.OpAdd "telegram" "42" "hi" "normal";
              Social.OpAdd "twitter" "43" "yo" "high";
              Social.OpSend None]%string
             (Social.new_skill (Social.mkScript [ok; ok] 0)) in
  map Social.id (Social._response_queue s) = ["q_2"%string] /\
  map Social.status (Social._response_queue s) = ["pending"%string].
Proof. split; reflexivity. Qed.

(** ** The catalog search of the HubLab skill *)
Section SearchFacts.

Import Py HubLab.
Local Open Scope string_scope.
Local Open Scope list_scope.
Local Open Scope Z_scope.

Lemma insert_by_score_perm x l : Permutation (insert_by_score x l) (x :: l).
Proof.
  induction l as [|y r IH]; cbn [insert_by_score]; [reflexivity|].
  destruct (fst x <? fst y); [|reflexivity].
  rewrite IH; apply perm_swap.
Qed.

Lemma sort_by_score_perm l : Permutation (sort_by_score l) l.
Proof.
  induction l as [|x l IH]; cbn; [reflexivity|].
  rewrite insert_by_score_perm; constructor; exact IH.
Qed.

Lemma insert_by_score_sorted x l :
  StronglySorted before l -> StronglySorted before (insert_by_score x l).
Proof.
  induction 1 as [|y r Hr IH Hy]; cbn [insert_by_score].
  - repeat constructor.
  - destruct (fst x <? fst y) eqn:E.
    + apply Z.ltb_lt in E; constructor; [exact IH|].
      rewrite (Forall_forall (before y)); intros z Hz.
      apply (Permutation_in _ (insert_by_score_perm x r)) in Hz.
      destruct Hz as [<-|Hz]; [unfold before; lia|].
      rewrite Forall_forall in Hy; exact (Hy z Hz).
    + apply Z.ltb_ge in E; constructor; [constructor; assumption|].
      constructor; [exact E|].
      rewrite Forall_forall in Hy |- *; intros z Hz.
      specialize (Hy z Hz); unfold before in *; lia.
Qed.

Lemma sort_by_score_sorted l : StronglySorted before (sort_by_score l).
Proof.
  induction l as [|x l IH]; cbn; [constructor|].
  apply insert_by_score_sorted, IH.
Qed.

Lemma score_all_positive capsules query :
  Forall (fun sc => 0 < fst sc) (score_all capsules query).
Proof.
  unfold score_all.
  assert (Hgen : forall acc, Forall (fun sc : Z * Capsule => 0 < fst sc) acc ->
    Forall (fun sc => 0 < fst sc)
      (fold_left
         (fun scored cap =>
            let score := _match_score cap query in
            if 0 <? score then scored ++ [(score, cap)] else scored)
         capsules acc)).
  { induction capsules as [|c cs IH]; intros acc Hacc; cbn [fold_left];
      [exact Hacc|].
    apply IH; cbv zeta.
    destruct (0 <? _match_score c query) eqn:E; [|exact Hacc].
    apply Forall_app; split; [exact Hacc|].
    constructor; [apply Z.ltb_lt, E|constructor]. }
  apply Hgen; constructor.
Qed.

Lemma in_firstn {A} (x : A) k : forall l, In x (firstn k l) -> In x l.
Proof.
  induction k as [|k IH]; intros [|y l]; cbn [firstn]; try contradiction.
  intros [<-|H]; [left; reflexivity|right; apply IH, H].
Qed.

Lemma firstn_sorted {A} (R : A -> A -> Prop) k : forall l,
  StronglySorted R l -> StronglySorted R (firstn k l).
Proof.
  induction k as [|k IH]; intros l Hl; [constructor|].
  destruct Hl as [|x l Hl Hx]; cbn [firstn]; [constructor|].
  constructor; [apply IH, Hl|].
  rewrite Forall_forall in Hx |- *; intros y Hy.
  apply Hx; revert Hy; apply in_firstn.
Qed.

Lemma firstn_Forall {A} (P : A -> Prop) k l :
  Forall P l -> Forall P (firstn k l).
Proof.
  rewrite !Forall_forall; intros H x Hx; apply H.
  revert Hx; apply in_firstn.
Qed.

(** A slice [xs[:n]] is a prefix; for [n >= 0] it has at most [n]
    elements. *)
Lemma slice_to_prefix {A} n (xs : list A) :
  exists k, slice_to n xs = firstn k xs.
Proof.
  unfold slice_to; destruct (0 <=? n); eexists; reflexivity.
Qed.

Lemma slice_to_length {A} n (xs : list A) :
  0 <= n -> Z.of_nat (List.length (slice_to n xs)) <= n.
Proof.
  intro Hn; unfold slice_to.
  destruct (Z.leb_spec 0 n); [|lia].
  pose proof (firstn_le_length (Z.to_nat n) xs); lia.
Qed.

(** The scored, ranked and cut list behind the results of a search. *)
Lemma ranked_slice limit capsules query :
  Forall (fun sc => 0 < fst sc)
         (slice_to limit (sort_by_score (score_all capsules query))) /\
  StronglySorted before
         (slice_to limit (sort_by_score (score_all capsules query))).
Proof.
  destruct (slice_to_prefix limit (sort_by_score (score_all capsules query)))
    as [k ->].
  split.
  - apply firstn_Forall.
    rewrite Forall_forall; intros sc Hsc.
    apply (Permutation_in _ (sort_by_score_perm _)) in Hsc.
    pose proof (score_all_positive capsules query) as Hpos.
    rewrite Forall_forall in Hpos; exact (Hpos sc Hsc).
  - apply firstn_sorted, sort_by_score_sorted.
Qed.

Lemma score_of_result_entry sc : score_of (result_entry sc) = Some (fst sc).
Proof. destruct sc; reflexivity. Qed.

Lemma sorted_scores l :
  StronglySorted before l -> StronglySorted Z.ge (map fst l).
Proof.
  induction 1 as [|x l Hl IH Hx]; cbn [map]; constructor; [exact IH|].
  rewrite Forall_forall in Hx |- *; intros z Hz.
  apply in_map_iff in Hz; destruct Hz as (y & <- & Hy).
  specialize (Hx y Hy); unfold before in Hx; lia.
Qed.

Context {env : Env}.

(** Loading returns unless the test for the metadata file raises; when
    neither cache, file nor API gives a catalog, the list is empty. *)
Lemma _load_capsules_returns (s : HubLabSkill) :
  path_error s = None ->
  exists cs s',
    _load_capsules s = (Return cs, s') /\ (cannot_load s -> cs = []).
Proof.
  unfold _load_capsules, cannot_load, path_error, bind, get.
  destruct (_capsules_cache s) as [cached|] eqn:Hc.
  - intros _; eexists; eexists; split; [reflexivity|].
    intros [H _]; discriminate H.
  - destruct metadata_exists as [msg|[|]]; [discriminate| |]; intros _; cbn.
    + destruct read_metadata as [msg|cs]; cbn;
        [|eexists; eexists; split; [reflexivity|];
          intros (_ & [H|[_ [m H]]] & _); discriminate H].
      destruct fetch_api as [msg'|[cs'|]]; cbn;
        eexists; eexists; (split; [reflexivity|]);
        try reflexivity; intros (_ & _ & [m H]); discriminate H.
    + destruct fetch_api as [msg'|[cs'|]]; cbn;
        eexists; eexists; (split; [reflexivity|]);
        try reflexivity; intros (_ & _ & [m H]); discriminate H.
Qed.

(** What a search returns, for any [limit]: the error object, or results
    with positive scores in non-increasing order. *)
Lemma hublab_search_results query category limit (s : HubLabSkill) :
  path_error s = None ->
  exists j s',
    hublab_search query category limit s = (Return j, s') /\
    (cannot_load s -> j = load_error) /\
    (j = load_error \/
     exists capsules,
       results_of j
       = Some (map result_entry
                   (slice_to limit
                      (sort_by_score (score_all capsules query))))).
Proof.
  intro Hpath.
  destruct (_load_capsules_returns s Hpath) as (cs & s' & Hload & Hnone).
  unfold hublab_search, bind; rewrite Hload.
  destruct cs as [|c cs].
  - eexists; eexists; split; [reflexivity|]; split; [reflexivity|].
    left; reflexivity.
  - eexists; eexists; split; [reflexivity|]; split.
    + intro H; specialize (Hnone H); discriminate Hnone.
    + right; eexists; reflexivity.
Qed.

(** C10, as the code has it.  Let the test for the metadata file not fail
    with an operating-system error (it is made when nothing is cached).
    Then [hublab_search] returns, whatever [limit] is, an object that is
    either the error object or holds results that each have a strictly
    positive score and come in order of non-increasing score; there are at
    most [limit] of them when [limit] is not negative; and when the catalog
    cannot be loaded, the file being absent or unreadable and the API
    failing, the object is the error object. *)
Theorem hublab_search_postcondition
  (query : string) (category : option string) (limit : Z) (s : HubLabSkill) :
  path_error s = None ->
  exists j s',
    hublab_search query category limit s = (Return j, s') /\
    (cannot_load s -> j = load_error) /\
    (j = load_error \/
     exists results scores,
       results_of j = Some results /\
       map score_of results = map Some scores /\
       (0 <= limit -> Z.of_nat (List.length results) <= limit) /\
       Forall (fun score => 0 < score) scores /\
       StronglySorted Z.ge scores).
Proof.
  intro Hpath.
  destruct (hublab_search_results query category limit s Hpath)
    as (j & s' & Hrun & Herr & Hres).
  exists j, s'; split; [exact Hrun|]; split; [exact Herr|].
  destruct Hres as [Hj|(capsules & Hres)]; [left; exact Hj|right].
  destruct (ranked_slice limit capsules query) as [Hpos Hsorted].
  set (ranked := slice_to limit (sort_by_score (score_all capsules query)))
    in *.
  exists (map result_entry ranked), (map fst ranked).
  split; [exact Hres|]; split; [|split; [|split]].
  - rewrite !map_map; apply map_ext; intro sc; apply score_of_result_entry.
  - intro Hlimit; rewrite length_map; apply slice_to_length, Hlimit.
  - rewrite Forall_forall in Hpos |- *; intros z Hz.
    apply in_map_iff in Hz; destruct Hz as (sc & <- & Hsc); exact (Hpos sc Hsc).
  - apply sorted_scores, Hsorted.
Qed.

End SearchFacts.

(** C10 fails as stated in two ways.  For a negative [limit] the slice
    [scored[:-1]] drops the last of the three matches and keeps two results,
    more than [-1].  And when the directory of the metadata file may not be
    searched, while nothing is cached and the API is out of reach, the
    catalog cannot be loaded and [hublab_search] raises the error of the
    test [metadata_path.exists()] instead of returning the error object. *)
Lemma hublab_search_breaks_postcondition :
  (exists j s' results,
     @HubLab.hublab_search Examples.hublab_env "button" None (-1)
                           HubLab.new_skill
     = (Py.Return j, s') /\
     HubLab.results_of j = Some results /\
     List.length results = 2%nat /\
     ~ (Z.of_nat (List.length results) <= -1)%Z) /\
  (HubLab._capsules_cache HubLab.new_skill = None /\
   @HubLab.fetch_api MoreExamples.locked_env = inl "network down"%string /\
   @HubLab.hublab_search MoreExamples.locked_env "button" None 20
                         HubLab.new_skill
   = (Py.Raise (Py.OSError MoreExamples.permission_denied),
      HubLab.new_skill)).
Proof.
  split.
  - eexists; eexists; eexists.
    split; [vm_compute; reflexivity|].
    split; [reflexivity|].
    split; [reflexivity|].
    cbn; lia.
  - split; [reflexivity|]; split; reflexivity.
Qed.

(** The search for ["button"] in the example catalog with the default limit:
    three results, scores 250, 80 and 50. *)
Lemma hublab_search_postcondition_witness :
  @HubLab.path_error Examples.hublab_env HubLab.new_skill = None /\
  exists j s',
    @HubLab.hublab_search Examples.hublab_env "button" None 20
                          HubLab.new_skill
    = (Py.Return j, s') /\
    (@HubLab.cannot_load Examples.hublab_env HubLab.new_skill ->
     j = @HubLab.load_error Examples.hublab_env) /\
    (j = @HubLab.load_error Examples.hublab_env \/
     exists results scores,
       HubLab.results_of j = Some results /\
       map HubLab.score_of results = map Some scores /\
       ((0 <= 20)%Z -> (Z.of_nat (List.length results) <= 20)%Z) /\
       Forall (fun score => (0 < score)%Z) scores /\
       StronglySorted Z.ge scores).
Proof.
  split; [reflexivity|].
  exact (@hublab_search_postcondition Examples.hublab_env "button" None 20
           HubLab.new_skill eq_refl).
Defined.

(** Offline, with no metadata file: the error object. *)
Example hublab_search_offline_example :
  @HubLab.cannot_load MoreExamples.offline_env HubLab.new_skill /\
  @HubLab.hublab_search MoreExamples.offline_env "button" None 20
                        HubLab.new_skill
  = (Py.Return (@HubLab.load_error MoreExamples.offline_env),
     HubLab.new_skill).
Proof.
  split; [|reflexivity].
  split; [reflexivity|]; split; [left; reflexivity|].
  exists "network down"%string; reflexivity.
Qed.

Example hublab_search_example :
  option_map (map HubLab.score_of)
    (HubLab.results_of
       match fst (@HubLab.hublab_search Examples.hublab_env "button" None 20
                                        HubLab.new_skill) with
       | Py.Return j => j
       | Py.Raise _ => Py.JNull
       end)
  = Some [Some 250; Some 80; Some 50]%Z.
Proof. vm_compute; reflexivity. Qed.

(* ====================================================================== *)
(** * Part III.  Further properties of the modelled code                   *)
(* ====================================================================== *)

(** ** Strings *)
Section StringFacts.

Import Py.
Local Open Scope string_scope.

Lemma append_nil_r (s : string) : s ++ "" = s.
Proof. induction s as [|c s IH]; cbn; [reflexivity|rewrite IH; reflexivity]. Qed.

Lemma append_assoc (s t u : string) : (s ++ t) ++ u = s ++ (t ++ u).
Proof. induction s as [|c s IH]; cbn; [reflexivity|rewrite IH; reflexivity]. Qed.

Lemma str_of_nat_inj (n m : nat) : str_of_nat n = str_of_nat m -> n = m.
Proof.
  unfold str_of_nat; intro H.
  assert (Hnn : forall k, Nat.to_uint k <> Decimal.Nil).
  { intro k; rewrite <- (Unsigned.of_to k), Unsigned.to_of.
    apply DecimalFacts.unorm_nonnil. }
  apply Unsigned.to_uint_inj.
  assert (Hsome : Some (Nat.to_uint n) = Some (Nat.to_uint m)).
  { rewrite <- (NilZero.usu _ (Hnn n)), <- (NilZero.usu _ (Hnn m)), H.
    reflexivity. }
  inversion Hsome; reflexivity.
Qed.

End StringFacts.

(** ** The agent: more on the registry *)
Section MoreRegistryFacts.

Import Py LLM AgentCore AgentStream.
Local Open Scope string_scope.
Local Open Scope list_scope.

Context {rich : Console}.

Lemma dict_get_set_other {V} (k k' : string) (v : V) (d : dict V) :
  k <> k' -> dict_get k (dict_set k' v d) = dict_get k d.
Proof.
  intro Hne; induction d as [|[k0 v0] d IH]; cbn.
  - apply String.eqb_neq in Hne; rewrite Hne; reflexivity.
  - destruct (String.eqb k' k0) eqn:E; cbn.
    + apply String.eqb_eq in E; subst k0.
      apply String.eqb_neq in Hne; rewrite Hne; reflexivity.
    + destruct (String.eqb k k0); [reflexivity|exact IH].
Qed.

Lemma dict_set_NoDup {V} (k : string) (v : V) (d : dict V) :
  NoDup (dict_keys d) -> NoDup (dict_keys (dict_set k v d)).
Proof.
  induction d as [|[k0 v0] d IH]; cbn; intro Hd.
  - repeat constructor; intros [].
  - inversion Hd as [|? ? Hnotin Hrest]; subst.
    destruct (String.eqb k k0) eqn:E; cbn.
    + apply String.eqb_eq in E; subst k0; constructor; assumption.
    + constructor; [|apply IH, Hrest].
      intro Hin; apply (dict_keys_set k v d k0) in Hin.
      destruct Hin as [Heq|Hin]; [|contradiction].
      subst k0; rewrite String.eqb_refl in E; discriminate E.
Qed.

Lemma dict_set_length {V} (k : string) (v : V) (d : dict V) :
  List.length (dict_keys (dict_set k v d)) <= S (List.length (dict_keys d)).
Proof.
  unfold dict_keys; induction d as [|[k0 v0] d IH]; cbn [dict_set].
  - cbn; lia.
  - destruct (String.eqb k k0); cbn [map List.length] in *; lia.
Qed.

(** The names [get_available_skills] lists are pairwise distinct, however
    many skills were registered on a new agent and whatever names they
    bear. *)
Theorem registered_names_are_distinct
  (cfg : Config) (client : LLMClient) (skills : list Skill) :
  NoDup (get_available_skills (register_all skills (new_agent cfg client))) /\
  List.length (get_available_skills
                 (register_all skills (new_agent cfg client)))
  <= List.length skills.
Proof.
  unfold register_all, get_available_skills.
  assert (Hgen : forall a,
             NoDup (dict_keys (AgentCore.skills a)) ->
             NoDup (dict_keys (AgentCore.skills
                      (fold_left (fun acc skill => snd (register_skill skill acc))
                                 skills a))) /\
             List.length (dict_keys (AgentCore.skills
                      (fold_left (fun acc skill => snd (register_skill skill acc))
                                 skills a)))
             <= List.length (dict_keys (AgentCore.skills a))
                + List.length skills).
  { induction skills as [|sk sks IH]; intros a Ha; cbn [fold_left].
    - split; [exact Ha|cbn; lia].
    - destruct (register_skill_state sk a) as [Hsk _].
      destruct (IH (snd (register_skill sk a))) as [H1 H2].
      + rewrite Hsk; apply dict_set_NoDup, Ha.
      + split; [exact H1|].
        rewrite Hsk in H2.
        pose proof (dict_set_length (name sk) sk (AgentCore.skills a)) as Hlen.
        cbn [List.length]; lia. }
  destruct (Hgen (new_agent cfg client)) as [H1 H2]; [constructor|].
  split; [exact H1|exact H2].
Qed.

(** A registered skill is what [run_skill_directly] executes under its name,
    and registering a skill of another name afterwards changes nothing to
    that. *)
Theorem register_then_run_directly
  (skill other : Skill) (kwargs : Kwargs) (ag : Agent) :
  name other <> name skill ->
  fst (run_skill_directly (name skill) kwargs (snd (register_skill skill ag)))
  = execute skill kwargs /\
  fst (run_skill_directly (name skill) kwargs
         (snd (register_skill other (snd (register_skill skill ag)))))
  = execute skill kwargs.
Proof.
  intro Hne.
  destruct (register_skill_state skill ag) as [Hs1 _].
  destruct (register_skill_state other (snd (register_skill skill ag)))
    as [Hs2 _].
  unfold run_skill_directly, bind, get, dict_contains; cbn [fst].
  rewrite Hs2, Hs1.
  rewrite (@dict_get_set_other _ (name skill) (name other))
    by (intro H; apply Hne; symmetry; exact H).
  rewrite dict_get_set_same; cbn; split; reflexivity.
Qed.

End MoreRegistryFacts.

Lemma register_then_run_directly_witness :
  AgentCore.name Examples.second_skill <> AgentCore.name Examples.first_skill /\
  fst (AgentCore.run_skill_directly "first" []
         (snd (@AgentCore.register_skill Examples.rich_console
                 Examples.first_skill Examples.agent0)))
  = Py.Return "first result"%string /\
  fst (AgentCore.run_skill_directly "first" []
         (snd (@AgentCore.register_skill Examples.rich_console
                 Examples.second_skill
                 (snd (@AgentCore.register_skill Examples.rich_console
                         Examples.first_skill Examples.agent0)))))
  = Py.Return "first result"%string.
Proof.
  assert (Hne : AgentCore.name Examples.second_skill
                <> AgentCore.name Examples.first_skill)
    by (cbn; discriminate).
  split; [exact Hne|].
  exact (@register_then_run_directly Examples.rich_console
           Examples.first_skill Examples.second_skill [] Examples.agent0
           Hne).
Defined.

(** ** The agent: more on the loading of skills *)
Section MoreLoadFacts.

Import Py LLM AgentCore AgentStream.
Local Open Scope string_scope.
Local Open Scope list_scope.

Context {rich : Console}.

Lemma loaded_names_keys (cfg : Config) (c : SkillClass) (d : dict Skill)
  (n : string) :
  In n (dict_keys (loaded_skills cfg c d))
  <-> In n (dict_keys d) \/ In n (loaded_names cfg [c]).
Proof.
  unfold loaded_skills, loaded_names; cbn [flat_map].
  destruct (init c cfg) as [[ts exec]|e]; [|cbn; tauto].
  destruct (is_skill_enabled cfg (cls_name c)); [|cbn; tauto].
  rewrite dict_keys_set; cbn; intuition congruence.
Qed.

Lemma loaded_names_cons (cfg : Config) (c : SkillClass)
  (classes : list SkillClass) :
  loaded_names cfg (c :: classes)
  = loaded_names cfg [c] ++ loaded_names cfg classes.
Proof.
  unfold loaded_names; cbn [flat_map]; rewrite app_nil_r; reflexivity.
Qed.

(** The agent [load_skills] leaves when it gets past every class of the
    list. *)
Lemma load_skills_passes (classes : list SkillClass) : forall a,
  Forall (fun c => passes (config a) c = true) classes ->
  load_skills classes a
  = (Return tt,
     mkAgent (config a) (llm a) (memory a)
             (fold_left (fun d c => loaded_skills (config a) c d) classes
                        (skills a))
             (tools a ++ loaded_tools (config a) classes) (is_running a)
             (console a ++ load_lines (config a) classes) (trace a)).
Proof.
  unfold load_skills.
  induction classes as [|c classes IH]; intros a Hall; cbn [for_each].
  - unfold ret; cbn; rewrite !app_nil_r; destruct a; reflexivity.
  - inversion Hall as [|? ? Hc Hrest]; subst.
    destruct (load_skill_passes c a Hc) as (line & Hline & Hrun).
    unfold bind; rewrite Hrun, IH by exact Hrest.
    cbn [config llm memory skills tools is_running console trace fold_left].
    unfold loaded_tools, load_lines; cbn [flat_map].
    fold (load_line (config a) c); rewrite Hline, !app_nil_r.
    rewrite <- !app_assoc; reflexivity.
Qed.

(** When [load_skills] gets past every class of the list (each constructor
    returns or raises an [Exception], of whatever kind, and the line then
    printed renders), it returns; the flat tool list is the old one followed
    by the tools of the classes that were built and are enabled, class after
    class in the order of the list; the names available are those available
    before and the names of these classes; a class that is disabled or
    broken, and there may be any number of them, brings neither tool nor
    name.  The LLM client, the memory and the record of calls are not
    touched. *)
Theorem load_skills_appends_tools_in_order
  (classes : list SkillClass) (ag : Agent) :
  Forall (fun c => passes (config ag) c = true) classes ->
  exists ag',
    load_skills classes ag = (Return tt, ag') /\
    tools ag' = tools ag ++ loaded_tools (config ag) classes /\
    (forall n, In n (get_available_skills ag')
               <-> In n (get_available_skills ag)
                   \/ In n (loaded_names (config ag) classes)) /\
    llm ag' = llm ag /\ memory ag' = memory ag /\ trace ag' = trace ag.
Proof.
  intro Hall; eexists; split; [apply load_skills_passes, Hall|].
  cbn [tools llm memory trace]; split; [reflexivity|].
  split; [|repeat split].
  unfold get_available_skills; cbn [skills].
  generalize (skills ag) as d; clear Hall.
  induction classes as [|c classes IH]; intros d n; cbn [fold_left].
  - cbn; tauto.
  - rewrite IH, loaded_names_keys, (loaded_names_cons (config ag) c classes).
    rewrite in_app_iff; tauto.
Qed.

Lemma load_skills_app (before after : list SkillClass) (a : Agent) :
  load_skills (before ++ after) a
  = match load_skills before a with
    | (Return _, a1) => load_skills after a1
    | (Raise e, a1) => (Raise e, a1)
    end.
Proof.
  unfold load_skills; revert a.
  induction before as [|c before IH]; intro a; cbn [for_each app].
  - reflexivity.
  - unfold bind.
    destruct (load_skill c a) as [[[]|e] a1]; [apply IH|reflexivity].
Qed.

(** What is not an [Exception] is not caught: when a constructor raises
    [KeyboardInterrupt] or [SystemExit], [load_skills] raises it too, the
    classes before it in the list, if [load_skills] got past them, stay
    loaded and those after it are never tried. *)
Theorem load_skills_propagates_interrupt
  (before after : list SkillClass) (interrupted : SkillClass) (e : exn)
  (ag : Agent) :
  Forall (fun c => passes (config ag) c = true) before ->
  init interrupted (config ag) = Raise e ->
  is_Exception e = false ->
  exists ag1,
    load_skills before ag = (Return tt, ag1) /\
    load_skills (before ++ interrupted :: after) ag = (Raise e, ag1).
Proof.
  intros Hbefore Hinit He.
  eexists; split; [apply load_skills_passes, Hbefore|].
  rewrite load_skills_app, (@load_skills_passes before ag Hbefore).
  unfold load_skills; cbn [for_each]; unfold bind.
  rewrite load_skill_unfold; cbn [config].
  rewrite Hinit, load_error_handler_unfold, He.
  reflexivity.
Qed.

Lemma same_but_console_trans a b c :
  same_but_console a b -> same_but_console b c -> same_but_console a c.
Proof.
  unfold same_but_console; intros (?&?&?&?&?&?&?) (?&?&?&?&?&?&?).
  repeat split; congruence.
Qed.

Lemma same_but_console_sym a b : same_but_console a b -> same_but_console b a.
Proof.
  unfold same_but_console; intros (?&?&?&?&?&?&?); repeat split; congruence.
Qed.

(** A print does the same to two agents that differ only in what was
    printed. *)
Lemma console_print_same_but_console (text : string) (a b : Agent) :
  same_but_console a b ->
  fst (console_print text a) = fst (console_print text b) /\
  same_but_console (snd (console_print text a)) (snd (console_print text b)).
Proof.
  intro Hab; split.
  - unfold console_print; destruct (markup_error text); reflexivity.
  - apply (same_but_console_trans (console_print_state text a)).
    apply (same_but_console_trans Hab).
    apply same_but_console_sym, console_print_state.
Qed.

Lemma load_error_handler_same_but_console (c : SkillClass) (e : exn)
  (a b : Agent) :
  same_but_console a b ->
  fst (load_error_handler c e a) = fst (load_error_handler c e b) /\
  same_but_console (snd (load_error_handler c e a))
                   (snd (load_error_handler c e b)).
Proof.
  intro Hab; rewrite !load_error_handler_unfold.
  destruct (is_Exception e); [|split; [reflexivity|exact Hab]].
  apply console_print_same_but_console, Hab.
Qed.

(** Loading a class does the same to two agents that differ only in what was
    printed. *)
Lemma load_skill_same_but_console (c : SkillClass) (a b : Agent) :
  same_but_console a b ->
  fst (load_skill c a) = fst (load_skill c b) /\
  same_but_console (snd (load_skill c a)) (snd (load_skill c b)).
Proof.
  intros Hab.
  pose proof Hab as (Hcfg & Hllm & Hmem & Hsk & Hto & Hrun & Htr).
  rewrite !load_skill_unfold, <- Hcfg.
  destruct (init c (config a)) as [[ts exec]|e];
    [|apply load_error_handler_same_but_console, Hab].
  assert (Hfirst :
    fst (if is_skill_enabled (config a) (cls_name c)
         then register_skill
                (mkSkill (cls_name c) (cls_description c) ts exec) a
         else console_print ("[dim]Skill disabled in config: "
                             ++ cls_name c ++ "[/dim]") a)
    = fst (if is_skill_enabled (config a) (cls_name c)
           then register_skill
                  (mkSkill (cls_name c) (cls_description c) ts exec) b
           else console_print ("[dim]Skill disabled in config: "
                               ++ cls_name c ++ "[/dim]") b) /\
    same_but_console
      (snd (if is_skill_enabled (config a) (cls_name c)
            then register_skill
                   (mkSkill (cls_name c) (cls_description c) ts exec) a
            else console_print ("[dim]Skill disabled in config: "
                                ++ cls_name c ++ "[/dim]") a))
      (snd (if is_skill_enabled (config a) (cls_name c)
            then register_skill
                   (mkSkill (cls_name c) (cls_description c) ts exec) b
            else console_print ("[dim]Skill disabled in config: "
                                ++ cls_name c ++ "[/dim]") b))).
  { destruct (is_skill_enabled (config a) (cls_name c));
      [|apply console_print_same_but_console, Hab].
    rewrite !register_skill_unfold.
    apply console_print_same_but_console.
    unfold same_but_console; cbn; rewrite Hsk, Hto.
    repeat split; assumption. }
  destruct Hfirst as [Hout Hst].
  destruct (if is_skill_enabled (config a) (cls_name c)
            then register_skill _ a else console_print _ a)
    as [[[]|e] a'];
    destruct (if is_skill_enabled (config a) (cls_name c)
              then register_skill _ b else console_print _ b)
    as [[[]|e'] b']; cbn [fst snd] in Hout, Hst; try discriminate Hout.
  - split; [reflexivity|exact Hst].
  - inversion Hout; subst e'.
    apply load_error_handler_same_but_console, Hst.
Qed.

Lemma load_skills_same_but_console (classes : list SkillClass) :
  forall a b,
  same_but_console a b ->
  fst (load_skills classes a) = fst (load_skills classes b) /\
  same_but_console (snd (load_skills classes a)) (snd (load_skills classes b)).
Proof.
  unfold load_skills; induction classes as [|c classes IH]; intros a b Hab;
    cbn [for_each].
  - split; [reflexivity|exact Hab].
  - destruct (load_skill_same_but_console c Hab) as [Hout Hst].
    unfold bind.
    destruct (load_skill c a) as [[[]|e] a1];
      destruct (load_skill c b) as [[[]|e'] b1]; cbn [fst snd] in *;
      try discriminate Hout.
    + apply IH, Hst.
    + split; [exact Hout|exact Hst].
Qed.

(** No round of the loop touches the configuration. *)
Lemma load_skills_config (classes : list SkillClass) : forall a,
  config (snd (load_skills classes a)) = config a.
Proof.
  assert (Hprint : forall text a,
             config (snd (console_print text a)) = config a).
  { intros text a; apply (console_print_state text a). }
  assert (Hhandler : forall c e a,
             config (snd (load_error_handler c e a)) = config a).
  { intros c e a; rewrite load_error_handler_unfold.
    destruct (is_Exception e); [apply Hprint|reflexivity]. }
  assert (Hone : forall c a, config (snd (load_skill c a)) = config a).
  { intros c a; rewrite load_skill_unfold.
    destruct (init c (config a)) as [[ts exec]|e]; [|apply Hhandler].
    assert (Hfirst :
      config (snd (if is_skill_enabled (config a) (cls_name c)
                   then register_skill
                          (mkSkill (cls_name c) (cls_description c) ts exec) a
                   else console_print ("[dim]Skill disabled in config: "
                                       ++ cls_name c ++ "[/dim]") a))
      = config a).
    { destruct (is_skill_enabled (config a) (cls_name c)); [|apply Hprint].
      rewrite register_skill_unfold, Hprint; reflexivity. }
    destruct (if is_skill_enabled (config a) (cls_name c)
              then register_skill _ a else console_print _ a)
      as [[[]|e] a']; cbn [snd] in *; [exact Hfirst|].
    rewrite Hhandler; exact Hfirst. }
  unfold load_skills; induction classes as [|c classes IH]; intro a;
    cbn [for_each]; [reflexivity|].
  unfold bind; specialize (Hone c a).
  destruct (load_skill c a) as [[[]|e] a1]; cbn [snd] in *;
    [rewrite IH|]; exact Hone.
Qed.

(** A class whose constructor raises an [Exception], of whatever kind, and
    whose diagnostic renders, is as good as absent from the list:
    [load_skills] ends the same way, with the same registry and the same
    tools, as on the list without that class; only the printed lines
    differ. *)
Theorem load_skills_broken_class_is_as_absent
  (before after : list SkillClass) (broken : SkillClass) (e : exn)
  (ag : Agent) :
  init broken (config ag) = Raise e ->
  is_Exception e = true ->
  renders (diagnostic broken e) = true ->
  fst (load_skills (before ++ broken :: after) ag)
  = fst (load_skills (before ++ after) ag) /\
  skills (snd (load_skills (before ++ broken :: after) ag))
  = skills (snd (load_skills (before ++ after) ag)) /\
  tools (snd (load_skills (before ++ broken :: after) ag))
  = tools (snd (load_skills (before ++ after) ag)).
Proof.
  intros Hinit He Hline.
  rewrite !load_skills_app.
  pose proof (load_skills_config before ag) as Hcfg.
  destruct (load_skills before ag) as [[[]|e0] a1]; [|repeat split].
  cbn [snd] in Hcfg.
  unfold load_skills at 1 3 5; cbn [for_each]; unfold bind.
  rewrite <- Hcfg in Hinit.
  rewrite (load_skill_failure_is_skipped _ _ Hinit He Hline).
  fold (load_skills after).
  destruct (@load_skills_same_but_console after
              (mkAgent (config a1) (llm a1) (memory a1) (skills a1) (tools a1)
                       (is_running a1)
                       (console a1 ++ [diagnostic broken e]) (trace a1)) a1)
    as [Hout (_ & _ & _ & Hsk & Hto & _)].
  { repeat split. }
  repeat split; assumption.
Qed.

End MoreLoadFacts.

(** Scenario 4 of the spec and more: two classes that lack a dependency
    around a valid one. *)
Lemma load_skills_appends_tools_in_order_witness :
  Forall (fun c => @AgentStream.passes Examples.rich_console
                     (AgentCore.config Examples.agent0) c = true)
         [Examples.BrokenSkill; Examples.ValidSkill; Examples.BrokenSkill] /\
  exists ag',
    @AgentCore.load_skills Examples.rich_console
      [Examples.BrokenSkill; Examples.ValidSkill; Examples.BrokenSkill]
      Examples.agent0
    = (Py.Return tt, ag') /\
    AgentCore.tools ag' = [Examples.echo_tool "valid echo"] /\
    (forall n, In n (AgentCore.get_available_skills ag')
               <-> In n (AgentCore.get_available_skills Examples.agent0)
                   \/ In n ["valid"%string]) /\
    AgentCore.llm ag' = AgentCore.llm Examples.agent0 /\
    AgentCore.memory ag' = AgentCore.memory Examples.agent0 /\
    AgentCore.trace ag' = AgentCore.trace Examples.agent0.
Proof.
  assert (H : Forall (fun c => @AgentStream.passes Examples.rich_console
                                 (AgentCore.config Examples.agent0) c = true)
                [Examples.BrokenSkill; Examples.ValidSkill;
                 Examples.BrokenSkill])
    by (repeat constructor).
  split; [exact H|].
  exact (@load_skills_appends_tools_in_order Examples.rich_console
           [Examples.BrokenSkill; Examples.ValidSkill; Examples.BrokenSkill]
           Examples.agent0 H).
Defined.

(** A valid class, an interrupted one, a valid one again. *)
Lemma load_skills_propagates_interrupt_witness :
  Forall (fun c => @AgentStream.passes Examples.rich_console
                     (AgentCore.config Examples.agent0) c = true)
         [Examples.ValidSkill] /\
  AgentCore.init MoreExamples.InterruptedSkill
                 (AgentCore.config Examples.agent0)
  = Py.Raise Py.KeyboardInterrupt /\
  Py.is_Exception Py.KeyboardInterrupt = false /\
  exists ag1,
    @AgentCore.load_skills Examples.rich_console [Examples.ValidSkill]
                           Examples.agent0
    = (Py.Return tt, ag1) /\
    @AgentCore.load_skills Examples.rich_console
      ([Examples.ValidSkill]
       ++ MoreExamples.InterruptedSkill :: [Examples.ValidSkill])
      Examples.agent0
    = (Py.Raise Py.KeyboardInterrupt, ag1).
Proof.
  assert (H : Forall (fun c => @AgentStream.passes Examples.rich_console
                                 (AgentCore.config Examples.agent0) c = true)
                [Examples.ValidSkill])
    by (repeat constructor).
  split; [exact H|]; split; [reflexivity|]; split; [reflexivity|].
  exact (@load_skills_propagates_interrupt Examples.rich_console
           [Examples.ValidSkill] [Examples.ValidSkill]
           MoreExamples.InterruptedSkill Py.KeyboardInterrupt
           Examples.agent0 H eq_refl eq_refl).
Defined.

(** A valid class followed by one that lacks a dependency. *)
Lemma load_skills_broken_class_is_as_absent_witness :
  AgentCore.init Examples.BrokenSkill (AgentCore.config Examples.agent0)
  = Py.Raise (Py.ImportError "No module named 'torch'") /\
  Py.is_Exception (Py.ImportError "No module named 'torch'") = true /\
  @AgentStream.renders Examples.rich_console
    (AgentStream.diagnostic Examples.BrokenSkill
       (Py.ImportError "No module named 'torch'")) = true /\
  fst (@AgentCore.load_skills Examples.rich_console
         ([Examples.ValidSkill] ++ Examples.BrokenSkill :: [])
         Examples.agent0)
  = fst (@AgentCore.load_skills Examples.rich_console
           ([Examples.ValidSkill] ++ []) Examples.agent0) /\
  AgentCore.skills
    (snd (@AgentCore.load_skills Examples.rich_console
            ([Examples.ValidSkill] ++ Examples.BrokenSkill :: [])
            Examples.agent0))
  = AgentCore.skills
      (snd (@AgentCore.load_skills Examples.rich_console
              ([Examples.ValidSkill] ++ []) Examples.agent0)) /\
  AgentCore.tools
    (snd (@AgentCore.load_skills Examples.rich_console
            ([Examples.ValidSkill] ++ Examples.BrokenSkill :: [])
            Examples.agent0))
  = AgentCore.tools
      (snd (@AgentCore.load_skills Examples.rich_console
              ([Examples.ValidSkill] ++ []) Examples.agent0)).
Proof.
  split; [reflexivity|]; split; [reflexivity|]; split; [reflexivity|].
  exact (@load_skills_broken_class_is_as_absent Examples.rich_console
           [Examples.ValidSkill] [] Examples.BrokenSkill
           (Py.ImportError "No module named 'torch'")
           Examples.agent0 eq_refl eq_refl eq_refl).
Defined.

(** ** The agent: persistence of a turn, and the streaming turn *)
Section MoreRunFacts.

Import Py LLM AgentCore AgentStream.
Local Open Scope string_scope.
Local Open Scope list_scope.

Context {env : Env}.

(** A turn that returns has saved the session, and what was saved is the
    buffer as it then is: the old buffer, the entry of the user input and
    the entry of the response returned.  A turn whose LLM call raises has
    saved nothing: the buffer holds the new user input, the stored session
    does not.  Either way the registry and the tool list are as they
    were. *)
Theorem run_saves_session_only_on_return
  (input : string) (show_thinking : bool) (ag : Agent) :
  match fst (run input show_thinking ag) with
  | Return response =>
      short_term (memory (snd (run input show_thinking ag)))
      = short_term (memory ag)
        ++ [user_entry ag input; response_entry ag response] /\
      session_file (memory (snd (run input show_thinking ag)))
      = Some (short_term (memory ag)
              ++ [user_entry ag input; response_entry ag response])
  | Raise _ =>
      session_file (memory (snd (run input show_thinking ag)))
      = session_file (memory ag) /\
      short_term (memory (snd (run input show_thinking ag)))
      = short_term (memory ag) ++ [user_entry ag input]
  end /\
  skills (snd (run input show_thinking ag)) = skills ag /\
  tools (snd (run input show_thinking ag)) = tools ag.
Proof.
  rewrite run_unfold; unfold buffer_with_input; cbv zeta.
  destruct (tools ag) as [|t ts] eqn:Ht.
  - destruct (chat _ (llm ag)) as [[msg|e] l']; cbn; rewrite ?Ht;
      rewrite <- ?app_assoc; repeat split.
  - destruct (chat_with_tools _ (t :: ts) (llm ag)) as [[r|e] l']; cbn;
      rewrite ?Ht; rewrite <- ?app_assoc; repeat split.
Qed.

Context {stream : StreamEnv}.

Lemma take_chunks_suspended (k : nat) : forall full pending ending a,
  k <= List.length pending ->
  take_chunks k (Suspended full pending ending) a
  = (firstn k pending,
     Suspended (full ++ join_chunks (firstn k pending))%string
               (skipn k pending) ending,
     a).
Proof.
  induction k as [|k IH]; intros full pending ending a Hk.
  - cbn; rewrite append_nil_r; reflexivity.
  - destruct pending as [|c rest]; [cbn in Hk; lia|].
    cbn [take_chunks next resume]; rewrite IH by (cbn in Hk; lia).
    cbn [firstn skipn join_chunks fold_right].
    rewrite append_assoc; reflexivity.
Qed.

(** The first [next]: the input is stored, the context fetched, the stream
    opened. *)
Lemma next_created (input : string) (ag : Agent) :
  next (run_stream input) ag
  = resume "" (fst (chat_stream_sync (prompt_of ag input) (llm ag)))
           (snd (chat_stream_sync (prompt_of ag input) (llm ag)))
           (log_event (EvGetContext (buffer_with_input ag input) input)
              (log_event (EvAddShortTerm (user_entry ag input))
                 (set_memory (mkMemory (buffer_with_input ag input)
                                       (session_file (memory ag))
                                       (clock (memory ag) + 1)) ag))).
Proof.
  unfold run_stream, next, add_short_term, relevant_context, modify,
    prompt_of, buffer_with_input, user_entry.
  cbn.
  destruct (chat_stream_sync _ (llm ag)); reflexivity.
Qed.

(** Nothing of [run_stream] runs before the first chunk is asked for.  A
    consumer that stops after [k] chunks, [k] at least one and at most the
    number of chunks of the stream, got the first [k] chunks and leaves the
    generator suspended: the buffer has gained the user input and no
    response, and nothing was saved. *)
Theorem run_stream_abandoned
  (input : string) (ag : Agent) (k : nat) :
  1 <= k <= List.length (fst (chat_stream_sync (prompt_of ag input) (llm ag)))
  ->
  take_chunks 0 (run_stream input) ag = ([], run_stream input, ag) /\
  fst (fst (take_chunks k (run_stream input) ag))
  = firstn k (fst (chat_stream_sync (prompt_of ag input) (llm ag))) /\
  snd (fst (take_chunks k (run_stream input) ag))
  = Suspended
      (join_chunks
         (firstn k (fst (chat_stream_sync (prompt_of ag input) (llm ag)))))
      (skipn k (fst (chat_stream_sync (prompt_of ag input) (llm ag))))
      (snd (chat_stream_sync (prompt_of ag input) (llm ag))) /\
  short_term (memory (snd (take_chunks k (run_stream input) ag)))
  = short_term (memory ag) ++ [user_entry ag input] /\
  session_file (memory (snd (take_chunks k (run_stream input) ag)))
  = session_file (memory ag).
Proof.
  intros [Hk1 Hk2]; split; [reflexivity|].
  destruct k as [|k]; [lia|].
  cbn [take_chunks]; rewrite next_created.
  destruct (chat_stream_sync (prompt_of ag input) (llm ag))
    as [chunks ending]; cbn [fst snd] in *.
  destruct chunks as [|c rest]; [cbn in Hk2; lia|].
  cbn [resume]; rewrite take_chunks_suspended by (cbn in Hk2; lia).
  cbn [fst snd firstn skipn join_chunks fold_right].
  repeat split.
Qed.

(** A consumer that exhausts a stream which ends well got all the chunks;
    the buffer has gained the user input and then one response entry whose
    text is the concatenation of the chunks, and the session saved is that
    buffer. *)
Theorem run_stream_consumed
  (input : string) (ag : Agent) (chunks : list string) (l' : LLMClient)
  (more : nat) :
  chat_stream_sync (prompt_of ag input) (llm ag) = (chunks, Return l') ->
  fst (take_chunks (S (List.length chunks) + more) (run_stream input) ag)
  = (chunks, Finished) /\
  short_term
    (memory (snd (take_chunks (S (List.length chunks) + more)
                              (run_stream input) ag)))
  = short_term (memory ag)
    ++ [user_entry ag input; response_entry ag (join_chunks chunks)] /\
  session_file
    (memory (snd (take_chunks (S (List.length chunks) + more)
                              (run_stream input) ag)))
  = Some (short_term (memory ag)
          ++ [user_entry ag input; response_entry ag (join_chunks chunks)]) /\
  llm (snd (take_chunks (S (List.length chunks) + more)
                        (run_stream input) ag)) = l'.
Proof.
  intro Hstream.
  assert (Hgen : forall pending n full a,
    List.length pending < n ->
    take_chunks n (Suspended full pending (Return l')) a
    = (pending, Finished,
       snd (save_session
              (snd (add_short_term (full ++ join_chunks pending)%string
                                   "agent_response" (set_llm l' a)))))).
  { induction pending as [|c rest IH]; intros n full a Hn;
      (destruct n as [|n]; [cbn in Hn; lia|]).
    - cbn [take_chunks next resume join_chunks fold_right].
      rewrite append_nil_r; reflexivity.
    - cbn [take_chunks next resume].
      rewrite IH by (cbn in Hn; lia); cbn [join_chunks fold_right].
      rewrite append_assoc; reflexivity. }
  remember (S (List.length chunks) + more) as n eqn:Hn.
  destruct n as [|n]; [lia|].
  cbn [take_chunks]; rewrite next_created, Hstream; cbn [fst snd].
  destruct chunks as [|c rest].
  - cbn [resume].
    unfold add_short_term, save_session, modify, buffer_with_input,
      response_entry; cbn.
    rewrite <- app_assoc; repeat split.
  - cbn [resume]; rewrite Hgen by (cbn in Hn; lia).
    unfold add_short_term, save_session, modify, buffer_with_input,
      response_entry; cbn.
    rewrite <- app_assoc; repeat split.
Qed.

End MoreRunFacts.

(** A stream of three chunks on a new agent, left after two of them. *)
Lemma run_stream_abandoned_witness :
  1 <= 2 <= List.length
              (fst (@AgentStream.chat_stream_sync MoreExamples.three_chunks
                      (@AgentCore.prompt_of Examples.echo_env Examples.agent0
                                            "hi")
                      (AgentCore.llm Examples.agent0))) /\
  @AgentStream.take_chunks Examples.echo_env MoreExamples.three_chunks 0
    (AgentStream.run_stream "hi") Examples.agent0
  = ([], AgentStream.run_stream "hi", Examples.agent0) /\
  fst (fst (@AgentStream.take_chunks Examples.echo_env
              MoreExamples.three_chunks 2 (AgentStream.run_stream "hi")
              Examples.agent0))
  = ["Hel"; "lo "]%string /\
  snd (fst (@AgentStream.take_chunks Examples.echo_env
              MoreExamples.three_chunks 2 (AgentStream.run_stream "hi")
              Examples.agent0))
  = AgentStream.Suspended "Hello " ["you"%string]
      (Py.Return (LLM.add_message "assistant" "Hello you"
                    (LLM.add_message "user" "hi" LLM.new_client))) /\
  AgentCore.short_term
    (AgentCore.memory
       (snd (@AgentStream.take_chunks Examples.echo_env
               MoreExamples.three_chunks 2 (AgentStream.run_stream "hi")
               Examples.agent0)))
  = [AgentCore.mkEntry "hi" "user_input" "t0"] /\
  AgentCore.session_file
    (AgentCore.memory
       (snd (@AgentStream.take_chunks Examples.echo_env
               MoreExamples.three_chunks 2 (AgentStream.run_stream "hi")
               Examples.agent0)))
  = None.
Proof.
  assert (H : 1 <= 2 <= List.length
              (fst (@AgentStream.chat_stream_sync MoreExamples.three_chunks
                      (@AgentCore.prompt_of Examples.echo_env Examples.agent0
                                            "hi")
                      (AgentCore.llm Examples.agent0)))) by (cbn; lia).
  split; [exact H|].
  exact (@run_stream_abandoned Examples.echo_env MoreExamples.three_chunks
           "hi" Examples.agent0 2 H).
Defined.

(** The same stream, consumed to its end. *)
Lemma run_stream_consumed_witness :
  @AgentStream.chat_stream_sync MoreExamples.three_chunks
    (@AgentCore.prompt_of Examples.echo_env Examples.agent0 "hi")
    (AgentCore.llm Examples.agent0)
  = (["Hel"; "lo "; "you"]%string,
     Py.Return (LLM.add_message "assistant" "Hello you"
                  (LLM.add_message "user" "hi" LLM.new_client))) /\
  fst (@AgentStream.take_chunks Examples.echo_env MoreExamples.three_chunks
         4 (AgentStream.run_stream "hi") Examples.agent0)
  = (["Hel"; "lo "; "you"]%string, AgentStream.Finished) /\
  AgentCore.short_term
    (AgentCore.memory
       (snd (@AgentStream.take_chunks Examples.echo_env
               MoreExamples.three_chunks 4 (AgentStream.run_stream "hi")
               Examples.agent0)))
  = [AgentCore.mkEntry "hi" "user_input" "t0";
     AgentCore.mkEntry "Hello you" "agent_response" "t1"] /\
  AgentCore.session_file
    (AgentCore.memory
       (snd (@AgentStream.take_chunks Examples.echo_env
               MoreExamples.three_chunks 4 (AgentStream.run_stream "hi")
               Examples.agent0)))
  = Some [AgentCore.mkEntry "hi" "user_input" "t0";
          AgentCore.mkEntry "Hello you" "agent_response" "t1"] /\
  AgentCore.llm
    (snd (@AgentStream.take_chunks Examples.echo_env
            MoreExamples.three_chunks 4 (AgentStream.run_stream "hi")
            Examples.agent0))
  = LLM.add_message "assistant" "Hello you"
      (LLM.add_message "user" "hi" LLM.new_client).
Proof.
  split; [reflexivity|].
  exact (@run_stream_consumed Examples.echo_env MoreExamples.three_chunks
           "hi" Examples.agent0 ["Hel"; "lo "; "you"]%string
           (LLM.add_message "assistant" "Hello you"
              (LLM.add_message "user" "hi" LLM.new_client))
           0 eq_refl).
Defined.

(** ** The social media skill: credentials, requests, replies and posts *)
Section SocialToolFacts.

Import Py Social SocialTools.
Local Open Scope string_scope.
Local Open Scope list_scope.

Context {World : Type} {env : Env World}.

Lemma dict_set_not_nil {V} (k : string) (v : V) (d : dict V) :
  dict_set k v d <> [].
Proof.
  destruct d as [|[k0 v0] d]; cbn; [discriminate|].
  destruct (String.eqb k k0); discriminate.
Qed.

Lemma truthy_str_iff (s : string) : truthy_str s = true <-> s <> "".
Proof. destruct s; cbn; split; congruence. Qed.

(** The credentials gathered from a list of variables are empty exactly when
    none was gathered before and no variable of the list is set to a
    non-empty value. *)
Lemma gathered_credentials (platform : string) (vars : list string) :
  forall creds : dict string,
  fold_left
    (fun creds env_var =>
       match environ env_var with
       | Some value =>
           if truthy_str value
           then dict_set (replace (platform ++ "_") "" (lower env_var))%string
                         value creds
           else creds
       | None => creds
       end) vars creds <> []
  <-> creds <> [] \/
      exists env_var value,
        In env_var vars /\ environ env_var = Some value /\ value <> "".
Proof.
  induction vars as [|v vars IH]; intro creds; cbn [fold_left].
  - split; [auto|]. intros [H|(x & y & [] & _)]; exact H.
  - rewrite IH; split.
    + intros [Hne|(x & y & Hin & Hx & Hy)].
      * destruct (environ v) as [value|] eqn:Hv; [|left; exact Hne].
        destruct (truthy_str value) eqn:Ht; [|left; exact Hne].
        right; exists v, value; split; [left; reflexivity|].
        split; [exact Hv|apply truthy_str_iff, Ht].
      * right; exists x, y; split; [right; exact Hin|split; assumption].
    + intros [Hne|(x & y & [Heq|Hin] & Hx & Hy)].
      * left; destruct (environ v) as [value|]; [|exact Hne].
        destruct (truthy_str value); [apply dict_set_not_nil|exact Hne].
      * subst x; left; rewrite Hx.
        apply truthy_str_iff in Hy; rewrite Hy; apply dict_set_not_nil.
      * right; exists x, y; split; [exact Hin|split; assumption].
Qed.

(** A platform counts as connected exactly when it is one of the known
    platforms and at least one of its environment variables is set to a
    non-empty value; one variable is enough, also where the platform needs
    several. *)
Theorem _is_connected_iff (platform : string) :
  _is_connected platform = true <->
  exists p env_var value,
    dict_get platform PLATFORMS = Some p /\ In env_var (env_vars p) /\
    environ env_var = Some value /\ value <> "".
Proof.
  unfold _is_connected, _get_credentials.
  destruct (dict_get platform PLATFORMS) as [p|].
  - rewrite Nat.ltb_lt.
    assert (Hlen : forall l : dict string, 0 < List.length l <-> l <> []).
    { intros [|x l]; cbn; split; intro H; try lia; congruence. }
    rewrite Hlen, gathered_credentials; split.
    + intros [H|(x & y & H)]; [contradiction H; reflexivity|].
      exists p, x, y; split; [reflexivity|exact H].
    + intros (p' & x & y & Hp & H); inversion Hp; subst p'.
      right; exists x, y; exact H.
  - cbn; split; [discriminate|].
    intros (p & _ & _ & H & _); discriminate H.
Qed.

Lemma connected_platform_is_known (platform : string) :
  _is_connected platform = true ->
  exists p, dict_get platform PLATFORMS = Some p.
Proof.
  unfold _is_connected, _get_credentials.
  destruct (dict_get platform PLATFORMS) as [p|];
    [intros _; exists p; reflexivity|discriminate].
Qed.

Lemma not_connected_no_credentials (platform : string) :
  _is_connected platform = false -> _get_credentials platform = [].
Proof.
  unfold _is_connected.
  destruct (_get_credentials platform); [reflexivity|discriminate].
Qed.

(** [_make_request] does not raise, the network failing with [Exception]s
    only.  It sends nothing and returns an error dict when [httpx] is
    missing, when the platform is not connected, or when the method is
    neither [GET] nor [POST].  Otherwise it sends one request, with the
    method asked for, and returns an error dict when the request fails, the
    status is 400 or more or the body cannot be decoded, and else the
    decoded body as it comes: a dict or any other JSON value. *)
Theorem _make_request_reports_errors
  (platform endpoint method : string) (data : option json) (w : World) :
  exists v w',
    _make_request platform endpoint method data w = (Return v, w') /\
    if negb httpx_installed
    then v = JDict [("error",
                     JStr "httpx not installed. Run: pip install httpx")]
         /\ w' = w
    else if negb (_is_connected platform)
    then v = JDict [("error",
                     JStr ("Platform " ++ platform ++ " not connected"))]
         /\ w' = w
    else if negb (String.eqb method "GET" || String.eqb method "POST")
    then v = JDict [("error", JStr ("Unsupported method: " ++ method))]
         /\ w' = w
    else exists req,
           req_method req = method /\
           v = request_result (fst (httpx_send req w)) /\
           w' = snd (httpx_send req w).
Proof.
  unfold _make_request, try_except, bind, import_httpx.
  destruct httpx_installed; cbn [negb];
    [|eexists; eexists; split; [reflexivity|split; reflexivity]].
  cbv [ret].
  destruct (_is_connected platform) eqn:Hconn; cbn [negb].
  - destruct (connected_platform_is_known _ Hconn) as [p Hp].
    unfold _is_connected in Hconn.
    destruct (_get_credentials platform) as [|c creds] eqn:Hcreds;
      [discriminate Hconn|].
    rewrite Hp.
    generalize (_get_auth_headers platform (c :: creds)) as headers.
    intro headers.
    destruct (String.eqb method "GET") eqn:Hget; cbn [orb negb].
    { apply String.eqb_eq in Hget; subst method.
      cbv [http bind ret raise].
      match goal with
      | |- context [httpx_send ?r w] =>
          exists (request_result (fst (httpx_send r w))),
                 (snd (httpx_send r w));
          split; [|exists r; repeat split];
          unfold request_result;
          destruct (httpx_send r w) as [[msg|resp] w1]; cbn [fst snd];
          [reflexivity|]
      end.
      destruct (400 <=? status_code resp)%Z; [reflexivity|].
      destruct (resp_json resp); reflexivity. }
    destruct (String.eqb method "POST") eqn:Hpost; cbn [negb].
    { apply String.eqb_eq in Hpost; subst method.
      cbv [http bind ret raise].
      match goal with
      | |- context [httpx_send ?r w] =>
          exists (request_result (fst (httpx_send r w))),
                 (snd (httpx_send r w));
          split; [|exists r; repeat split];
          unfold request_result;
          destruct (httpx_send r w) as [[msg|resp] w1]; cbn [fst snd];
          [reflexivity|]
      end.
      destruct (400 <=? status_code resp)%Z; [reflexivity|].
      destruct (resp_json resp); reflexivity. }
    eexists; eexists; split; [reflexivity|split; reflexivity].
  - rewrite (not_connected_no_credentials _ Hconn).
    eexists; eexists; split; [reflexivity|split; reflexivity].
Qed.

(** No comment is ever fetched: both branches of [_fetch_comments] are
    empty, so for a connected platform [get_comments] answers "No comments
    found." and for any other the "not connected" error. *)
Theorem get_comments_finds_none (platform : string) (post_id : option string) :
  _fetch_comments platform post_id = [] /\
  (get_comments platform post_id
   = Return ("Error: " ++ platform ++ " not connected")%string \/
   exists p,
     dict_get platform PLATFORMS = Some p /\
     get_comments platform post_id
     = Return (ICON_COMMENTS ++ " Comments on " ++ plat_name p ++ nl ++ nl
               ++ "No comments found.")%string).
Proof.
  assert (Hnone : _fetch_comments platform post_id = []).
  { unfold _fetch_comments.
    destruct (String.eqb platform "instagram");
      [destruct (can_fetch_comments platform post_id); reflexivity|].
    destruct (String.eqb platform "facebook");
      [destruct (can_fetch_comments platform post_id); reflexivity|].
    reflexivity. }
  split; [exact Hnone|].
  unfold get_comments; rewrite Hnone.
  destruct (_is_connected platform) eqn:Hconn; cbn [negb];
    [|left; reflexivity].
  destruct (connected_platform_is_known _ Hconn) as [p Hp].
  right; exists p; split; [exact Hp|].
  rewrite Hp; cbn [app String.concat].
  rewrite !append_assoc; reflexivity.
Qed.

(** A reply on a platform other than Twitter and Telegram is never sent:
    [reply_message] makes no request and answers with an error, "not
    connected" or "not supported for replies". *)
Theorem reply_message_unsupported_platform
  (platform message_id text : string) (w : World) :
  platform <> "twitter" ->
  platform <> "telegram" ->
  reply_message platform message_id text w
  = (Return (if _is_connected platform
             then ICON_ERROR ++ " Error: Platform not supported for replies"
             else "Error: " ++ platform ++ " not connected")%string,
     w).
Proof.
  intros Htw Hte; unfold reply_message, _send_reply, bind.
  apply String.eqb_neq in Htw, Hte; rewrite Htw, Hte.
  destruct (_is_connected platform); reflexivity.
Qed.

(** Posting works on Twitter only: on any other platform [post_content]
    makes no request and answers with an error; on Telegram the error points
    to [social_dm] when a bot token is set. *)
Theorem post_content_outside_twitter
  (platform text : string) (media : option string) (w : World) :
  platform <> "twitter" ->
  exists message,
    post_content platform text media w = (Return message, w) /\
    (message = ("Error: " ++ platform ++ " not connected")%string \/
     message = (ICON_ERROR ++ " Error: Use social_dm for Telegram messages")%string \/
     message = (ICON_ERROR ++ " Error: Platform not supported for posting")%string).
Proof.
  intro Htw; unfold post_content, _create_post, bind.
  apply String.eqb_neq in Htw; rewrite Htw.
  destruct (_is_connected platform); cbn [negb];
    [|eexists; split; [reflexivity|left; reflexivity]].
  destruct (String.eqb platform "telegram").
  - destruct (dict_get "bot_token" (_get_credentials platform));
      eexists; (split; [reflexivity|]); [right; left|right; right];
      reflexivity.
  - eexists; split; [reflexivity|right; right; reflexivity].
Qed.

(** A reply that Twitter accepts is reported as a failure unless the body of
    the answer has a truthy ["success"] key: with a status below 400 and a
    body without it, [reply_message] answers with an error, "Unknown error"
    when the body has no ["error"] key either, although the request was
    made. *)
Theorem reply_message_twitter_without_success_key
  (message_id text : string) (w w' : World) (resp : HttpResponse)
  (d : dict json) :
  httpx_installed = true ->
  _is_connected "twitter" = true ->
  httpx_send
    (mkHttpRequest "POST" "https://api.twitter.com/2/tweets"
       (_get_auth_headers "twitter" (_get_credentials "twitter"))
       (Some (JDict [("text", JStr text);
                     ("reply", JDict [("in_reply_to_tweet_id",
                                       JStr message_id)])]))) w
  = (inr resp, w') ->
  (status_code resp < 400)%Z ->
  resp_json resp = inr (JDict d) ->
  truthy (jget "success" d) = false ->
  reply_message "twitter" message_id text w
  = (Return (ICON_ERROR ++ " Error: "
             ++ get_str_or "error" "Unknown error" d)%string, w').
Proof.
  intros Hi Hconn Hsend Hstatus Hjson Hkey.
  unfold reply_message, bind; rewrite Hconn; cbn [negb].
  unfold _send_reply; cbn [String.eqb Ascii.eqb Bool.eqb].
  unfold _make_request, try_except, bind, import_httpx; rewrite Hi.
  cbv [ret].
  unfold _is_connected in Hconn.
  revert Hsend.
  destruct (_get_credentials "twitter") as [|c creds] eqn:Hcreds;
    [discriminate Hconn|].
  intro Hsend.
  change (dict_get "twitter" PLATFORMS)
    with (Some (mkPlatform "Twitter/X" "https://api.twitter.com/2"
                  ["TWITTER_BEARER_TOKEN"; "TWITTER_API_KEY";
                   "TWITTER_API_SECRET"])).
  cbv beta iota.
  change (String.eqb "POST" "GET") with false.
  change (String.eqb "POST" "POST") with true.
  cbv beta iota.
  cbv [http bind ret raise api_base].
  change ("https://api.twitter.com/2" ++ "/tweets")%string
    with "https://api.twitter.com/2/tweets".
  rewrite Hsend.
  apply Z.leb_gt in Hstatus; rewrite Hstatus, Hjson.
  cbv [lift dict_of]; rewrite Hkey.
  reflexivity.
Qed.

End SocialToolFacts.

(** ** The response queue: what a send does to it *)
Section MoreQueueFacts.

Import Py Social SocialTools.
Local Open Scope string_scope.
Local Open Scope list_scope.

Context {World : Type} {env : Env World}.

Lemma marked_refl queue_id (l : list QueueItem) :
  Forall2 (marked queue_id) l l.
Proof. induction l; constructor; [left; reflexivity|assumption]. Qed.

(** The loop of [queue_send], however it ends: the queue it leaves has the
    items of the one it found, in the same order, each either untouched or,
    if it was selected, marked as sent; when the loop returns, the count of
    sent replies is the number of items so marked. *)
Lemma send_loop_marks queue_id (todo : list QueueItem) :
  forall done sent errors (s : SocialMediaSkill World) o s',
  _response_queue s = done ++ todo ->
  all_pending todo ->
  send_loop queue_id done todo sent errors s = (o, s') ->
  exists todo',
    _response_queue s' = done ++ todo' /\
    Forall2 (marked queue_id) todo todo' /\
    match o with
    | Return r =>
        fst r
        = sent + List.length (filter (fun i => negb (is_pending i)) todo')
    | Raise _ => True
    end.
Proof.
  induction todo as [|item rest IH];
    intros done sent errors s o s' Hq Hpending; cbn [send_loop].
  - intro H; inversion H; subst; exists []; cbn.
    split; [exact Hq|split; [constructor|lia]].
  - inversion Hpending as [|? ? Hitem Hrest]; subst.
    assert (Hp : is_pending item = true) by (apply String.eqb_eq, Hitem).
    rewrite Hp, andb_true_r.
    assert (Hskip : forall errors0 s0 o0 s0',
      _response_queue s0 = done ++ item :: rest ->
      send_loop queue_id (done ++ [item]) rest sent errors0 s0 = (o0, s0') ->
      exists todo',
        _response_queue s0' = done ++ todo' /\
        Forall2 (marked queue_id) (item :: rest) todo' /\
        match o0 with
        | Return r =>
            fst r
            = sent
              + List.length (filter (fun i => negb (is_pending i)) todo')
        | Raise _ => True
        end).
    { intros errors0 s0 o0 s0' Hq0 Hrun.
      destruct (IH (done ++ [item]) sent errors0 s0 o0 s0')
        as (todo' & Hq' & Hrel & Hcount); [|exact Hrest|exact Hrun|].
      { rewrite <- app_assoc; exact Hq0. }
      exists (item :: todo'); split; [rewrite Hq', <- app_assoc; reflexivity|].
      split; [constructor; [left; reflexivity|exact Hrel]|].
      cbn [filter]; rewrite Hp; exact Hcount. }
    assert (Hstop : forall e (s0 : SocialMediaSkill World),
      _response_queue s0 = done ++ item :: rest ->
      (@Raise (nat * list string) e, s0) = (o, s') ->
      exists todo',
        _response_queue s' = done ++ todo' /\
        Forall2 (marked queue_id) (item :: rest) todo' /\
        match o with
        | Return r =>
            fst r
            = sent
              + List.length (filter (fun i => negb (is_pending i)) todo')
        | Raise _ => True
        end).
    { intros e s0 Hq0 H; inversion H; subst; exists (item :: rest).
      split; [exact Hq0|split; [apply marked_refl|exact I]]. }
    destruct (selected queue_id item) eqn:Hsel; cbn [andb];
      [|intro H; exact (Hskip _ _ _ _ Hq H)].
    unfold bind at 1, in_world.
    destruct (_send_reply (platform item) (message_id item) (response item)
                          (world s)) as [[reply|e] w'];
      [|apply Hstop; exact Hq].
    unfold bind at 1, lift.
    destruct reply as [| | | | |d]; cbn [dict_of];
      try (apply Hstop; exact Hq).
    destruct (truthy (jget "success" d)).
    + unfold bind, modify; cbn [set_queue _response_queue].
      intro Hrun.
      apply IH in Hrun;
        [|cbn [_response_queue]; rewrite <- app_assoc; reflexivity
         |exact Hrest].
      destruct Hrun as (todo' & Hq' & Hrel & Hcount).
      exists (set_status "sent" item :: todo'); split;
        [rewrite Hq', <- app_assoc; reflexivity|].
      split;
        [constructor; [right; split; [exact Hsel|reflexivity]|exact Hrel]|].
      cbn [filter].
      change (is_pending (set_status "sent" item)) with false.
      cbn [negb List.length].
      destruct o; [rewrite Hcount; lia|exact I].
    + intro H; apply Hskip in H; [exact H|exact Hq].
Qed.

Lemma filter_split_length {A} (f : A -> bool) (l : list A) :
  List.length l
  = List.length (filter f l) + List.length (filter (fun x => negb (f x)) l).
Proof.
  induction l as [|x l IH]; cbn; [reflexivity|].
  destruct (f x); cbn; lia.
Qed.

Lemma selected_set_status queue_id st (i : QueueItem) :
  selected queue_id (set_status st i) = selected queue_id i.
Proof. destruct queue_id; reflexivity. Qed.

(** Marking leaves the items that are not selected as they are. *)
Lemma marked_unselected queue_id (todo todo' : list QueueItem) :
  Forall2 (marked queue_id) todo todo' ->
  filter (fun i => negb (selected queue_id i)) todo'
  = filter (fun i => negb (selected queue_id i)) todo.
Proof.
  induction 1 as [|i i' todo todo' Hi Hrel IH]; [reflexivity|].
  cbn [filter]; rewrite IH.
  destruct Hi as [->|[Hsel ->]]; [reflexivity|].
  rewrite selected_set_status, Hsel; reflexivity.
Qed.

(** What a returning send leaves of a queue of pending items. *)
Lemma marked_then_filtered queue_id (todo todo' : list QueueItem) :
  all_pending todo ->
  Forall2 (marked queue_id) todo todo' ->
  List.length todo' = List.length todo /\
  filter (fun i => negb (selected queue_id i)) (filter is_pending todo')
  = filter (fun i => negb (selected queue_id i)) todo /\
  (forall i, In i (filter is_pending todo') -> In i todo).
Proof.
  intros Hpending Hrel; induction Hrel as [|i i' todo todo' Hi Hrel IH].
  - repeat split; intros i [].
  - inversion Hpending as [|? ? Hitem Hrest]; subst.
    destruct (IH Hrest) as (Hlen & Hfilter & Hin).
    assert (Hp : is_pending i = true) by (apply String.eqb_eq, Hitem).
    destruct Hi as [->|[Hsel ->]].
    + cbn [filter List.length]; rewrite Hp; cbn [filter].
      split; [lia|]; split.
      * destruct (negb (selected queue_id i)); rewrite Hfilter; reflexivity.
      * intros j [<-|Hj]; [left; reflexivity|right; apply Hin, Hj].
    + cbn [filter List.length].
      change (is_pending (set_status "sent" i)) with false.
      rewrite Hsel; cbn [negb].
      split; [lia|]; split; [exact Hfilter|].
      intros j Hj; right; apply Hin, Hj.
Qed.

(** [queue_send] in one step: the loop, then the removal of what is not
    pending, which an exception of the loop skips. *)
Lemma queue_send_unfold queue_id (s : SocialMediaSkill World) :
  queue_send queue_id s
  = match _response_queue s with
    | [] => (Return "Queue is empty"%string, s)
    | q =>
        match send_loop queue_id [] q 0 [] s with
        | (Return r, s1) =>
            (Return
               (match snd r with
                | [] => ICON_OK ++ " Sent: " ++ str_of_nat (fst r)
                        ++ " responses"
                | errors =>
                    (ICON_OK ++ " Sent: " ++ str_of_nat (fst r)
                     ++ " responses")
                    ++ nl ++ ICON_ERROR ++ " Errors:" ++ nl
                    ++ String.concat nl errors
                end)%string,
             set_queue (filter is_pending (_response_queue s1)) s1)
        | (Raise e, s1) => (Raise e, s1)
        end
    end.
Proof.
  unfold queue_send, bind at 1, get.
  destruct (_response_queue s) as [|i q]; [reflexivity|].
  unfold bind, modify, ret.
  destruct (send_loop queue_id [] (i :: q) 0 [] s) as [[r|e] s1];
    reflexivity.
Qed.

(** [queue_send] touches the selected items only.  Whatever [queue_id] is
    given and however the call ends, on a queue of pending items the items
    that were not selected are all still there, in their order.  When the
    call returns, every item left in the queue was in it before, unchanged:
    nothing is added, nothing is altered and kept.  When it raises, which
    it does when a reply is not a dict or [httpx] is missing, no item has
    left the queue: the queue holds the items it held, in their places,
    those already sent with the status ["sent"]. *)
Theorem queue_send_touches_selected_only
  (queue_id : option string) (s : SocialMediaSkill World) :
  all_pending (_response_queue s) ->
  filter (fun i => negb (selected queue_id i))
         (_response_queue (snd (queue_send queue_id s)))
  = filter (fun i => negb (selected queue_id i)) (_response_queue s) /\
  match fst (queue_send queue_id s) with
  | Return _ =>
      forall i, In i (_response_queue (snd (queue_send queue_id s))) ->
                In i (_response_queue s)
  | Raise _ =>
      Forall2 (marked queue_id) (_response_queue s)
              (_response_queue (snd (queue_send queue_id s)))
  end.
Proof.
  intro Hpending.
  rewrite queue_send_unfold.
  destruct (_response_queue s) as [|i q] eqn:Hq.
  - cbn [fst snd]; rewrite Hq; split; [reflexivity|auto].
  - destruct (send_loop queue_id [] (i :: q) 0 [] s) as [o s1] eqn:Hloop.
    destruct (@send_loop_marks queue_id (i :: q) [] 0 [] s o s1 Hq Hpending
                Hloop)
      as (todo' & Hq' & Hrel & _).
    destruct o as [r|e];
      cbn [fst snd app set_queue _response_queue] in *; rewrite Hq'.
    + destruct (@marked_then_filtered queue_id _ _ Hpending Hrel)
        as (_ & H1 & H2).
      split; assumption.
    + split; [exact (marked_unselected Hrel)|exact Hrel].
Qed.

(** The count [queue_send] reports is the number of items it removed: on a
    non-empty queue of pending items a send that returns answers
    "Sent: n responses", where [n] is the length of the queue before less
    its length after, followed by the errors if there were any. *)
Theorem queue_send_reports_removed_count
  (queue_id : option string) (s : SocialMediaSkill World) :
  all_pending (_response_queue s) ->
  _response_queue s <> [] ->
  match fst (queue_send queue_id s) with
  | Return text =>
      exists errors_part,
        text = (ICON_OK ++ " Sent: "
                ++ str_of_nat
                     (List.length (_response_queue s)
                      - List.length
                          (_response_queue (snd (queue_send queue_id s))))
                ++ " responses" ++ errors_part)%string
  | Raise _ => True
  end.
Proof.
  intros Hpending Hne.
  rewrite queue_send_unfold.
  destruct (_response_queue s) as [|i q] eqn:Hq;
    [contradiction Hne; reflexivity|].
  destruct (send_loop queue_id [] (i :: q) 0 [] s) as [o s1] eqn:Hloop.
  destruct (@send_loop_marks queue_id (i :: q) [] 0 [] s o s1 Hq Hpending
              Hloop)
    as (todo' & Hq' & Hrel & Hcount).
  destruct o as [r|e];
    cbn [fst snd app set_queue _response_queue] in *; [|exact I].
  rewrite Hq'.
  destruct (@marked_then_filtered queue_id _ _ Hpending Hrel)
    as (Hlen & _ & _).
  assert (Hn : List.length (i :: q) - List.length (filter is_pending todo')
               = fst r).
  { rewrite <- Hlen, (filter_split_length is_pending todo'), Hcount; lia. }
  rewrite Hn.
  destruct (snd r) as [|err errs].
  - exists ""%string; reflexivity.
  - eexists; rewrite !append_assoc; reflexivity.
Qed.

(** The invariant of the queue, as far as it goes: a call of [queue_add],
    [queue_list] or [queue_send] that finds only pending items and returns
    leaves only pending items ([queue_add] appends one, [queue_list] changes
    nothing, [queue_send] removes what it sent); of the three only
    [queue_send] can raise. *)
Theorem returning_call_keeps_queue_pending
  (op : queue_op) (s : SocialMediaSkill World) :
  all_pending (_response_queue s) ->
  match fst (step op s) with
  | Return _ => all_pending (_response_queue (snd (step op s)))
  | Raise _ => exists queue_id, op = OpSend queue_id
  end.
Proof.
  intro Hinv; destruct op as [p m r prio| |queue_id]; cbn [step].
  - destruct (queue_add_appends p m r prio s)
      as (text & item & Hret & Hq & Hst & _).
    rewrite Hret, Hq; apply Forall_app; split; [exact Hinv|].
    constructor; [exact Hst|constructor].
  - destruct (queue_list_reads s) as [text ->]; exact Hinv.
  - destruct (queue_send queue_id s) as [[text|e] s'] eqn:Hsend;
      cbn [fst snd].
    + exact (queue_send_leaves_pending _ _ Hsend).
    + exists queue_id; reflexivity.
Qed.

(** A series of [queue_add] calls alone, on a new skill, numbers the items
    [q_1], [q_2], ... in order, so their ids are pairwise distinct. *)
Theorem queue_add_numbers_items
  (items : list (string * string * string * string)) (w : World) :
  map id (_response_queue (exec (adds items) (new_skill w)))
  = map (fun k => ("q_" ++ str_of_nat k)%string)
        (seq 1 (List.length items)) /\
  NoDup (map id (_response_queue (exec (adds items) (new_skill w)))).
Proof.
  assert (Hgen : forall (s : SocialMediaSkill World),
    map id (_response_queue (exec (adds items) s))
    = map id (_response_queue s)
      ++ map (fun k => ("q_" ++ str_of_nat k)%string)
             (seq (S (List.length (_response_queue s)))
                  (List.length items))).
  { induction items as [|[[[p m] r] prio] items IH]; intro s;
      cbn [adds map exec seq List.length].
    - rewrite app_nil_r; reflexivity.
    - change (map (fun i => let '(p0, m0, r0, prio0) := i in
                            OpAdd p0 m0 r0 prio0) items) with (adds items).
      rewrite IH; cbn [step].
      unfold queue_add, bind, get, now_isoformat, in_world, modify, ret.
      destruct (datetime_now_isoformat (world s)) as [t w'].
      cbn [snd set_queue _response_queue].
      rewrite map_app, length_app, <- app_assoc; cbn [map id List.length app].
      rewrite Nat.add_1_r; reflexivity. }
  assert (Hids : map id (_response_queue (exec (adds items) (new_skill w)))
                 = map (fun k => ("q_" ++ str_of_nat k)%string)
                       (seq 1 (List.length items))).
  { rewrite Hgen; reflexivity. }
  split; [exact Hids|].
  rewrite Hids; apply Finite.Injective_map_NoDup; [|apply seq_NoDup].
  intros a b Hab; apply str_of_nat_inj.
  cbn in Hab; inversion Hab; reflexivity.
Qed.

End MoreQueueFacts.

(** A reply on Discord, which is connected: refused, the network unused. *)
Lemma reply_message_unsupported_platform_witness :
  "discord"%string <> "twitter"%string /\
  "discord"%string <> "telegram"%string /\
  @SocialTools.reply_message _ MoreExamples.social_env "discord" "7" "hello"
    (Social.mkScript [MoreExamples.telegram_ok] 0)
  = (Py.Return (Social.ICON_ERROR
                ++ " Error: Platform not supported for replies")%string,
     Social.mkScript [MoreExamples.telegram_ok] 0).
Proof.
  assert (H1 : "discord"%string <> "twitter"%string) by discriminate.
  assert (H2 : "discord"%string <> "telegram"%string) by discriminate.
  split; [exact H1|]; split; [exact H2|].
  exact (@reply_message_unsupported_platform _ MoreExamples.social_env
           "discord" "7" "hello"
           (Social.mkScript [MoreExamples.telegram_ok] 0) H1 H2).
Defined.

(** A post on Telegram, with its bot token set. *)
Lemma post_content_outside_twitter_witness :
  "telegram"%string <> "twitter"%string /\
  exists message,
    @SocialTools.post_content _ MoreExamples.social_env "telegram" "news" None
      (Social.mkScript [MoreExamples.telegram_ok] 0)
    = (Py.Return message, Social.mkScript [MoreExamples.telegram_ok] 0) /\
    (message = "Error: telegram not connected"%string \/
     message = (Social.ICON_ERROR
                ++ " Error: Use social_dm for Telegram messages")%string \/
     message = (Social.ICON_ERROR
                ++ " Error: Platform not supported for posting")%string).
Proof.
  assert (H : "telegram"%string <> "twitter"%string) by discriminate.
  split; [exact H|].
  exact (@post_content_outside_twitter _ MoreExamples.social_env
           "telegram" "news" None
           (Social.mkScript [MoreExamples.telegram_ok] 0) H).
Defined.

(** Twitter answers [201] with the tweet it created: an error is shown. *)
Lemma reply_message_twitter_without_success_key_witness :
  @Social.httpx_installed _ MoreExamples.social_env = true /\
  @Social._is_connected _ MoreExamples.social_env "twitter" = true /\
  (Social.status_code MoreExamples.tweet_created < 400)%Z /\
  Py.truthy (Py.jget "success"
               [("data"%string,
                 Py.JDict [("id"%string, Py.JStr "1");
                           ("text"%string, Py.JStr "yo")])]) = false /\
  @SocialTools.reply_message _ MoreExamples.social_env "twitter" "43" "yo"
    (Social.mkScript [inr MoreExamples.tweet_created] 0)
  = (Py.Return (Social.ICON_ERROR ++ " Error: Unknown error")%string,
     Social.mkScript [] 0).
Proof.
  assert (Hstatus : (Social.status_code MoreExamples.tweet_created < 400)%Z)
    by reflexivity.
  split; [reflexivity|]; split; [reflexivity|]; split; [exact Hstatus|].
  split; [reflexivity|].
  exact (@reply_message_twitter_without_success_key _ MoreExamples.social_env
           "43" "yo" (Social.mkScript [inr MoreExamples.tweet_created] 0)
           (Social.mkScript [] 0) MoreExamples.tweet_created
           [("data"%string,
             Py.JDict [("id"%string, Py.JStr "1");
                       ("text"%string, Py.JStr "yo")])]
           eq_refl eq_refl eq_refl Hstatus eq_refl eq_refl).
Defined.

(** The queue of two replies, sending the first only: the second stays. *)
Lemma queue_send_touches_selected_only_witness :
  Social.all_pending (Social._response_queue MoreExamples.two_replies) /\
  filter (fun i => negb (Social.selected (Some "q_1"%string) i))
         (Social._response_queue
            (snd (@Social.queue_send _ MoreExamples.social_env
                    (Some "q_1"%string) MoreExamples.two_replies)))
  = filter (fun i => negb (Social.selected (Some "q_1"%string) i))
           (Social._response_queue MoreExamples.two_replies) /\
  (forall i,
      In i (Social._response_queue
              (snd (@Social.queue_send _ MoreExamples.social_env
                      (Some "q_1"%string) MoreExamples.two_replies))) ->
      In i (Social._response_queue MoreExamples.two_replies)).
Proof.
  assert (H : Social.all_pending
                (Social._response_queue MoreExamples.two_replies))
    by (repeat constructor).
  split; [exact H|].
  exact (@queue_send_touches_selected_only _ MoreExamples.social_env
           (Some "q_1"%string) MoreExamples.two_replies H).
Defined.

(** The same queue, sending all: Telegram accepts, Twitter's answer is not
    taken for a success, one item is removed and "Sent: 1" reported. *)
Lemma queue_send_reports_removed_count_witness :
  Social.all_pending (Social._response_queue MoreExamples.two_replies) /\
  Social._response_queue MoreExamples.two_replies <> [] /\
  match fst (@Social.queue_send _ MoreExamples.social_env None
               MoreExamples.two_replies) with
  | Py.Return text =>
      exists errors_part,
        text = (Social.ICON_OK ++ " Sent: "
                ++ Py.str_of_nat
                     (List.length
                        (Social._response_queue MoreExamples.two_replies)
                      - List.length
                          (Social._response_queue
                             (snd (@Social.queue_send _
                                     MoreExamples.social_env None
                                     MoreExamples.two_replies))))
                ++ " responses" ++ errors_part)%string
  | Py.Raise _ => True
  end.
Proof.
  assert (H : Social.all_pending
                (Social._response_queue MoreExamples.two_replies))
    by (repeat constructor).
  assert (Hne : Social._response_queue MoreExamples.two_replies <> [])
    by discriminate.
  split; [exact H|]; split; [exact Hne|].
  exact (@queue_send_reports_removed_count _ MoreExamples.social_env None
           MoreExamples.two_replies H Hne).
Defined.

(** The queue of two replies, sending all: the call returns and the reply
    Twitter did not accept stays, pending. *)
Lemma returning_call_keeps_queue_pending_witness :
  Social.all_pending (Social._response_queue MoreExamples.two_replies) /\
  match fst (@Social.step _ MoreExamples.social_env (Social.OpSend None)
               MoreExamples.two_replies) with
  | Py.Return _ =>
      Social.all_pending
        (Social._response_queue
           (snd (@Social.step _ MoreExamples.social_env (Social.OpSend None)
                   MoreExamples.two_replies)))
  | Py.Raise _ => exists queue_id, Social.OpSend None = Social.OpSend queue_id
  end.
Proof.
  assert (H : Social.all_pending
                (Social._response_queue MoreExamples.two_replies))
    by (repeat constructor).
  split; [exact H|].
  exact (@returning_call_keeps_queue_pending _ MoreExamples.social_env
           (Social.OpSend None) MoreExamples.two_replies H).
Defined.

Example queue_send_all_example :
  fst (@Social.queue_send _ MoreExamples.social_env None
         MoreExamples.two_replies)
  = Py.Return (Social.ICON_OK ++ " Sent: 1 responses" ++ Py.nl
               ++ Social.ICON_ERROR ++ " Errors:" ++ Py.nl
               ++ "q_2: None")%string.
Proof. vm_compute; reflexivity. Qed.

(** ** The HubLab skill: the catalog and its categories *)
Section CatalogFacts.

Import Py HubLab Catalog.
Local Open Scope string_scope.
Local Open Scope list_scope.

Lemma _load_capsules_unfold {env : Env} (s : HubLabSkill) :
  _load_capsules s
  = match path_error s with
    | Some e => (Raise e, s)
    | None =>
        (Return (served_catalog s),
         if catalog_found s
         then mkHubLabSkill (Some (served_catalog s)) (_categories_cache s)
         else s)
    end.
Proof.
  unfold _load_capsules, served_catalog, catalog_found, path_error,
    api_catalog, bind, get.
  destruct s as [[cached|] cats]; cbn [_capsules_cache _categories_cache];
    [reflexivity|].
  destruct metadata_exists as [msg|[|]]; cbn; [reflexivity| |].
  - destruct read_metadata as [msg|cs]; cbn; try reflexivity;
      destruct fetch_api as [msg'|[cs'|]]; reflexivity.
  - destruct fetch_api as [msg'|[cs'|]]; reflexivity.
Qed.

(** A skill with a cached catalog never looks at the file. *)
Lemma path_error_cached {env : Env} (cs : list Capsule)
  (cats : option (dict nat)) :
  path_error (mkHubLabSkill (Some cs) cats) = None.
Proof. reflexivity. Qed.

(** [_load_capsules] raises in one case only: nothing is cached and the
    test for the metadata file raises; the skill is then as it was.
    Otherwise it serves the cached catalog if there is one, else the catalog
    of the metadata file, else that of the API, else the empty list.  A
    catalog that was found is cached: the next call returns it again
    without looking at file or API, whatever they then hold.  A load that
    found nothing leaves the skill as it was, so the next call tries
    again. *)
Theorem _load_capsules_caches_what_it_finds
  (env env' : Env) (s : HubLabSkill) :
  match @path_error env s with
  | Some e => @_load_capsules env s = (Raise e, s)
  | None =>
      fst (@_load_capsules env s) = Return (@served_catalog env s) /\
      if @catalog_found env s
      then @_load_capsules env' (snd (@_load_capsules env s))
           = (Return (@served_catalog env s), snd (@_load_capsules env s))
      else snd (@_load_capsules env s) = s
  end.
Proof.
  rewrite (@_load_capsules_unfold env s).
  destruct (@path_error env s); [reflexivity|]; cbn [fst snd].
  split; [reflexivity|].
  destruct (@catalog_found env s); [|reflexivity].
  rewrite (@_load_capsules_unfold env'); reflexivity.
Qed.

Lemma dict_get_set {V} (k k' : string) (v : V) (d : dict V) :
  dict_get k (dict_set k' v d)
  = if String.eqb k k' then Some v else dict_get k d.
Proof.
  destruct (String.eqb k k') eqn:E.
  - apply String.eqb_eq in E; subst k'; apply dict_get_set_same.
  - apply String.eqb_neq in E; apply dict_get_set_other, E.
Qed.

Lemma sum_counts_set (k : string) (d : dict nat) :
  sum_counts (dict_set k (count_of k d + 1) d) = sum_counts d + 1.
Proof.
  unfold sum_counts, count_of; induction d as [|[k0 n0] d IH];
    cbn [dict_set dict_get map list_sum snd fold_right].
  - cbn; lia.
  - destruct (String.eqb k k0); cbn [map list_sum snd fold_right];
      [lia|].
    unfold list_sum in IH; rewrite IH; lia.
Qed.

Lemma count_categories_acc (capsules : list Capsule) :
  forall acc : dict nat,
  NoDup (dict_keys acc) ->
  NoDup (dict_keys (fold_left count_capsule capsules acc)) /\
  sum_counts (fold_left count_capsule capsules acc)
  = sum_counts acc + List.length capsules /\
  forall cat,
    count_of cat (fold_left count_capsule capsules acc)
    = count_of cat acc + capsules_of cat capsules /\
    (dict_contains cat (fold_left count_capsule capsules acc) = true <->
     dict_contains cat acc = true \/ 0 < capsules_of cat capsules).
Proof.
  induction capsules as [|cap capsules IH]; intros acc Hacc;
    cbn [fold_left List.length].
  - split; [exact Hacc|]; split; [lia|].
    intro cat; unfold capsules_of; cbn; split; [lia|].
    split; [auto|intros [H|H]; [exact H|lia]].
  - destruct (IH (count_capsule acc cap)) as (Hnd & Hsum & Hcat).
    { apply dict_set_NoDup, Hacc. }
    split; [exact Hnd|]; split.
    + rewrite Hsum; unfold count_capsule; rewrite sum_counts_set; lia.
    + intro cat; destruct (Hcat cat) as [Hcount Hin].
      unfold capsules_of in *; cbn [filter].
      unfold count_capsule, count_of, dict_contains in *.
      rewrite dict_get_set in Hcount, Hin.
      destruct (String.eqb cat (category_of cap)) eqn:E.
      * apply String.eqb_eq in E; subst cat.
        rewrite String.eqb_refl; cbn [List.length].
        split; [rewrite Hcount; lia|].
        rewrite Hin; split; [intros _; right; lia|intros _; left; reflexivity].
      * rewrite String.eqb_sym, E.
        split; [exact Hcount|exact Hin].
Qed.

(** The table [_get_categories] builds from a catalog lists every category
    once; the count of a category is the number of capsules that bear it,
    capsules without a category counting under "Other"; a category is listed
    exactly when some capsule bears it; and the counts add up to the size of
    the catalog. *)
Theorem count_categories_counts (capsules : list Capsule) :
  NoDup (dict_keys (count_categories capsules)) /\
  sum_counts (count_categories capsules) = List.length capsules /\
  forall cat,
    dict_get cat (count_categories capsules)
    = if Nat.eqb (capsules_of cat capsules) 0 then None
      else Some (capsules_of cat capsules).
Proof.
  destruct (@count_categories_acc capsules []) as (Hnd & Hsum & Hcat);
    [constructor|].
  split; [exact Hnd|]; split; [exact Hsum|].
  intro cat; destruct (Hcat cat) as [Hcount Hin].
  unfold count_categories, count_of, dict_contains in *; cbn in Hcount, Hin.
  destruct (dict_get cat (fold_left count_capsule capsules [])) as [n|].
  - subst n.
    assert (Hpos : 0 < capsules_of cat capsules).
    { destruct Hin as [Hin _]; destruct (Hin eq_refl) as [H|H];
        [discriminate H|exact H]. }
    destruct (Nat.eqb_spec (capsules_of cat capsules) 0); [lia|reflexivity].
  - destruct (Nat.eqb_spec (capsules_of cat capsules) 0); [reflexivity|].
    destruct Hin as [_ Hin].
    assert (H : false = true) by (apply Hin; right; lia).
    discriminate H.
Qed.

Lemma _get_categories_unfold {env : Env} (s : HubLabSkill) :
  _get_categories s
  = match _categories_cache s with
    | Some cached => (Return cached, s)
    | None =>
        match path_error s with
        | Some e => (Raise e, s)
        | None =>
            (Return (count_categories (served_catalog s)),
             mkHubLabSkill
               (if catalog_found s then Some (served_catalog s)
                else _capsules_cache s)
               (Some (count_categories (served_catalog s))))
        end
    end.
Proof.
  unfold _get_categories, bind at 1, get.
  destruct (_categories_cache s) as [cached|] eqn:Hc; [reflexivity|].
  unfold bind; rewrite _load_capsules_unfold.
  destruct (path_error s); [reflexivity|].
  destruct (catalog_found s); cbn; rewrite ?Hc; reflexivity.
Qed.

(** The categories are computed once.  Whatever [_get_categories] returned
    first is what every later call returns, also when it was computed while
    the catalog could not be loaded: the table is then empty and stays
    empty, although the capsules are not cached and a later load, with file
    or API back, serves them (or raises, if the test for the file then
    raises). *)
Theorem _get_categories_is_computed_once
  (env env' : Env) (s : HubLabSkill) :
  _categories_cache s = None ->
  @cannot_load env s ->
  @_get_categories env s
  = (Return [], mkHubLabSkill None (Some [])) /\
  @_get_categories env' (mkHubLabSkill None (Some []))
  = (Return [], mkHubLabSkill None (Some [])) /\
  fst (@_load_capsules env' (mkHubLabSkill None (Some [])))
  = match @path_error env' new_skill with
    | Some e => Raise e
    | None => Return (@served_catalog env' new_skill)
    end.
Proof.
  intros Hcats (Hcache & Hfile & [msg Hapi]).
  assert (Hpath : @path_error env s = None).
  { unfold path_error; rewrite Hcache.
    destruct Hfile as [->|[-> _]]; reflexivity. }
  assert (Hserved : @served_catalog env s = []).
  { unfold served_catalog, api_catalog; rewrite Hcache, Hapi.
    destruct Hfile as [->|[-> [m ->]]]; reflexivity. }
  assert (Hfound : @catalog_found env s = false).
  { unfold catalog_found; rewrite Hcache, Hapi.
    destruct Hfile as [->|[-> [m ->]]]; reflexivity. }
  rewrite (@_get_categories_unfold env), Hcats, Hpath, Hserved, Hfound,
    Hcache.
  split; [reflexivity|].
  rewrite (@_get_categories_unfold env'), (@_load_capsules_unfold env').
  split; [reflexivity|].
  change (@path_error env' (mkHubLabSkill None (Some [])))
    with (@path_error env' new_skill).
  destruct (@path_error env' new_skill); reflexivity.
Qed.

Lemma insert_desc_perm {A} (key : A -> Z) (x : A) (l : list A) :
  Permutation (insert_desc key x l) (x :: l).
Proof.
  induction l as [|y r IH]; cbn [insert_desc]; [reflexivity|].
  destruct (key x <? key y)%Z; [|reflexivity].
  rewrite IH; apply perm_swap.
Qed.

Lemma sorted_desc_perm {A} (key : A -> Z) (l : list A) :
  Permutation (sorted_desc key l) l.
Proof.
  induction l as [|x l IH]; cbn; [reflexivity|].
  rewrite insert_desc_perm; constructor; exact IH.
Qed.

Lemma insert_desc_sorted {A} (key : A -> Z) (x : A) (l : list A) :
  StronglySorted (fun a b => (key b <= key a)%Z) l ->
  StronglySorted (fun a b => (key b <= key a)%Z) (insert_desc key x l).
Proof.
  induction 1 as [|y r Hr IH Hy]; cbn [insert_desc].
  - repeat constructor.
  - destruct (key x <? key y)%Z eqn:E.
    + apply Z.ltb_lt in E; constructor; [exact IH|].
      rewrite Forall_forall; intros z Hz.
      apply (Permutation_in _ (insert_desc_perm key x r)) in Hz.
      destruct Hz as [<-|Hz]; [lia|].
      rewrite Forall_forall in Hy; exact (Hy z Hz).
    + apply Z.ltb_ge in E; constructor; [constructor; assumption|].
      constructor; [exact E|].
      rewrite Forall_forall in Hy |- *; intros z Hz.
      specialize (Hy z Hz); cbn in Hy; lia.
Qed.

Lemma sorted_desc_sorted {A} (key : A -> Z) (l : list A) :
  StronglySorted (fun a b => (key b <= key a)%Z) (sorted_desc key l).
Proof.
  induction l as [|x l IH]; cbn; [constructor|].
  apply insert_desc_sorted, IH.
Qed.

(** [hublab_categories] lists every category of the table once, by
    non-increasing count; [total_capsules] is the sum of the counts and, when
    the table is computed by this very call, the size of the catalog
    served.  It raises in one case only: the table has to be computed, no
    catalog is cached and the test for the metadata file raises. *)
Theorem hublab_categories_lists_by_count {env : Env} (s : HubLabSkill) :
  match categories_error s with
  | Some e => fst (hublab_categories s) = Raise e
  | None =>
      exists categories ranked,
        fst (_get_categories s) = Return categories /\
        fst (hublab_categories s)
        = Return (JDict [("total_categories",
                          JInt (Z.of_nat (List.length categories)));
                         ("total_capsules",
                          JInt (Z.of_nat (sum_counts categories)));
                         ("categories",
                          JList (map category_entry ranked))]) /\
        Permutation ranked categories /\
        StronglySorted (fun a b => snd b <= snd a) ranked /\
        match _categories_cache s with
        | None => sum_counts categories = List.length (served_catalog s)
        | Some _ => True
        end
  end.
Proof.
  unfold categories_error, hublab_categories, bind.
  rewrite _get_categories_unfold.
  assert (Hsorted : forall cats : dict nat,
    StronglySorted (fun a b => snd b <= snd a) (sorted_desc count_key cats)).
  { intro cats.
    pose proof (sorted_desc_sorted count_key cats) as H.
    induction H as [|x l Hl IH Hx]; constructor; [exact IH|].
    rewrite Forall_forall in Hx |- *; intros y Hy.
    specialize (Hx y Hy); unfold count_key in Hx; lia. }
  destruct (_categories_cache s) as [cached|]; cbn [fst snd].
  - exists cached, (sorted_desc count_key cached).
    split; [reflexivity|]; split; [reflexivity|].
    split; [apply sorted_desc_perm|]; split; [apply Hsorted|exact I].
  - destruct (path_error s); [reflexivity|]; cbn [fst snd].
    exists (count_categories (served_catalog s)),
           (sorted_desc count_key (count_categories (served_catalog s))).
    split; [reflexivity|]; split; [reflexivity|].
    split; [apply sorted_desc_perm|]; split; [apply Hsorted|].
    destruct (@count_categories_acc (served_catalog s) [] (NoDup_nil _))
      as (_ & Hsum & _).
    exact Hsum.
Qed.

Lemma browse_loop_shows (category : string) (limit : Z)
  (capsules : list Capsule) :
  forall results : list json,
  List.length results < Z.to_nat (Z.max 1 limit) ->
  browse_loop category limit capsules results
  = results
    ++ map browse_entry
         (firstn (Z.to_nat (Z.max 1 limit) - List.length results)
                 (filter (in_category category) capsules)).
Proof.
  induction capsules as [|cap rest IH]; intros results Hlen;
    cbn [browse_loop filter].
  - rewrite firstn_nil, app_nil_r; reflexivity.
  - destruct (in_category category cap); [|apply IH, Hlen].
    destruct (Z.to_nat (Z.max 1 limit) - List.length results) as [|k] eqn:Hk;
      [lia|].
    cbn [firstn map].
    rewrite length_app; cbn [List.length].
    destruct (Z.leb_spec limit (Z.of_nat (List.length results + 1))) as [H|H].
    + assert (k = 0) by lia; subst k; reflexivity.
    + rewrite IH by (rewrite length_app; cbn [List.length]; lia).
      rewrite length_app; cbn [List.length].
      replace (Z.to_nat (Z.max 1 limit) - (List.length results + 1)) with k
        by lia.
      rewrite <- app_assoc; reflexivity.
Qed.

(** [hublab_browse] shows the first capsules of the category, in catalog
    order, up to [limit] of them, but always at least one when the category
    has any: the test for [limit] comes after the first capsule has been
    added, so a [limit] of zero or less still shows one.  When the category
    has none, the count is 0 and a hint takes the place of the list.  It
    raises in one case only: no catalog is cached and the test for the
    metadata file raises. *)
Theorem hublab_browse_shows_at_least_one
  {env : Env} (category : string) (limit : Z) (s : HubLabSkill) :
  match path_error s with
  | Some e => fst (hublab_browse category limit s) = Raise e
  | None =>
      match firstn (Z.to_nat (Z.max 1 limit))
                   (filter (in_category category) (served_catalog s)) with
      | [] =>
          exists hint,
            fst (hublab_browse category limit s)
            = Return (JDict [("category", JStr category);
                             ("count", JInt 0);
                             ("hint", JStr hint);
                             ("all_categories_url",
                              JStr "Use hublab_categories to see all")])
      | shown =>
          fst (hublab_browse category limit s)
          = Return (JDict [("category", JStr category);
                           ("count", JInt (Z.of_nat (List.length shown)));
                           ("capsules", JList (map browse_entry shown))])
      end
  end.
Proof.
  destruct (path_error s) as [e|] eqn:Hpath.
  { unfold hublab_browse, bind; rewrite _load_capsules_unfold, Hpath.
    reflexivity. }
  assert (Hrun : forall shown,
    firstn (Z.to_nat (Z.max 1 limit))
           (filter (in_category category) (served_catalog s)) = shown ->
    hublab_browse category limit s
    = match map browse_entry shown with
      | [] =>
          bind _get_categories
            (fun categories =>
               ret (JDict
                      [("category", JStr category);
                       ("count", JInt 0);
                       ("hint",
                        JStr ("Category not found. Similar: "
                              ++ py_repr
                                   (JList
                                      (map JStr
                                         (firstn 5
                                            (filter
                                               (fun c =>
                                                  str_in (lower category)
                                                         (lower c))
                                               (dict_keys categories))))))%string);
                       ("all_categories_url",
                        JStr "Use hublab_categories to see all")]))
            (snd (_load_capsules s))
      | results =>
          (Return (JDict [("category", JStr category);
                          ("count", JInt (Z.of_nat (List.length results)));
                          ("capsules", JList results)]),
           snd (_load_capsules s))
      end).
  { intros shown Hshown.
    unfold hublab_browse, bind at 1; rewrite _load_capsules_unfold, Hpath.
    rewrite browse_loop_shows by (cbn [List.length]; lia).
    cbn [app List.length snd]; rewrite Nat.sub_0_r, Hshown.
    destruct (map browse_entry shown); reflexivity. }
  destruct (firstn (Z.to_nat (Z.max 1 limit))
                   (filter (in_category category) (served_catalog s)))
    as [|cap shown] eqn:Hshown.
  - rewrite (Hrun [] eq_refl); cbn [map]; unfold bind.
    destruct (_get_categories _) as [[cats|e] s'] eqn:Hcats.
    + eexists; reflexivity.
    + rewrite _get_categories_unfold, _load_capsules_unfold, Hpath in Hcats.
      cbn [snd] in Hcats.
      destruct (catalog_found s); cbn [_categories_cache] in Hcats;
        destruct (_categories_cache s);
        rewrite ?path_error_cached, ?Hpath in Hcats; discriminate Hcats.
  - rewrite (Hrun (cap :: shown) eq_refl); cbn [map List.length fst].
    rewrite length_map; reflexivity.
Qed.

End CatalogFacts.

(** ** The HubLab skill: what a query matches and how results are ranked *)
Section MoreSearchFacts.

Import Py HubLab Catalog.
Local Open Scope string_scope.
Local Open Scope list_scope.
Local Open Scope Z_scope.

Lemma prefix_refl (s : string) : prefix s s = true.
Proof.
  induction s as [|c s IH]; cbn; [reflexivity|].
  destruct (ascii_dec c c); [exact IH|contradiction].
Qed.

Lemma prefix_str_in (q s : string) : prefix q s = true -> str_in q s = true.
Proof.
  unfold str_in; intro H; destruct s as [|c s]; cbn [index].
  - destruct q; [reflexivity|discriminate H].
  - rewrite H; reflexivity.
Qed.

Lemma str_in_refl (s : string) : str_in s s = true.
Proof. apply prefix_str_in, prefix_refl. Qed.

Lemma str_in_empty (s : string) : str_in "" s = true.
Proof. apply prefix_str_in; destruct s; reflexivity. Qed.

(** The loop over the tags adds 10 for every tag the query occurs in. *)
Lemma tag_loop (q : string) (tags : list string) : forall score : Z,
  fold_left (fun score tag => if str_in q tag then score + 10 else score)
            tags score
  = score + 10 * Z.of_nat (List.length (filter (str_in q) tags)).
Proof.
  induction tags as [|t tags IH]; intro score; cbn [fold_left filter].
  - cbn; lia.
  - rewrite IH; destruct (str_in q t); cbn [List.length]; lia.
Qed.

Lemma filter_length_le {A} (f : A -> bool) (l : list A) :
  (List.length (filter f l) <= List.length l)%nat.
Proof.
  induction l as [|x l IH]; cbn; [lia|]; destruct (f x); cbn; lia.
Qed.

Lemma existsb_map {A B} (f : B -> bool) (g : A -> B) (l : list A) :
  existsb f (map g l) = existsb (fun x => f (g x)) l.
Proof.
  induction l as [|x l IH]; cbn; [reflexivity|rewrite IH; reflexivity].
Qed.

Lemma filter_nonempty_existsb {A} (f : A -> bool) (l : list A) :
  (0 < List.length (filter f l))%nat <-> existsb f l = true.
Proof.
  induction l as [|x l IH]; cbn; [split; [lia|discriminate]|].
  destruct (f x); cbn; [split; [reflexivity|lia]|exact IH].
Qed.

(** The case analysis on the tests of [_match_score]: what the name, the
    tags and their counts entail is kept as [Hex], the impossible
    combinations are closed. *)
Ltac score_cases cap query :=
  unfold _match_score, matches_capsule; cbv zeta;
  rewrite tag_loop;
  pose proof (filter_length_le (str_in (lower query))
                               (map lower (get_tags cap))) as Hle;
  rewrite length_map in Hle;
  pose proof (filter_nonempty_existsb (str_in (lower query))
                                      (map lower (get_tags cap))) as Hex;
  rewrite existsb_map in Hex;
  assert (Hstart : startswith (lower (get_str (cap_name cap))) (lower query)
                   = true ->
                   str_in (lower query) (lower (get_str (cap_name cap)))
                   = true) by apply prefix_str_in;
  assert (Htag : list_in (lower query) (map lower (get_tags cap)) = true ->
                 existsb (fun tag => str_in (lower query) (lower tag))
                         (get_tags cap) = true)
    by (unfold list_in; rewrite existsb_map, !existsb_exists;
        intros (t & Ht & Heq); exists t; split; [exact Ht|];
        apply String.eqb_eq in Heq; rewrite Heq; apply str_in_refl);
  destruct (String.eqb (lower (get_str (cap_id cap))) (lower query));
  destruct (str_in (lower query) (lower (get_str (cap_name cap))));
  destruct (startswith (lower (get_str (cap_name cap))) (lower query));
  destruct (list_in (lower query) (map lower (get_tags cap)));
  destruct (existsb (fun tag => str_in (lower query) (lower tag))
                    (get_tags cap));
  destruct (str_in (lower query) (lower (get_str (cap_description cap))));
  destruct (str_in (lower query) (lower (get_str (cap_category cap))));
  cbn [orb];
  try (specialize (Hstart eq_refl); discriminate Hstart);
  try (specialize (Htag eq_refl); discriminate Htag).

(** Arithmetic on the score, given what [Hex] says of the matching tags. *)
Ltac score_arith :=
  try lia;
  try (match goal with
       | Hex : _ <-> _ |- _ =>
           destruct Hex as [Hex1 Hex2]; try (specialize (Hex2 eq_refl));
           try (assert (Hf : false = true) by (apply Hex1; lia);
                discriminate Hf);
           lia
       end).

Lemma positive_score_matches (cap : Capsule) (query : string) :
  0 < _match_score cap query <-> matches_capsule query cap = true.
Proof.
  score_cases cap query;
    (split; [intro H; try reflexivity; exfalso
            |intro H; try discriminate H]);
    score_arith.
Qed.

(** A capsule scores above zero exactly when the query, case apart, is its
    id or occurs in its name, in one of its tags, in its description or in
    its category; an occurrence inside the id does not count.  The score is
    never negative and never above 255 plus 10 per tag. *)
Theorem _match_score_positive_iff_match (cap : Capsule) (query : string) :
  (0 < _match_score cap query <-> matches_capsule query cap = true) /\
  0 <= _match_score cap query
  <= 255 + 10 * Z.of_nat (List.length (get_tags cap)).
Proof.
  score_cases cap query;
    (split; [split; [intro H; try reflexivity; exfalso
                    |intro H; try discriminate H]|]);
    score_arith.
Qed.

(** The scoring loop keeps the capsules that score above zero, each with
    its score, in the order of the catalog. *)
Lemma score_all_filter (capsules : list Capsule) (query : string) :
  score_all capsules query
  = map (fun cap => (_match_score cap query, cap))
        (filter (fun cap => 0 <? _match_score cap query) capsules).
Proof.
  unfold score_all.
  assert (Hgen : forall acc,
    fold_left
      (fun scored cap =>
         let score := _match_score cap query in
         if 0 <? score then scored ++ [(score, cap)] else scored)
      capsules acc
    = acc ++ map (fun cap => (_match_score cap query, cap))
                 (filter (fun cap => 0 <? _match_score cap query) capsules)).
  { induction capsules as [|c cs IH]; intro acc; cbn [fold_left filter].
    - rewrite app_nil_r; reflexivity.
    - rewrite IH; cbv zeta.
      destruct (0 <? _match_score c query); [|reflexivity].
      rewrite <- app_assoc; reflexivity. }
  apply Hgen.
Qed.

Context {env : Env}.

(** With a catalog to serve, the test for the file, if it was made, has
    returned. *)
Lemma served_catalog_path (s : HubLabSkill) :
  served_catalog s <> [] -> path_error s = None.
Proof.
  unfold served_catalog, path_error.
  destruct (_capsules_cache s); [reflexivity|].
  destruct metadata_exists; [intro H; contradiction H|]; reflexivity.
Qed.

(** [hublab_search] in one step, when the load returns. *)
Lemma hublab_search_unfold (query : string) (category : option string)
  (limit : Z) (s : HubLabSkill) :
  path_error s = None ->
  hublab_search query category limit s
  = (Return
       match served_catalog s with
       | [] => load_error
       | _ :: _ =>
           JDict
             [("query", JStr query);
              ("category_filter", jopt category);
              ("count",
               JInt (Z.of_nat
                       (List.length
                          (map result_entry
                             (slice_to limit
                                (sort_by_score
                                   (score_all
                                      (filter_category category
                                         (served_catalog s))
                                      query)))))));
              ("total_searched",
               JInt (Z.of_nat
                       (List.length
                          (filter_category category (served_catalog s)))));
              ("results",
               JList (map result_entry
                        (slice_to limit
                           (sort_by_score
                              (score_all
                                 (filter_category category
                                    (served_catalog s))
                                 query)))))]
       end,
     snd (_load_capsules s)).
Proof.
  intro Hpath.
  unfold hublab_search, bind; rewrite _load_capsules_unfold, Hpath; cbn [snd].
  destruct (served_catalog s); reflexivity.
Qed.

Lemma sorted_split {A} (R : A -> A -> Prop) (l1 l2 : list A) :
  StronglySorted R (l1 ++ l2) ->
  forall a b, In a l1 -> In b l2 -> R a b.
Proof.
  induction l1 as [|x l1 IH]; cbn; intros Hs a b Ha Hb; [contradiction|].
  inversion Hs as [|? ? Hrest Hx]; subst.
  destruct Ha as [<-|Ha]; [|exact (IH Hrest a b Ha Hb)].
  rewrite Forall_forall in Hx; apply Hx, in_or_app; right; exact Hb.
Qed.

(** The results of a search are the best matches.  With a catalog at hand,
    the matching capsules of the category asked for fall into those that
    are returned and those that are left out, and no capsule left out
    scores higher than one that is returned; every capsule returned is of
    the category asked for and matches the query. *)
Theorem hublab_search_keeps_the_best
  (query : string) (category : option string) (limit : Z) (s : HubLabSkill) :
  served_catalog s <> [] ->
  exists j kept dropped,
    fst (hublab_search query category limit s) = Return j /\
    results_of j = Some (map result_entry kept) /\
    Permutation
      (kept ++ dropped)
      (map (fun cap => (_match_score cap query, cap))
           (filter (matches_capsule query)
                   (filter_category category (served_catalog s)))) /\
    (forall k d, In k kept -> In d dropped -> fst d <= fst k) /\
    (forall k, In k kept ->
               In (snd k) (filter_category category (served_catalog s)) /\
               matches_capsule query (snd k) = true).
Proof.
  intro Hne.
  rewrite hublab_search_unfold by exact (@served_catalog_path s Hne); cbn [fst].
  destruct (served_catalog s) as [|c cs] eqn:Hserved;
    [contradiction Hne; reflexivity|].
  set (capsules := filter_category category (c :: cs)).
  set (ranked := sort_by_score (score_all capsules query)).
  destruct (slice_to_prefix limit ranked) as [k Hk]; rewrite Hk.
  assert (Hfilter : filter (fun cap => 0 <? _match_score cap query) capsules
                    = filter (matches_capsule query) capsules).
  { apply filter_ext; intro cap.
    destruct (positive_score_matches cap query) as [H1 H2].
    destruct (matches_capsule query cap) eqn:Hm.
    - apply Z.ltb_lt, H2; reflexivity.
    - apply Z.ltb_ge; destruct (Z.lt_ge_cases 0 (_match_score cap query))
        as [Hlt|Hge]; [specialize (H1 Hlt); discriminate H1|exact Hge]. }
  assert (Hperm : Permutation (firstn k ranked ++ skipn k ranked)
                    (map (fun cap => (_match_score cap query, cap))
                         (filter (matches_capsule query) capsules))).
  { rewrite firstn_skipn; unfold ranked.
    rewrite sort_by_score_perm, score_all_filter, Hfilter; reflexivity. }
  eexists; exists (firstn k ranked), (skipn k ranked).
  split; [reflexivity|]; split; [reflexivity|]; split; [exact Hperm|].
  split.
  - intros a d Ha Hd.
    pose proof (sort_by_score_sorted (score_all capsules query)) as Hs.
    fold ranked in Hs; rewrite <- (firstn_skipn k ranked) in Hs.
    exact (sorted_split _ _ Hs a d Ha Hd).
  - intros a Ha.
    assert (Hin : In a (map (fun cap => (_match_score cap query, cap))
                            (filter (matches_capsule query) capsules))).
    { apply (Permutation_in _ Hperm), in_or_app; left; exact Ha. }
    apply in_map_iff in Hin; destruct Hin as (cap & <- & Hcap).
    apply filter_In in Hcap; exact Hcap.
Qed.

(** The empty query matches every capsule: a search for [""] with a
    non-negative [limit] returns as many results as the category asked for
    has capsules, or [limit] of them if that is fewer. *)
Theorem hublab_search_empty_query_matches_all
  (category : option string) (limit : Z) (s : HubLabSkill) :
  served_catalog s <> [] ->
  0 <= limit ->
  (forall cap, 115 <= _match_score cap "") /\
  exists j results,
    fst (hublab_search "" category limit s) = Return j /\
    results_of j = Some results /\
    List.length results
    = Nat.min (Z.to_nat limit)
              (List.length (filter_category category (served_catalog s))).
Proof.
  intros Hne Hlimit.
  assert (Hscore : forall cap, 115 <= _match_score cap "").
  { intro cap; unfold _match_score; cbv zeta; rewrite tag_loop.
    change (lower "") with "".
    unfold startswith; rewrite !str_in_empty.
    replace (prefix "" (lower (get_str (cap_name cap)))) with true
      by (destruct (lower (get_str (cap_name cap))); reflexivity).
    destruct (String.eqb (lower (get_str (cap_id cap))) "");
      destruct (list_in "" (map lower (get_tags cap))); lia. }
  split; [exact Hscore|].
  rewrite hublab_search_unfold by exact (@served_catalog_path s Hne); cbn [fst].
  destruct (served_catalog s) as [|c cs] eqn:Hserved;
    [contradiction Hne; reflexivity|].
  eexists; eexists; split; [reflexivity|]; split; [reflexivity|].
  rewrite length_map; unfold slice_to.
  destruct (Z.leb_spec 0 limit); [|lia].
  rewrite length_firstn.
  rewrite (Permutation_length (sort_by_score_perm _)), score_all_filter.
  rewrite length_map.
  rewrite forallb_filter_id; [reflexivity|].
  apply forallb_forall; intros cap _; apply Z.ltb_lt.
  specialize (Hscore cap); lia.
Qed.

End MoreSearchFacts.

(** The categories asked for while offline, then the catalog back. *)
Lemma _get_categories_is_computed_once_witness :
  HubLab._categories_cache HubLab.new_skill = None /\
  @HubLab.cannot_load MoreExamples.offline_env HubLab.new_skill /\
  @Catalog._get_categories MoreExamples.offline_env HubLab.new_skill
  = (Py.Return [], HubLab.mkHubLabSkill None (Some [])) /\
  @Catalog._get_categories Examples.hublab_env
    (HubLab.mkHubLabSkill None (Some []))
  = (Py.Return [], HubLab.mkHubLabSkill None (Some [])) /\
  fst (@HubLab._load_capsules Examples.hublab_env
         (HubLab.mkHubLabSkill None (Some [])))
  = Py.Return Examples.catalog.
Proof.
  assert (H : @HubLab.cannot_load MoreExamples.offline_env HubLab.new_skill).
  { split; [reflexivity|]; split; [left; reflexivity|].
    exists "network down"%string; reflexivity. }
  split; [reflexivity|]; split; [exact H|].
  exact (@_get_categories_is_computed_once MoreExamples.offline_env
           Examples.hublab_env HubLab.new_skill eq_refl H).
Defined.

(** The search for ["button"] in the example catalog, cut after one. *)
Lemma hublab_search_keeps_the_best_witness :
  @Catalog.served_catalog Examples.hublab_env HubLab.new_skill <> [] /\
  exists j kept dropped,
    fst (@HubLab.hublab_search Examples.hublab_env "button" None 1
                               HubLab.new_skill)
    = Py.Return j /\
    HubLab.results_of j = Some (map HubLab.result_entry kept) /\
    Permutation
      (kept ++ dropped)
      (map (fun cap => (HubLab._match_score cap "button", cap))
           (filter (Catalog.matches_capsule "button")
                   (HubLab.filter_category None
                      (@Catalog.served_catalog Examples.hublab_env
                                               HubLab.new_skill)))) /\
    (forall k d, In k kept -> In d dropped -> (fst d <= fst k)%Z) /\
    (forall k, In k kept ->
               In (snd k)
                  (HubLab.filter_category None
                     (@Catalog.served_catalog Examples.hublab_env
                                              HubLab.new_skill)) /\
               Catalog.matches_capsule "button" (snd k) = true).
Proof.
  assert (H : @Catalog.served_catalog Examples.hublab_env HubLab.new_skill
              <> []) by discriminate.
  split; [exact H|].
  exact (@hublab_search_keeps_the_best Examples.hublab_env "button" None 1
           HubLab.new_skill H).
Defined.

(** The empty query on the example catalog, within the category "UI". *)
Lemma hublab_search_empty_query_matches_all_witness :
  @Catalog.served_catalog Examples.hublab_env HubLab.new_skill <> [] /\
  (0 <= 20)%Z /\
  (forall cap, (115 <= HubLab._match_score cap "")%Z) /\
  exists j results,
    fst (@HubLab.hublab_search Examples.hublab_env "" (Some "UI"%string) 20
                               HubLab.new_skill)
    = Py.Return j /\
    HubLab.results_of j = Some results /\
    List.length results = 3.
Proof.
  assert (H : @Catalog.served_catalog Examples.hublab_env HubLab.new_skill
              <> []) by discriminate.
  assert (Hl : (0 <= 20)%Z) by lia.
  split; [exact H|]; split; [exact Hl|].
  exact (@hublab_search_empty_query_matches_all Examples.hublab_env
           (Some "UI"%string) 20 HubLab.new_skill H Hl).
Defined.

Example hublab_browse_zero_limit_example :
  option_map (fun j => match j with
                       | Py.JDict d => Py.jget "count" d
                       | _ => Py.JNull
                       end)
    (match fst (@Catalog.hublab_browse Examples.hublab_env "ui" 0
                                       HubLab.new_skill) with
     | Py.Return j => Some j
     | Py.Raise _ => None
     end)
  = Some (Py.JInt 1).
Proof. vm_compute; reflexivity. Qed.
